(** * Kong adversarial validator (kong/adversarial.py)

    A shallow embedding of [AdversarialValidator] and of the part of Python
    it runs on: exceptions as an error monad, [str] values, binary64 floats,
    the dynamically typed values found in JSON-like mappings, and the
    builtins the validator calls on them ([len], [str], truthiness, ordering
    against a number, f-string formatting, [round], [min], [max]).

    Conventions.
    - A Python [str] is a [string]; its characters are read as the code
      points U+0000..U+00FF, on which [lower], [isspace] and [repr] are the
      ones Python has.
    - A Python [float] is a [spec_float] at the binary64 parameters, with
      the operations of the IEEE-754 specification ([SF64mul], [SF64add],
      ...).
    - A Python [dict] with string keys is an association list in insertion
      order; lookup takes the first binding of a key.
    - [str] and [repr] are total here. CPython refuses to render an int of
      more than 4300 digits ([ValueError]) and gives up on a value nested
      beyond its recursion limit ([RecursionError]); the embedding is
      CPython's on the values within these limits ([Py.renders]). So a
      theorem on arbitrary inputs is about a run that returned, or
      excludes no exception these two could add, or assumes [Py.renders]
      of its inputs. *)

From Stdlib Require Import ZArith List String Ascii Bool Lia.
From Stdlib Require Import DecimalString.
From Stdlib Require Import Floats.
Import ListNotations.

Open Scope string_scope.
Open Scope Z_scope.

Set Warnings "-register-all".

(* ================================================================== *)
(** ** Exceptions *)

Module Exc.

(** The subclasses of [Exception] that the modelled code can meet. *)
Inductive exc : Type :=
| TypeError
| ValueError
| KeyError
| IndexError
| AttributeError
| OverflowError
| ZeroDivisionError
| ImportError
| ConnectionError
| TimeoutError
| RuntimeError.

Inductive result (A : Type) : Type :=
| Ok (a : A)
| Raise (e : exc).

Arguments Ok {A} a.
Arguments Raise {A} e.

Definition bind {A B : Type} (r : result A) (k : A -> result B) : result B :=
  match r with
  | Ok a => k a
  | Raise e => Raise e
  end.

(** [try: body except Exception: handler]. *)
Definition try_except {A : Type} (body : result A) (handler : result A)
  : result A :=
  match body with
  | Ok a => Ok a
  | Raise _ => handler
  end.

End Exc.
Export Exc.

Notation "x <- c1 ;; c2" := (bind c1 (fun x => c2))
  (at level 61, c1 at next level, right associativity).
Notation "' pat <- c1 ;; c2" :=
  (bind c1 (fun x => match x with pat => c2 end))
  (at level 61, pat pattern, c1 at next level, right associativity).

(** [a and b] in a condition, [b] possibly raising. *)
Definition and_then (a : result bool) (b : result bool) : result bool :=
  x <- a ;; if x then b else Ok false.

(** [a or b] in a condition. *)
Definition or_else (a : result bool) (b : result bool) : result bool :=
  x <- a ;; if x then Ok true else b.

(* ================================================================== *)
(** ** Strings *)

Module Str.

Definition chr (n : nat) : string := String (ascii_of_nat n) EmptyString.

Definition quote1 : string := chr 39.   (* ' *)
Definition quote2 : string := chr 34.   (* the double quote *)

(** [c.lower()] on U+0000..U+00FF: A-Z, and the Latin-1 capitals
    U+00C0..U+00DE except the multiplication sign U+00D7. *)
Definition lower_char (c : ascii) : ascii :=
  let n := nat_of_ascii c in
  if (((65 <=? n) && (n <=? 90)) ||
      ((192 <=? n) && (n <=? 222) && negb (n =? 215)))%nat
  then ascii_of_nat (n + 32) else c.

(** [s.lower()] *)
Fixpoint lower (s : string) : string :=
  match s with
  | EmptyString => EmptyString
  | String c r => String (lower_char c) (lower r)
  end.

(** [needle in hay] on strings: substring search. *)
Fixpoint contains (needle hay : string) : bool :=
  prefix needle hay ||
  match hay with
  | EmptyString => false
  | String _ r => contains needle r
  end.

(** [sep.join(parts)] *)
Definition join (sep : string) (parts : list string) : string :=
  concat sep parts.

(** [str(n)] for an int, of at most 4300 digits: beyond, CPython raises a
    [ValueError] where this returns the digits ([Py.short_int]). *)
Definition of_Z (z : Z) : string := NilZero.string_of_int (Z.to_int z).

(** [c.isspace()] on U+0000..U+00FF. *)
Definition isspace (c : ascii) : bool :=
  let n := nat_of_ascii c in
  (((9 <=? n) && (n <=? 13)) || ((28 <=? n) && (n <=? 32)) ||
   (n =? 133) || (n =? 160))%nat.

Fixpoint lstrip (s : string) : string :=
  match s with
  | EmptyString => EmptyString
  | String c r => if isspace c then lstrip r else s
  end.

(** Drops trailing whitespace: the result of [rstrip] on [c :: r]. *)
Fixpoint rstrip (s : string) : string :=
  match s with
  | EmptyString => EmptyString
  | String c r =>
      match rstrip r with
      | EmptyString => if isspace c then EmptyString else String c EmptyString
      | r' => String c r'
      end
  end.

(** [s.strip()] *)
Definition strip (s : string) : string := rstrip (lstrip s).

(** [s.split(sep)] for a one-character separator: the fields between the
    separators, at least one. *)
Fixpoint split_on (sep : ascii) (s : string) : list string :=
  match s with
  | EmptyString => [EmptyString]
  | String c r =>
      if Ascii.eqb c sep then EmptyString :: split_on sep r
      else match split_on sep r with
           | f :: fs => String c f :: fs
           | [] => [String c EmptyString]
           end
  end.

(** The characters of a string, each as a string of length one. *)
Fixpoint chars (s : string) : list string :=
  match s with
  | EmptyString => []
  | String c r => String c EmptyString :: chars r
  end.

Definition hex_digit (n : nat) : ascii :=
  ascii_of_nat (if (n <? 10)%nat then 48 + n else 87 + n).

(** [c.isprintable()] on U+0000..U+00FF. *)
Definition isprintable (c : ascii) : bool :=
  let n := nat_of_ascii c in
  (((32 <=? n) && (n <=? 126)) || ((161 <=? n) && negb (n =? 173)))%nat.

(** One character inside [repr(s)], [q] being the quote that delimits it. *)
Definition repr_char (q : ascii) (c : ascii) : string :=
  let n := nat_of_ascii c in
  if (n =? 92)%nat then "\\"
  else if Ascii.eqb c q then String "\" (String q EmptyString)
  else if (n =? 10)%nat then "\n"
  else if (n =? 13)%nat then "\r"
  else if (n =? 9)%nat then "\t"
  else if isprintable c then String c EmptyString
  else String "\" (String "x" (String (hex_digit (n / 16))
                     (String (hex_digit (n mod 16)) EmptyString))).

Fixpoint repr_body (q : ascii) (s : string) : string :=
  match s with
  | EmptyString => EmptyString
  | String c r => repr_char q c ++ repr_body q r
  end.

(** [repr(s)]: single quotes, unless the string has a single quote and no
    double quote. *)
Definition repr (s : string) : string :=
  let q := if contains quote1 s && negb (contains quote2 s)
           then ascii_of_nat 34 else ascii_of_nat 39 in
  String q (repr_body q s ++ String q EmptyString).

(** [n] copies of the character [c]. *)
Definition replicate (n : nat) (c : ascii) : string :=
  string_of_list_ascii (List.repeat c n).

End Str.

(* ================================================================== *)
(** ** Floats: IEEE-754 binary64 *)

Module F64.

Definition float : Type := spec_float.

Definition mul : float -> float -> float := SF64mul.
Definition add : float -> float -> float := SF64add.
Definition sub : float -> float -> float := SF64sub.
Definition div : float -> float -> float := SF64div.
Definition ltb : float -> float -> bool := SFltb.
Definition leb : float -> float -> bool := SFleb.

(** The quotient of two positive integers, rounded to nearest-even: the
    division core of the specification run on the mantissas [n] and [d]
    at exponent 0. *)
Definition div_pos (s : bool) (n d : positive) : float :=
  let '(q, e, l) := SFdiv_core_binary prec emax (Zpos n) 0 (Zpos d) 0 in
  binary_round_aux prec emax s q e l.

(** A decimal literal [n/d] ([d] a power of ten) as Python's reader takes
    it: the binary64 nearest to the rational. *)
Definition lit (n : Z) (d : positive) : float :=
  match n with
  | Z0 => S754_zero false
  | Zpos p => div_pos false p d
  | Zneg p => div_pos true p d
  end.

Definition zero : float := S754_zero false.
Definition one : float := Eval vm_compute in lit 1 1.

(** [float(z)] rounded to nearest-even; [inf] when out of range. *)
Definition of_Z (z : Z) : float := binary_normalize prec emax z 0 false.

(** An integer against a float, exactly. *)
Definition cmp_Z (f : float) (z : Z) : option comparison :=
  match f with
  | S754_nan => None
  | S754_infinity s => Some (if s then Lt else Gt)
  | S754_zero _ => Some (0 ?= z)
  | S754_finite s m e =>
      let sm := if s then Zneg m else Zpos m in
      Some (if 0 <=? e then (sm * 2 ^ e ?= z) else (sm ?= z * 2 ^ (- e)))
  end.

(** [num / den] rounded to the nearest integer, ties to even ([den > 0],
    [num >= 0]). *)
Definition round_half_even (num den : Z) : Z :=
  let q := num / den in
  let r := num mod den in
  match 2 * r ?= den with
  | Lt => q
  | Gt => q + 1
  | Eq => if Z.even q then q else q + 1
  end.

(** The nearest integer to [|m * 2^e * c|], ties to even. *)
Definition scaled_nearest (m : positive) (e : Z) (c : Z) : Z :=
  if 0 <=? e then Zpos m * c * 2 ^ e
  else round_half_even (Zpos m * c) (2 ^ (- e)).

(** [round(x, 3)]: the decimal with three places nearest to the exact value
    of [x] (ties to even), read back as a binary64. *)
Definition round3 (x : float) : float :=
  match x with
  | S754_finite s m e =>
      match scaled_nearest m e 1000 with
      | Zpos n => div_pos s n 1000
      | _ => S754_zero s
      end
  | _ => x
  end.

(** *** Decimal rendering *)

(** [num/den < 10^k], for positive [num] and [den]. *)
Definition lt_pow10 (num den k : Z) : bool :=
  if 0 <=? k then num <? 10 ^ k * den else num * 10 ^ (- k) <? den.

Fixpoint find_decpt (fuel : nat) (num den k : Z) : Z :=
  match fuel with
  | O => k
  | S f => if lt_pow10 num den k then k else find_decpt f num den (k + 1)
  end.

(** The position of the decimal point of [num/den > 0]: the least [k] with
    [num/den < 10^k], searched upwards from an underestimate. *)
Definition decpt (num den : Z) : Z :=
  find_decpt 6 num den ((Z.log2 num - Z.log2 den) * 30103 / 100000 - 1).

(** The [nd]-digit decimals around a finite positive float [m * 2^e] that
    read back as that float, if any: the float, and the two ends of its
    rounding interval, are the numerators [vn], [ln], [hn] over [den]; the
    ends belong to the interval when [m] is even. Of two candidates the
    nearer wins, the even one on a tie. *)
Definition digits_at (m : positive) (e : Z) (k : Z) (nd : Z) : option Z :=
  let up := 2 ^ Z.max e 0 in
  let den := 4 * 2 ^ Z.max (- e) 0 in
  let vn := 4 * Zpos m * up in
  let hn := vn + 2 * up in
  let ln := vn - (if (Zpos m =? 2 ^ 52) && (-1074 <? e) then up else 2 * up) in
  let p := nd - k in
  let s1 := 10 ^ Z.max p 0 in
  let s2 := 10 ^ Z.max (- p) 0 in
  let a := vn * s1 in
  let b := den * s2 in
  let lo := a / b in
  let inside (x y : Z) := if Z.even (Zpos m) then x <=? y else x <? y in
  let lo_ok := inside (ln * s1) (lo * b) in
  let hi_ok := inside ((lo + 1) * b) (hn * s1) in
  match lo_ok, hi_ok with
  | true, true =>
      Some match 2 * (a - lo * b) ?= b with
           | Lt => lo
           | Gt => lo + 1
           | Eq => if Z.even lo then lo else lo + 1
           end
  | true, false => Some lo
  | false, true => Some (lo + 1)
  | false, false => None
  end.

Fixpoint shortest_from (fuel : nat) (m : positive) (e k nd : Z) : Z * Z :=
  match fuel with
  | O => (Zpos m, nd)
  | S f =>
      match digits_at m e k nd with
      | Some c => (c, nd)
      | None => shortest_from f m e k (nd + 1)
      end
  end.

(** The shortest decimal digit string that reads back as [m * 2^e], with
    the position of its decimal point. *)
Definition shortest (m : positive) (e : Z) : string * Z :=
  let k := decpt (Zpos m * 2 ^ Z.max e 0) (2 ^ Z.max (- e) 0) in
  let '(c, nd) := shortest_from 17 m e k 1 in
  if c =? 10 ^ nd then ("1", k + 1) else (Str.of_Z c, k).

(** [repr(x)] of a float, which is also [str(x)]: fixed notation when the
    decimal point falls in [-4 < k <= 16], exponent notation otherwise. *)
Definition repr (x : float) : string :=
  match x with
  | S754_nan => "nan"
  | S754_infinity s => if s then "-inf" else "inf"
  | S754_zero s => if s then "-0.0" else "0.0"
  | S754_finite s m e =>
      let '(ds, k) := shortest m e in
      let n := Z.of_nat (String.length ds) in
      let body :=
        if (-4 <? k) && (k <=? 16) then
          if k <=? 0 then
            "0." ++ Str.replicate (Z.to_nat (- k)) "0" ++ ds
          else if n <=? k then
            ds ++ Str.replicate (Z.to_nat (k - n)) "0" ++ ".0"
          else
            substring 0 (Z.to_nat k) ds ++ "." ++
            substring (Z.to_nat k) (Z.to_nat (n - k)) ds
        else
          let x := k - 1 in
          let ax := Str.of_Z (Z.abs x) in
          substring 0 1 ds ++
          (if 1 <? n then "." ++ substring 1 (Z.to_nat (n - 1)) ds
           else EmptyString) ++
          "e" ++ (if x <? 0 then "-" else "+") ++
          (if Z.abs x <? 10 then "0" else EmptyString) ++ ax in
      (if s then "-" else EmptyString) ++ body
  end.

(** [format(x, '.0%')]: [x * 100] in binary64, then the nearest integer to
    its exact value (ties to even) and a percent sign. *)
Definition format_pct0 (x : float) : string :=
  match mul x (of_Z 100) with
  | S754_nan => "nan%"
  | S754_infinity s => if s then "-inf%" else "inf%"
  | S754_zero s => if s then "-0%" else "0%"
  | S754_finite s m e =>
      (if s then "-" else EmptyString) ++
      Str.of_Z (scaled_nearest m e 1) ++ "%"
  end.

End F64.

(* ================================================================== *)
(** ** Dynamically typed values and the builtins run on them *)

Module Py.

Import F64.

(** What a JSON-like mapping holds. *)
Inductive value : Type :=
| VNone
| VBool (b : bool)
| VInt (z : Z)
| VFloat (f : float)
| VStr (s : string)
| VList (l : list value)
| VDict (d : list (string * value)).

Definition dict : Type := list (string * value).

(** [bool(v)] *)
Definition truthy (v : value) : bool :=
  match v with
  | VNone => false
  | VBool b => b
  | VInt z => negb (z =? 0)
  | VFloat (S754_zero _) => false
  | VFloat _ => true
  | VStr EmptyString => false
  | VStr _ => true
  | VList [] => false
  | VList _ => true
  | VDict [] => false
  | VDict _ => true
  end.

(** [d.get(k, default)] *)
Fixpoint dict_get (d : dict) (k : string) (default : value) : value :=
  match d with
  | [] => default
  | (k', v) :: r => if String.eqb k' k then v else dict_get r k default
  end.

(** [k in d] *)
Definition dict_has (d : dict) (k : string) : bool :=
  existsb (fun kv => String.eqb (fst kv) k) d.

(** [a or b] as a value. *)
Definition py_or (a b : value) : value := if truthy a then a else b.

(** Numbers: [bool] is a subclass of [int]. *)
Inductive num : Type :=
| NInt (z : Z)
| NFloat (f : float).

Definition as_num (v : value) : option num :=
  match v with
  | VBool b => Some (NInt (if b then 1 else 0))
  | VInt z => Some (NInt z)
  | VFloat f => Some (NFloat f)
  | _ => None
  end.

(** The order of two numbers, exact across [int] and [float]; [None] when a
    NaN makes them unordered. *)
Definition num_compare (a b : num) : option comparison :=
  match a, b with
  | NInt x, NInt y => Some (x ?= y)
  | NFloat x, NFloat y => SFcompare x y
  | NFloat x, NInt y => cmp_Z x y
  | NInt x, NFloat y => option_map CompOpp (cmp_Z y x)
  end.

Definition num_lt (a b : num) : bool :=
  match num_compare a b with Some Lt => true | _ => false end.

Definition num_gt (a b : num) : bool :=
  match num_compare a b with Some Gt => true | _ => false end.

(** [v < n] and [v > n] for a numeric literal [n]: a [TypeError] unless [v]
    is a number. *)
Definition py_lt (v : value) (n : num) : result bool :=
  match as_num v with
  | Some a => Ok (num_lt a n)
  | None => Raise TypeError
  end.

Definition py_gt (v : value) (n : num) : result bool :=
  match as_num v with
  | Some a => Ok (num_gt a n)
  | None => Raise TypeError
  end.

(** [len(v)] *)
Definition py_len (v : value) : result Z :=
  match v with
  | VStr s => Ok (Z.of_nat (String.length s))
  | VList l => Ok (Z.of_nat (List.length l))
  | VDict d => Ok (Z.of_nat (List.length d))
  | _ => Raise TypeError
  end.

(** [for x in v]: the items a loop over [v] visits. *)
Definition py_iter (v : value) : result (list value) :=
  match v with
  | VStr s => Ok (map VStr (Str.chars s))
  | VList l => Ok l
  | VDict d => Ok (map (fun kv => VStr (fst kv)) d)
  | _ => Raise TypeError
  end.

(** [v[k]] for a string key [k]. *)
Definition py_getitem (v : value) (k : string) : result value :=
  match v with
  | VDict d => if dict_has d k then Ok (dict_get d k VNone) else Raise KeyError
  | _ => Raise TypeError
  end.

(** [repr(v)], for a value CPython renders: see [renders] below. *)
Fixpoint repr (v : value) : string :=
  match v with
  | VNone => "None"
  | VBool b => if b then "True" else "False"
  | VInt z => Str.of_Z z
  | VFloat f => F64.repr f
  | VStr s => Str.repr s
  | VList l => "[" ++ Str.join ", " (map repr l) ++ "]"
  | VDict d =>
      "{" ++ Str.join ", "
               (map (fun kv => Str.repr (fst kv) ++ ": " ++ repr (snd kv)) d)
          ++ "}"
  end.

(** [str(v)], which is also what [f"{v}"] renders. *)
Definition str (v : value) : string :=
  match v with
  | VStr s => s
  | _ => repr v
  end.

(** Where [str] and [repr] are CPython's. CPython raises a [ValueError] on
    rendering an int of more than [sys.int_max_str_digits] = 4300 digits,
    and a [RecursionError] on rendering a value nested beyond its
    recursion limit (1000 frames by default, the caller's included).
    [renders v] holds when every int in [v] has at most 4300 digits and
    [v] is nested no deeper than 100. *)
Definition max_str_digits : Z := 4300.

Definition short_int (z : Z) : bool := Z.abs z <? 10 ^ max_str_digits.

Fixpoint ints_short (v : value) : bool :=
  match v with
  | VInt z => short_int z
  | VList l => forallb ints_short l
  | VDict d => forallb (fun kv => ints_short (snd kv)) d
  | _ => true
  end.

Fixpoint nesting (v : value) : nat :=
  match v with
  | VList l => S (fold_right (fun x n => Nat.max (nesting x) n) 0%nat l)
  | VDict d => S (fold_right (fun kv n => Nat.max (nesting (snd kv)) n) 0%nat d)
  | _ => 0%nat
  end.

Definition max_nesting : nat := 100.

Definition renders (v : value) : bool :=
  ints_short v && (nesting v <=? max_nesting)%nat.

(** [float(z)] for an int: an [OverflowError] beyond the binary64 range. *)
Definition int_to_float (z : Z) : result float :=
  match F64.of_Z z with
  | S754_infinity _ => Raise OverflowError
  | f => Ok f
  end.

(** [a / b] on ints: the quotient rounded to nearest-even. *)
Definition int_truediv (a b : Z) : result float :=
  match a, b with
  | _, Z0 => Raise ZeroDivisionError
  | Z0, _ => Ok (S754_zero (b <? 0))
  | _, _ =>
      match div_pos (xorb (a <? 0) (b <? 0))
                    (Z.to_pos (Z.abs a)) (Z.to_pos (Z.abs b)) with
      | S754_infinity _ => Raise OverflowError
      | f => Ok f
      end
  end.

(** [n * x] for an int [n] and a float [x]. *)
Definition int_mul_float (n : Z) (x : float) : result float :=
  f <- int_to_float n ;; Ok (mul f x).

(** [f"{v:.0%}"] *)
Definition format_pct0 (v : value) : result string :=
  match v with
  | VFloat f => Ok (F64.format_pct0 f)
  | VInt z => f <- int_to_float z ;; Ok (F64.format_pct0 f)
  | VBool b => Ok (F64.format_pct0 (if b then one else zero))
  | VStr _ => Raise ValueError
  | _ => Raise TypeError
  end.

(** [v.strip()]: only a [str] has the method. *)
Definition py_strip (v : value) : result string :=
  match v with
  | VStr s => Ok (Str.strip s)
  | _ => Raise AttributeError
  end.

(** [round(x, 3)] on a number; an int is its own rounding. *)
Definition round3 (x : num) : num :=
  match x with
  | NInt z => NInt z
  | NFloat f => NFloat (F64.round3 f)
  end.

(** [min(a, b)] on floats: [b] only when [b < a]. *)
Definition fmin (a b : float) : float := if ltb b a then b else a.

(** [max(0, x)] for the int [0] and a float [x]: [x] only when [x > 0]. *)
Definition max0 (x : float) : num :=
  if num_gt (NFloat x) (NInt 0) then NFloat x else NInt 0.

(** [a + b] on numbers: an int is converted when the other side is a
    float. *)
Definition num_add (a b : num) : result num :=
  match a, b with
  | NInt x, NInt y => Ok (NInt (x + y))
  | NInt x, NFloat g => f <- int_to_float x ;; Ok (NFloat (add f g))
  | NFloat f, NInt y => g <- int_to_float y ;; Ok (NFloat (add f g))
  | NFloat f, NFloat g => Ok (NFloat (add f g))
  end.

(** [s / n] for a number [s] and an int [n]. *)
Definition num_truediv (s : num) (n : Z) : result num :=
  match s with
  | NInt z => q <- int_truediv z n ;; Ok (NFloat q)
  | NFloat f =>
      d <- int_to_float n ;;
      match d with
      | S754_zero _ => Raise ZeroDivisionError
      | _ => Ok (NFloat (div f d))
      end
  end.

(** [min(x, *rest)] and [max(x, *rest)] on numbers: a later item replaces
    the current one only when strictly smaller, or strictly greater. *)
Definition num_min (x : num) (rest : list num) : num :=
  fold_left (fun cur item => if num_lt item cur then item else cur) rest x.

Definition num_max (x : num) (rest : list num) : num :=
  fold_left (fun cur item => if num_gt item cur then item else cur) rest x.

End Py.

(* ================================================================== *)
(** ** kong/adversarial.py *)

Module Kong.

Import F64 Py.

(** The float literals of the module. *)
Definition f0_05 : float := lit 5 100.
Definition f0_3 : float := lit 3 10.
Definition f0_4 : float := lit 4 10.
Definition f0_5 : float := lit 5 10.
Definition f0_6 : float := lit 6 10.
Definition f0_7 : float := lit 7 10.
Definition f0_8 : float := lit 8 10.
Definition f0_9 : float := lit 9 10.

(** [AdversarialValidator.__init__]: the five tunables. *)
Record Config : Type := {
  completeness_weight : float;
  consistency_weight : float;
  logic_weight : float;
  confidence_threshold : float;
  max_issues_before_rerun : Z
}.

(** The defaults of [__init__]. *)
Definition default_config : Config := {|
  completeness_weight := f0_4;
  consistency_weight := f0_3;
  logic_weight := f0_3;
  confidence_threshold := f0_7;
  max_issues_before_rerun := 3
|}.

(** [ValidationResult]. [overall_confidence] is the int [0] when [max(0, _)]
    clamps, a float otherwise. *)
Record ValidationResult : Type := {
  overall_confidence : num;
  completeness_score : float;
  consistency_score : float;
  logic_score : float;
  issues_found : list string;
  adversarial_questions : list string;
  recommended_actions : list string;
  should_rerun : bool
}.

Definition in_list (x : string) (l : list string) : bool :=
  existsb (String.eqb x) l.

(** [set.add]; a set of strings is kept as a duplicate-free list, in the
    order of first insertion. *)
Definition set_add (x : string) (s : list string) : list string :=
  if in_list x s then s else s ++ [x].

(** *** [_check_completeness] *)

Definition reserved_keys : list string :=
  ["data_quality_score"; "sources_failed"; "sources_successful";
   "collection_timestamp"; "ticker"; "entity_id"].

(** A mapping counts when it has no falsy [success] and some truthy value
    under another key; anything else counts when truthy. *)
Definition has_data (v : value) : bool :=
  match v with
  | VDict d =>
      truthy (dict_get d "success" (VBool true)) &&
      existsb (fun kv => negb (String.eqb (fst kv) "success") && truthy (snd kv)) d
  | _ => truthy v
  end.

Definition is_source (key : string) (v : value) : bool :=
  truthy v && negb (in_list key reserved_keys) && has_data v.

(** The loop that fills the set [available_sources]. Python leaves the
    iteration order of a set of strings unspecified; here it is the order
    of first insertion, on which only the order of the critical-source
    issues depends. *)
Definition available_sources (raw_data : dict) : list string :=
  fold_left
    (fun acc kv => if is_source (fst kv) (snd kv) then set_add (fst kv) acc else acc)
    raw_data [].

Definition semantic_mappings : list (string * list string) :=
  [("earnings", ["earnings"; "eps"; "revenue"; "quarterly"; "q1"; "q2"; "q3"; "q4";
                 "profit"; "income"; "financial"]);
   ("news", ["news"; "sentiment"; "media"; "coverage"; "article"; "press"]);
   ("analyst", ["analyst"; "rating"; "target"; "consensus"; "upgrade"; "downgrade";
                "buy"; "sell"; "hold"; "overweight"; "underweight"]);
   ("insider", ["insider"; "transaction"; "executive"; "director"; "officer";
                "purchase"; "sale"; "filing"]);
   ("sec", ["sec"; "filing"; "10-k"; "10-q"; "8-k"; "proxy"; "edgar"]);
   ("filings", ["filing"; "regulatory"; "disclosure"; "sec"; "annual"; "quarterly"])].

(** [semantic_mappings.get(name, [name])] *)
Definition related_terms (name : string) : list string :=
  match find (fun kv => String.eqb (fst kv) name) semantic_mappings with
  | Some kv => snd kv
  | None => [name]
  end.

Fixpoint flatten_to_string (obj : value) (depth : nat) {struct obj} : string :=
  if (10 <? depth)%nat then str obj
  else
    match obj with
    | VDict d =>
        Str.join " "
          (flat_map (fun kv => [fst kv; flatten_to_string (snd kv) (S depth)]) d)
    | VList l =>
        Str.join " " (map (fun item => flatten_to_string item (S depth)) l)
    | _ => if truthy obj then str obj else EmptyString
    end.

(** [collect_keys]: the lowercased keys of the nested mappings. *)
Fixpoint collect_keys (obj : value) (depth : nat) {struct obj} : list string :=
  if (5 <? depth)%nat then []
  else
    match obj with
    | VDict d =>
        flat_map (fun kv => Str.lower (fst kv) :: collect_keys (snd kv) (S depth)) d
    | _ => []
    end.

(** One turn of the loop over [available_sources]: direct, semantic, then
    structural match. *)
Definition is_referenced (analysis : dict) (analysis_text : string)
    (source : string) : bool :=
  let source_lower := Str.lower source in
  if Str.contains source_lower analysis_text then true
  else
    let terms := related_terms source_lower in
    let matches :=
      List.length (filter (fun term => Str.contains term analysis_text) terms) in
    if (2 <=? matches)%nat then true
    else
      let analysis_keys := collect_keys (VDict analysis) 0 in
      in_list source_lower analysis_keys ||
      existsb (fun term => existsb (fun key => Str.contains term key) analysis_keys)
              terms.

Definition sources_referenced (analysis : dict) (available : list string)
  : list string :=
  let analysis_text := Str.lower (flatten_to_string (VDict analysis) 0) in
  filter (is_referenced analysis analysis_text) available.

Definition critical_sources : list string :=
  ["earnings"; "filings"; "analyst"; "news"; "insider"; "sec"].

Definition is_critical (source : string) : bool :=
  in_list (Str.lower source) critical_sources ||
  existsb (fun crit => Str.contains crit (Str.lower source)) critical_sources.

Definition critical_issues (available referenced : list string) : list string :=
  flat_map
    (fun source =>
       if is_critical source && negb (in_list source referenced)
       then ["Critical data source '" ++ source ++
             "' available but not clearly analyzed"]
       else [])
    available.

Definition expected_issues (analysis_text : string)
    (expected_fields : option (list string)) : list string :=
  match expected_fields with
  | None => []
  | Some fields =>
      flat_map
        (fun field =>
           if existsb (fun term => Str.contains term analysis_text)
                      (related_terms (Str.lower field))
           then []
           else ["Expected field '" ++ field ++ "' not addressed in analysis"])
        fields
  end.

Definition check_completeness (analysis raw_data : dict)
    (expected_fields : option (list string)) : result (float * list string) :=
  let available := available_sources raw_data in
  let analysis_text := Str.lower (flatten_to_string (VDict analysis) 0) in
  let referenced := sources_referenced analysis available in
  completeness <-
    match available with
    | [] => Ok one
    | _ => int_truediv (Z.of_nat (List.length referenced))
                       (Z.of_nat (List.length available))
    end ;;
  Ok (completeness,
      (critical_issues available referenced ++
       expected_issues analysis_text expected_fields)%list).

(** *** [_check_consistency] *)

(** A scorer's running state: the score and the issues so far. *)
Definition state : Type := (float * list string)%type.

(** [state] after [issues.append(msg); score *= factor]. *)
Definition discount (st : state) (factor : float) (msg : string) : state :=
  (mul (fst st) factor, (snd st ++ [msg])%list).

(** [analysis.get('score') or analysis.get('quality_score', 0)] *)
Definition get_score (analysis : dict) : value :=
  py_or (dict_get analysis "score" VNone) (dict_get analysis "quality_score" (VInt 0)).

(** [analysis.get('findings', []) or analysis.get('key_findings', [])] *)
Definition get_findings (analysis : dict) : value :=
  py_or (dict_get analysis "findings" (VList []))
        (dict_get analysis "key_findings" (VList [])).

(** High confidence with low data quality. *)
Definition rule_low_quality (confidence data_quality : value) (st : state)
  : result state :=
  c <- and_then (Ok (truthy confidence))
         (and_then (py_gt confidence (NFloat f0_8))
                   (py_lt data_quality (NInt 50))) ;;
  if c then
    pct <- format_pct0 confidence ;;
    Ok (discount st f0_6
          ("High confidence (" ++ pct ++ ") despite low data quality (" ++
           str data_quality ++ "%)"))
  else Ok st.

(** High score with many failed sources. *)
Definition rule_failed_sources (score sources_failed : value) (st : state)
  : result state :=
  c <- and_then (Ok (truthy score))
         (and_then (py_gt score (NInt 7))
                   (n <- py_len sources_failed ;; Ok (2 <? n))) ;;
  if c then
    n <- py_len sources_failed ;;
    Ok (discount st f0_7
          ("High score (" ++ str score ++ ") but " ++ Str.of_Z n ++
           " data sources failed"))
  else Ok st.

(** Few findings but high confidence. *)
Definition rule_few_findings (confidence findings : value) (st : state)
  : result state :=
  c <- and_then (Ok (truthy confidence))
         (and_then (py_gt confidence (NFloat f0_8))
                   (n <- py_len findings ;; Ok (n <? 2))) ;;
  if c then
    pct <- format_pct0 confidence ;;
    n <- py_len findings ;;
    Ok (discount st f0_8
          ("High confidence (" ++ pct ++ ") but only " ++ Str.of_Z n ++
           " findings"))
  else Ok st.

Definition contradiction_pairs : list (string * string) :=
  [("positive", "negative"); ("increasing", "decreasing");
   ("strong", "weak"); ("improving", "declining")].

(** One turn of the loop over [contradiction_pairs]. *)
Definition rule_contradiction (findings_str : string) (st : state)
    (pair : string * string) : state :=
  if Str.contains (fst pair) findings_str && Str.contains (snd pair) findings_str
  then discount st f0_9
         ("Potentially contradictory terms in findings: '" ++ fst pair ++
          "' and '" ++ snd pair ++ "'")
  else st.

(** [' '.join(str(f) for f in findings).lower()] *)
Definition findings_text (findings : value) : result string :=
  items <- py_iter findings ;;
  Ok (Str.lower (Str.join " " (map str items))).

Definition check_consistency (analysis raw_data : dict)
  : result (float * list string) :=
  let confidence := dict_get analysis "confidence" (VInt 0) in
  let score := get_score analysis in
  let findings := get_findings analysis in
  let data_quality := dict_get raw_data "data_quality_score" (VInt 100) in
  let sources_failed := dict_get raw_data "sources_failed" (VList []) in
  st1 <- rule_low_quality confidence data_quality (one, []) ;;
  st2 <- rule_failed_sources score sources_failed st1 ;;
  st3 <- rule_few_findings confidence findings st2 ;;
  findings_str <- findings_text findings ;;
  Ok (fold_left (rule_contradiction findings_str) contradiction_pairs st3).

(** *** [_check_logic] *)

(** Strong conclusions need strong evidence. *)
Definition rule_limited_sources (confidence sources_successful : value)
    (st : state) : result state :=
  c <- and_then (Ok (truthy confidence)) (py_gt confidence (NFloat f0_9)) ;;
  if c then
    n <- py_len sources_successful ;;
    if n <? 4 then
      pct <- format_pct0 confidence ;;
      Ok (discount st f0_7
            ("Very high confidence (" ++ pct ++ ") with limited data sources (" ++
             Str.of_Z n ++ " successful)"))
    else Ok st
  else Ok st.

(** Extreme scores need justification. *)
Definition rule_extreme_score (analysis : dict) (score : value) (st : state)
  : result state :=
  if truthy score then
    c <- or_else (py_gt score (NInt 9)) (py_lt score (NInt 1)) ;;
    if c then
      n <- py_len (get_findings analysis) ;;
      if n <? 3 then
        Ok (discount st f0_6
              ("Extreme score (" ++ str score ++
               ") without sufficient supporting findings"))
      else Ok st
    else Ok st
  else Ok st.

(** Recommendations should match findings. *)
Definition rule_unsupported (recommendations findings : value) (st : state)
  : state :=
  if truthy recommendations && negb (truthy findings)
  then discount st f0_7 "Recommendations provided without supporting findings"
  else st.

Definition check_logic (analysis raw_data : dict)
  : result (float * list string) :=
  let confidence := dict_get analysis "confidence" (VInt 0) in
  let score := get_score analysis in
  let sources_successful := dict_get raw_data "sources_successful" (VList []) in
  let data_quality := dict_get raw_data "data_quality_score" (VInt 0) in
  st1 <- rule_limited_sources confidence sources_successful (one, []) ;;
  st2 <- rule_extreme_score analysis score st1 ;;
  let recommendations := dict_get analysis "recommendations" (VList []) in
  let findings := get_findings analysis in
  Ok (rule_unsupported recommendations findings st2).

(** *** [_generate_adversarial_questions] *)

Definition q_current : string :=
  "Is this analysis based on current data or historical trends?".
Definition q_horizon : string :=
  "How might this conclusion change in 3-6 months?".
Definition q_outside : string :=
  "What factors outside the available data could affect this conclusion?".
Definition q_peers : string :=
  "How does this compare to industry peers/benchmarks?".
Definition q_lower_confidence : string :=
  "What would cause you to lower your confidence in this analysis?".
Definition q_raise_confidence : string :=
  "What additional data would increase confidence?".
Definition q_contradictions : string :=
  "Are the contradictions in findings a bug or a feature?".

(** The question on failed sources, when [sources_failed] is truthy. *)
Definition failed_question (sources_failed : value) : result (list string) :=
  if truthy sources_failed then
    n <- py_len sources_failed ;;
    Ok ["How confident can we be with " ++ Str.of_Z n ++
        " data sources unavailable?"]
  else Ok [].

(** The question on data quality, when [data_quality < 80]. *)
Definition quality_question (data_quality : value) : result (list string) :=
  c <- py_lt data_quality (NInt 80) ;;
  Ok (if c then ["Data quality is only " ++ str data_quality ++
                 "% - what are we potentially missing?"]
      else []).

(** The [if]/[elif] on confidence. *)
Definition confidence_question (confidence : value) : result (list string) :=
  hi <- and_then (Ok (truthy confidence)) (py_gt confidence (NFloat f0_8)) ;;
  if hi then Ok [q_lower_confidence]
  else
    lo <- and_then (Ok (truthy confidence)) (py_lt confidence (NFloat f0_5)) ;;
    Ok (if lo then [q_raise_confidence] else []).

Definition contradiction_question (existing_issues : list string) : list string :=
  if existsb (fun issue => Str.contains "contradictory" (Str.lower issue))
             existing_issues
  then [q_contradictions] else [].

Definition generate_adversarial_questions (analysis raw_data : dict)
    (existing_issues : list string) : result (list string) :=
  let sources_failed := dict_get raw_data "sources_failed" (VList []) in
  q1 <- failed_question sources_failed ;;
  let data_quality := dict_get raw_data "data_quality_score" (VInt 100) in
  q2 <- quality_question data_quality ;;
  let confidence := dict_get analysis "confidence" (VInt 0) in
  q3 <- confidence_question confidence ;;
  Ok (q1 ++ q2 ++ [q_current; q_horizon; q_outside; q_peers] ++ q3 ++
      contradiction_question existing_issues)%list.

(** *** [_generate_recommendations] *)

Definition generate_recommendations (completeness consistency logic : float)
    (issues questions : list string) : list string :=
  let recommendations :=
    ((if ltb completeness f0_8
      then ["ADD_DATA: Collect missing data sources before reanalysis"] else []) ++
     (if ltb consistency f0_7
      then ["REVIEW: Manual review needed for inconsistencies"] else []) ++
     (if ltb logic f0_7
      then ["RERUN: Conclusions may not follow from evidence"] else []) ++
     (if (5 <? List.length issues)%nat
      then ["ESCALATE: Too many issues for automated resolution"] else []) ++
     (if (4 <? List.length questions)%nat
      then ["DEEP_DIVE: Many unanswered questions require investigation"] else []))%list in
  match recommendations with
  | [] => ["APPROVED: Analysis passes adversarial validation"]
  | _ => recommendations
  end.

(** *** [validate] *)

(** [completeness * w_c + consistency * w_s + logic * w_l] *)
Definition weighted_sum (cfg : Config) (completeness consistency logic : float)
  : float :=
  add (add (mul completeness (completeness_weight cfg))
           (mul consistency (consistency_weight cfg)))
      (mul logic (logic_weight cfg)).

(** [min(len(issues) * 0.05, 0.3)] *)
Definition issue_penalty (issues : list string) : result float :=
  p <- int_mul_float (Z.of_nat (List.length issues)) f0_05 ;;
  Ok (fmin p f0_3).

(** [max(0, overall_confidence - issue_penalty)] *)
Definition penalized (overall penalty : float) : num :=
  max0 (sub overall penalty).

(** [overall_confidence < threshold or len(issues) > max_issues] *)
Definition rerun_decision (cfg : Config) (overall : num) (issues : list string)
  : bool :=
  num_lt overall (NFloat (confidence_threshold cfg)) ||
  (max_issues_before_rerun cfg <? Z.of_nat (List.length issues)).

(** The method [_generate_adversarial_questions], which a subclass
    overrides. *)
Definition QuestionGenerator : Type :=
  dict -> dict -> list string -> result (list string).

(** [validate], with the question generator [self] dispatches to. *)
Definition validate_with (generate : QuestionGenerator) (cfg : Config)
    (analysis raw_data : dict) (expected_fields : option (list string))
  : result ValidationResult :=
  '(completeness, completeness_issues) <-
     check_completeness analysis raw_data expected_fields ;;
  '(consistency, consistency_issues) <- check_consistency analysis raw_data ;;
  '(logic, logic_issues) <- check_logic analysis raw_data ;;
  let issues := (completeness_issues ++ consistency_issues ++ logic_issues)%list in
  questions <- generate analysis raw_data issues ;;
  let overall := weighted_sum cfg completeness consistency logic in
  penalty <- issue_penalty issues ;;
  let overall := penalized overall penalty in
  let rerun := rerun_decision cfg overall issues in
  let recommendations :=
    generate_recommendations completeness consistency logic issues questions in
  Ok {| overall_confidence := round3 overall;
        completeness_score := F64.round3 completeness;
        consistency_score := F64.round3 consistency;
        logic_score := F64.round3 logic;
        issues_found := issues;
        adversarial_questions := questions;
        recommended_actions := recommendations;
        should_rerun := rerun |}.

(** [AdversarialValidator.validate] *)
Definition validate : Config -> dict -> dict -> option (list string) ->
                      result ValidationResult :=
  validate_with generate_adversarial_questions.

(** *** [OllamaAdversarialValidator._generate_adversarial_questions] *)

(** What the language-model client does with one prompt: the prompt is a
    function of the analysis, the raw data and the issues, so the client is
    taken as a function of these; its answer is any value, or an
    exception. *)
Definition Client : Type := dict -> dict -> list string -> result value.

(** [response['message']['content'].strip().split('\n')], then the first
    three non-blank lines, stripped. *)
Definition parse_response (response : value) : result (list string) :=
  message <- py_getitem response "message" ;;
  content <- py_getitem message "content" ;;
  text <- py_strip content ;;
  let lines := Str.split_on (ascii_of_nat 10) text in
  Ok (firstn 3
        (map Str.strip
             (filter (fun q => truthy (VStr (Str.strip q))) lines))).

Definition ollama_generate_adversarial_questions (client : Client)
    (analysis raw_data : dict) (existing_issues : list string)
  : result (list string) :=
  base_questions <-
    generate_adversarial_questions analysis raw_data existing_issues ;;
  try_except
    (response <- client analysis raw_data existing_issues ;;
     llm_questions <- parse_response response ;;
     Ok (base_questions ++ llm_questions)%list)
    (Ok base_questions).

(** [OllamaAdversarialValidator.validate]: the inherited method, run with
    the overriding generator. *)
Definition ollama_validate (client : Client) : Config -> dict -> dict ->
    option (list string) -> result ValidationResult :=
  validate_with (ollama_generate_adversarial_questions client).

(** *** [batch_validate] *)

(** One entry of ['rerun_items']. *)
Record RerunItem : Type := {
  item_entity_id : string;
  item_confidence : num;
  item_issues : list string;
  item_recommendations : list string
}.

(** The summary [batch_validate] returns. *)
Record BatchSummary : Type := {
  total_validated : Z;
  passed : Z;
  needs_rerun : Z;
  avg_confidence : num;
  min_confidence : num;
  max_confidence : num;
  rerun_items : list RerunItem
}.

(** The state of the loop: [results] and [needs_rerun]. *)
Definition batch_state : Type :=
  (list (string * ValidationResult) * list RerunItem)%type.

Section Batch.

(** The builtin [sum] on a list of numbers. How it adds floats depends on
    the interpreter (a plain left fold up to CPython 3.11, a compensated
    sum from 3.12 on), so it is a parameter here. *)
Variable py_sum : list num -> result num.

(** [self.validate(entity_id, analysis, raw_data)], whichever class [self]
    has. *)
Variable validate_one : dict -> dict -> result ValidationResult.

(** One turn of the loop. *)
Definition batch_step (st : result batch_state)
    (item : string * dict * dict) : result batch_state :=
  '(results, rerun) <- st ;;
  let '(entity_id, analysis, raw_data) := item in
  r <- validate_one analysis raw_data ;;
  Ok ((results ++ [(entity_id, r)])%list,
      if should_rerun r
      then (rerun ++ [{| item_entity_id := entity_id;
                         item_confidence := overall_confidence r;
                         item_issues := issues_found r;
                         item_recommendations := recommended_actions r |}])%list
      else rerun).

Definition batch_validate_with (analyses : list (string * dict * dict))
  : result BatchSummary :=
  '(results, rerun) <- fold_left batch_step analyses (Ok ([], [])) ;;
  let confidences := map (fun er => overall_confidence (snd er)) results in
  let n := Z.of_nat (List.length confidences) in
  avg <- match confidences with
         | [] => Ok (NInt 0)
         | _ => s <- py_sum confidences ;; num_truediv s n
         end ;;
  Ok {| total_validated := Z.of_nat (List.length results);
        passed :=
          Z.of_nat (List.length
            (filter (fun er => negb (should_rerun (snd er))) results));
        needs_rerun := Z.of_nat (List.length rerun);
        avg_confidence := avg;
        min_confidence :=
          match confidences with
          | [] => NInt 0
          | x :: rest => num_min x rest
          end;
        max_confidence :=
          match confidences with
          | [] => NInt 0
          | x :: rest => num_max x rest
          end;
        rerun_items := rerun |}.

End Batch.

(** [sum] as CPython up to 3.11 computes it: a left fold of [+] from the
    int [0]. *)
Definition sum_left (xs : list num) : result num :=
  fold_left (fun acc x => a <- acc ;; num_add a x) xs (Ok (NInt 0)).

(** [AdversarialValidator.batch_validate] *)
Definition batch_validate (py_sum : list num -> result num) (cfg : Config)
  : list (string * dict * dict) -> result BatchSummary :=
  batch_validate_with py_sum (fun analysis raw_data => validate cfg analysis raw_data None).

End Kong.

(* ================================================================== *)
(** ** Inputs of the test suite, and devices of the proofs *)

Module Samples.

Import F64 Py Kong.

(** [test_high_confidence_low_data_quality] *)
Definition flagged_analysis : dict :=
  [("confidence", VFloat (lit 95 100)); ("score", VInt 8)].
Definition flagged_raw_data : dict :=
  [("data_quality_score", VInt 30)].

(** What [validate] returns on it with the default validator. *)
Definition flagged_result : ValidationResult := {|
  overall_confidence := NFloat (lit 604 1000);
  completeness_score := one;
  consistency_score := lit 48 100;
  logic_score := lit 7 10;
  issues_found :=
    ["High confidence (95%) despite low data quality (30%)";
     "High confidence (95%) but only 0 findings";
     "Very high confidence (95%) with limited data sources (0 successful)"];
  adversarial_questions :=
    ["Data quality is only 30% - what are we potentially missing?";
     q_current; q_horizon; q_outside; q_peers; q_lower_confidence];
  recommended_actions :=
    ["REVIEW: Manual review needed for inconsistencies";
     "DEEP_DIVE: Many unanswered questions require investigation"];
  should_rerun := true
|}.

(** [test_none_values] *)
Definition none_analysis : dict := [("score", VNone); ("confidence", VNone)].
Definition none_raw_data : dict := [("data_quality_score", VNone)].

(** An analysis whose confidence is the number zero. *)
Definition zero_confidence_analysis : dict := [("confidence", VInt 0)].

(** A client that is down. *)
Definition unreachable_client : Client :=
  fun _ _ _ => Raise ConnectionError.

(** The scores reached from [x] by applying, in order, any of the
    discounts [fs]. *)
Fixpoint reach (x : float) (fs : list float) : list float :=
  match fs with
  | [] => [x]
  | f :: r => (reach x r ++ reach (mul x f) r)%list
  end.

(** [0.0 <= x <= 1.0] *)
Definition in_unit (x : float) : bool := leb zero x && leb x one.

(** By how much [shr_fexp] shifts the mantissa [m] at exponent [e]. *)
Definition shift_of (m e : Z) : Z :=
  Z.max (fexp prec emax (Zdigits2 m + e) - e) 0.

(** The last step of [binary_round_aux]. *)
Definition finish (s : bool) (m e : Z) : spec_float :=
  match m with
  | Z0 => S754_zero s
  | Zpos p => if e <=? emax - prec then S754_finite s p e else S754_infinity s
  | Zneg _ => S754_nan
  end.

(** A float of the unit interval, in the canonical form rounding gives. *)
Definition unit_floatb (x : spec_float) : bool :=
  match x with
  | S754_zero false => true
  | S754_finite false m e =>
      ((e <=? -53) && (Zpos m <? 2 ^ 53)) || ((e =? -52) && (Zpos m =? 2 ^ 52))
  | _ => false
  end.

(** Neither a NaN nor a float with the sign bit set. *)
Definition nonnegb (x : spec_float) : bool :=
  match x with
  | S754_nan => false
  | S754_zero s | S754_infinity s | S754_finite s _ _ => negb s
  end.

(** [x >= 0] for a number. *)
Definition num_nonneg (x : num) : bool :=
  match num_compare x (NInt 0) with
  | Some Gt | Some Eq => true
  | _ => false
  end.

(** [st'] is [st], or [st] after one discount by [f]. *)
Definition steps_by (f : float) (st st' : state) : Prop :=
  st' = st \/ exists msg, st' = discount st f msg.

(** The discounts of the consistency scorer, in the order it tries them. *)
Definition consistency_discounts : list float :=
  [f0_6; f0_7; f0_8; f0_9; f0_9; f0_9; f0_9].

End Samples.

(* ================================================================== *)
(** ** Further devices of the proofs *)

Module Devices.

Import F64 Py Kong Samples.

(** The scores reached from [x] by any of the discounts [fs], each with
    the number of discounts taken on top of [n]. *)
Fixpoint reach_count (x : float) (n : nat) (fs : list float)
  : list (float * nat) :=
  match fs with
  | [] => [(x, n)]
  | f :: r => (reach_count x n r ++ reach_count (mul x f) (S n) r)%list
  end.

(** The discounts of the logic scorer, in the order it tries them. *)
Definition logic_discounts : list float := [f0_7; f0_6; f0_7].

(** The questions the generator always asks. *)
Definition fixed_questions : list string :=
  [q_current; q_horizon; q_outside; q_peers].

(** The texts of [_generate_recommendations]. *)
Definition rec_add_data : string :=
  "ADD_DATA: Collect missing data sources before reanalysis".
Definition rec_review : string :=
  "REVIEW: Manual review needed for inconsistencies".
Definition rec_rerun : string :=
  "RERUN: Conclusions may not follow from evidence".
Definition rec_escalate : string :=
  "ESCALATE: Too many issues for automated resolution".
Definition rec_deep_dive : string :=
  "DEEP_DIVE: Many unanswered questions require investigation".
Definition rec_approved : string :=
  "APPROVED: Analysis passes adversarial validation".

(** The exceptions the embedded [validate] raises, that is, the ones
    [validate] raises on values CPython renders. *)
Definition type_or_overflow (e : exc) : bool :=
  match e with
  | TypeError | OverflowError => true
  | _ => false
  end.

(** [r] raises nothing but the exceptions [P] admits. *)
Definition raises_only {A : Type} (P : exc -> bool) (r : result A) : Prop :=
  forall e, r = Raise e -> P e = true.

(** The entry of ['rerun_items'] for one result. *)
Definition rerun_item (er : string * ValidationResult) : RerunItem :=
  {| item_entity_id := fst er;
     item_confidence := overall_confidence (snd er);
     item_issues := issues_found (snd er);
     item_recommendations := recommended_actions (snd er) |}.

(** What an overall confidence can be: the int [0], or a float that is
    neither a NaN nor negative. *)
Definition confidence_like (x : num) : bool :=
  match x with
  | NInt z => z =? 0
  | NFloat f => nonnegb f
  end.

(** The float an overall confidence compares as. *)
Definition as_float (x : num) : float :=
  match x with
  | NInt _ => zero
  | NFloat f => f
  end.

(** [x *= f] when [b] holds. *)
Definition scale_if (b : bool) (x f : float) : float :=
  if b then mul x f else x.

(** Whether both terms of a pair occur in the text of the findings. *)
Definition contradicts (txt : string) (pair : string * string) : bool :=
  Str.contains (fst pair) txt && Str.contains (snd pair) txt.

(** The issue on a pair of opposite terms. *)
Definition contradiction_issue (pair : string * string) : string :=
  "Potentially contradictory terms in findings: '" ++ fst pair ++
  "' and '" ++ snd pair ++ "'".

(** The exceptions [validate] lets none of escape: its lookups are by
    [get], its division is guarded, and what the client raises is caught. *)
Definition kept_inside (e : exc) : bool :=
  match e with
  | KeyError | IndexError | AttributeError | ZeroDivisionError
  | ImportError | ConnectionError | TimeoutError => true
  | _ => false
  end.

(** The exceptions reading the client's answer can raise. *)
Definition lookup_error (e : exc) : bool :=
  match e with
  | KeyError | TypeError | AttributeError => true
  | _ => false
  end.

(** The suite's batch of three analyses, [test_batch_validate_mixed]. *)
Definition mixed_batch : list (string * dict * dict) :=
  [("GOOD1",
    [("score", VInt 7); ("confidence", VFloat (lit 8 10));
     ("findings", VList [VStr "a"; VStr "b"; VStr "c"])],
    [("data_quality_score", VInt 90)]);
   ("GOOD2",
    [("score", VInt 6); ("confidence", VFloat (lit 75 100));
     ("findings", VList [VStr "x"; VStr "y"])],
    [("data_quality_score", VInt 85)]);
   ("BAD1",
    [("score", VFloat (lit 99 10)); ("confidence", VFloat (lit 99 100));
     ("findings", VList [])],
    [("data_quality_score", VInt 20)])].

(** [test_missing_critical_source] *)
Definition unread_analysis : dict := [("summary", VStr "The company looks good")].
Definition unread_raw_data : dict :=
  [("earnings", VDict [("important", VStr "data")]);
   ("filings", VDict [("sec", VStr "documents")]);
   ("analyst", VDict [("ratings", VStr "data")])].

(** [test_all_sources_used] *)
Definition thorough_analysis : dict :=
  [("text", VStr "Based on earnings data and news sentiment analysis...");
   ("earnings_analysis", VStr "Strong Q4");
   ("news_summary", VStr "Positive coverage")].
Definition thorough_raw_data : dict :=
  [("earnings", VDict [("q4", VFloat (lit 25 10))]);
   ("news", VDict [("sentiment", VFloat (lit 8 10))])].

(** The fixtures [good_analysis] and [good_raw_data] of the suite. *)
Definition good_analysis : dict :=
  [("score", VFloat (lit 75 10)); ("confidence", VFloat (lit 85 100));
   ("findings", VList [VStr "Strong revenue growth"; VStr "Improving margins";
                       VStr "Market share gains"]);
   ("recommendations", VList [VStr "Buy"]);
   ("sources_used", VList [VStr "earnings"; VStr "news"; VStr "analyst"])].
Definition good_raw_data : dict :=
  [("earnings", VDict [("q1", VFloat (lit 15 10)); ("q2", VFloat (lit 16 10));
                       ("q3", VFloat (lit 17 10)); ("q4", VFloat (lit 18 10))]);
   ("news", VDict [("sentiment", VFloat (lit 7 10)); ("count", VInt 50)]);
   ("analyst", VDict [("rating", VStr "buy"); ("target", VInt 150)]);
   ("data_quality_score", VInt 85);
   ("sources_successful", VList [VStr "earnings"; VStr "news"; VStr "analyst"]);
   ("sources_failed", VList [])].

(** [test_all_sources_used], with one more source the analysis does not
    mention. *)
Definition partly_read_raw_data : dict :=
  (thorough_raw_data ++ [("insider", VDict [("trades", VInt 3)])])%list.

(** The second analysis of [test_batch_validate_mixed]. *)
Definition steady_analysis : dict :=
  [("score", VInt 6); ("confidence", VFloat (lit 75 100));
   ("findings", VList [VStr "x"; VStr "y"])].
Definition steady_raw_data : dict := [("data_quality_score", VInt 85)].

(** [test_expected_fields_missing] *)
Definition revenue_analysis : dict := [("revenue_analysis", VStr "Growing")].
Definition revenue_fields : list string :=
  ["revenue"; "competition"; "management"].

(** [test_contradictory_terms_flagged] *)
Definition contradictory_analysis : dict :=
  [("findings", VList [VStr "Revenue is strongly increasing";
                       VStr "Market share is decreasing significantly"])].

End Devices.

(* ================================================================== *)
(** * Properties *)

Import F64 Py Kong Samples.

(** ** The error monad *)

Lemma bind_ok_inv {A B : Type} (r : result A) (k : A -> result B) (b : B) :
  bind r k = Ok b -> exists a, r = Ok a /\ k a = Ok b.
Proof.
  destruct r as [a|e]; simpl; intros H.
  - exists a. split; [reflexivity | exact H].
  - discriminate H.
Qed.

Lemma Ok_inj {A : Type} (a b : A) : Ok a = Ok b -> a = b.
Proof. intros H. injection H as H. exact H. Qed.

(** Peels one [bind] off a hypothesis [bind r k = Ok b]. *)
Ltac bind_inv H :=
  let a := fresh "a" in
  let Ha := fresh "Ha" in
  apply bind_ok_inv in H; destruct H as (a & Ha & H).

(** ** The shape of a result of [validate] *)

(** A result of [validate_with] is assembled from the results of the three
    scorers, the generator and the penalty, none of which raised. *)
Lemma validate_with_inv (generate : QuestionGenerator) (cfg : Config)
    (analysis raw_data : dict) (expected_fields : option (list string))
    (r : ValidationResult) :
  validate_with generate cfg analysis raw_data expected_fields = Ok r ->
  exists c ci s si l li qs pen,
    check_completeness analysis raw_data expected_fields = Ok (c, ci) /\
    check_consistency analysis raw_data = Ok (s, si) /\
    check_logic analysis raw_data = Ok (l, li) /\
    generate analysis raw_data (ci ++ si ++ li)%list = Ok qs /\
    issue_penalty (ci ++ si ++ li)%list = Ok pen /\
    r = {| overall_confidence :=
             Py.round3 (penalized (weighted_sum cfg c s l) pen);
           completeness_score := F64.round3 c;
           consistency_score := F64.round3 s;
           logic_score := F64.round3 l;
           issues_found := (ci ++ si ++ li)%list;
           adversarial_questions := qs;
           recommended_actions :=
             generate_recommendations c s l (ci ++ si ++ li)%list qs;
           should_rerun :=
             rerun_decision cfg (penalized (weighted_sum cfg c s l) pen)
                            (ci ++ si ++ li)%list |}.
Proof.
  unfold validate_with. intros H.
  destruct (check_completeness analysis raw_data expected_fields)
    as [[c ci]|e] eqn:Ec; [|discriminate H].
  destruct (check_consistency analysis raw_data) as [[s si]|e] eqn:Es;
    [|discriminate H].
  destruct (check_logic analysis raw_data) as [[l li]|e] eqn:El;
    [|discriminate H].
  cbn [bind] in H.
  destruct (generate analysis raw_data (ci ++ si ++ li)%list) as [qs|e] eqn:Eq;
    [|discriminate H].
  cbn [bind] in H.
  destruct (issue_penalty (ci ++ si ++ li)%list) as [pen|e] eqn:Ep;
    [|discriminate H].
  cbn [bind] in H. injection H as <-.
  exists c, ci, s, si, l, li, qs, pen. repeat split; assumption.
Qed.

(** ** Empty inputs *)

(** C1. On [analysis = {}] and [raw_data = {}] the default validator finds
    no issue, scores 1.0 throughout, and returns [should_rerun = False]:
    the empty analysis passes. *)
Theorem validate_empty_passes :
  exists r,
    validate default_config [] [] None = Ok r /\
    overall_confidence r = NFloat one /\
    issues_found r = [] /\
    should_rerun r = false.
Proof.
  eexists. split; [vm_compute; reflexivity|].
  repeat split.
Qed.

(** ** Null values *)

(** C2. On the inputs of the suite's null-value test,
    [analysis = {"score": None, "confidence": None}] and
    [raw_data = {"data_quality_score": None}], [validate] raises a
    [TypeError] (from [data_quality < 80] in the question generator),
    whatever the configuration and the expected fields. *)
Theorem validate_none_values_raises (cfg : Config)
    (expected_fields : option (list string)) :
  validate cfg none_analysis none_raw_data expected_fields = Raise TypeError.
Proof.
  unfold validate, validate_with.
  destruct expected_fields as [fields|]; reflexivity.
Qed.

(** ** The flagged analysis *)

(** What the default validator returns on the flagged analysis. *)
Lemma flagged_result_computed :
  validate default_config flagged_analysis flagged_raw_data None
  = Ok flagged_result.
Proof. vm_compute. reflexivity. Qed.

(** A [str] confidence, and a null [key_findings], raise as well. *)
Lemma validate_str_confidence_raises :
  validate default_config [("confidence", VStr "high")] [] None = Raise TypeError.
Proof. vm_compute. reflexivity. Qed.

Lemma validate_null_key_findings_raises :
  validate default_config [("key_findings", VNone)] [] None = Raise TypeError.
Proof. vm_compute. reflexivity. Qed.

(** ** The aggregate *)

(** C3. Whenever [validate] returns, the confidence it stores is the sum of
    the three sub-scores, each times its configured weight and nothing
    else, less [min(len(issues) * 0.05, 0.3)], clamped below by [max(0, _)]
    and rounded to three places. *)
Theorem validate_overall_confidence_formula (cfg : Config)
    (analysis raw_data : dict) (expected_fields : option (list string))
    (r : ValidationResult) :
  validate cfg analysis raw_data expected_fields = Ok r ->
  exists c ci s si l li n,
    check_completeness analysis raw_data expected_fields = Ok (c, ci) /\
    check_consistency analysis raw_data = Ok (s, si) /\
    check_logic analysis raw_data = Ok (l, li) /\
    issues_found r = (ci ++ si ++ li)%list /\
    int_to_float (Z.of_nat (List.length (issues_found r))) = Ok n /\
    overall_confidence r =
      Py.round3
        (max0 (sub (add (add (mul c (completeness_weight cfg))
                             (mul s (consistency_weight cfg)))
                        (mul l (logic_weight cfg)))
                   (fmin (mul n f0_05) f0_3))).
Proof.
  intros H. apply validate_with_inv in H.
  destruct H as (c & ci & s & si & l & li & qs & pen & Hc & Hs & Hl & _ & Hp & ->).
  unfold issue_penalty, int_mul_float in Hp.
  bind_inv Hp. bind_inv Ha. injection Ha as <-. injection Hp as <-.
  exists c, ci, s, si, l, li, a0. cbn.
  repeat split; assumption.
Qed.

(** C4. Whenever [validate] returns, [should_rerun] holds exactly when the
    penalized confidence, as it is before rounding, is below the threshold,
    or there are more issues than the configured maximum. *)
Theorem validate_should_rerun_iff (cfg : Config)
    (analysis raw_data : dict) (expected_fields : option (list string))
    (r : ValidationResult) :
  validate cfg analysis raw_data expected_fields = Ok r ->
  exists c ci s si l li pen,
    check_completeness analysis raw_data expected_fields = Ok (c, ci) /\
    check_consistency analysis raw_data = Ok (s, si) /\
    check_logic analysis raw_data = Ok (l, li) /\
    issue_penalty (issues_found r) = Ok pen /\
    let unrounded := max0 (sub (weighted_sum cfg c s l) pen) in
    overall_confidence r = Py.round3 unrounded /\
    (should_rerun r = true <->
     num_lt unrounded (NFloat (confidence_threshold cfg)) = true \/
     max_issues_before_rerun cfg < Z.of_nat (List.length (issues_found r))).
Proof.
  intros H. apply validate_with_inv in H.
  destruct H as (c & ci & s & si & l & li & qs & pen & Hc & Hs & Hl & _ & Hp & ->).
  exists c, ci, s, si, l, li, pen. cbn.
  repeat split; try assumption.
  - unfold rerun_decision, penalized. rewrite orb_true_iff, Z.ltb_lt. tauto.
  - unfold rerun_decision, penalized. rewrite orb_true_iff, Z.ltb_lt. tauto.
Qed.

(** ** Strings *)

Lemma lower_app (a b : string) : Str.lower (a ++ b) = Str.lower a ++ Str.lower b.
Proof.
  induction a as [|c a IH]; simpl; [reflexivity | rewrite IH; reflexivity].
Qed.

Lemma prefix_app (p a b : string) : prefix p a = true -> prefix p (a ++ b) = true.
Proof.
  revert a. induction p as [|c p IH]; intros a H;
    [destruct (a ++ b); reflexivity|].
  destruct a as [|d a]; simpl in *; [discriminate H|].
  destruct (ascii_dec c d); [apply IH; exact H | discriminate H].
Qed.

(** A needle found in [a] is found in [a ++ b]. *)
Lemma contains_app_l (p a b : string) :
  Str.contains p a = true -> Str.contains p (a ++ b) = true.
Proof.
  induction a as [|d a IH]; intros H.
  - simpl in H. rewrite orb_false_r in H.
    destruct p; [|discriminate H]. destruct b; reflexivity.
  - cbn [Str.contains] in H. apply orb_true_iff in H.
    change ((String d a) ++ b) with (String d (a ++ b)).
    cbn [Str.contains]. apply orb_true_iff. destruct H as [H|H].
    + left. apply (prefix_app p (String d a) b H).
    + right. apply IH, H.
Qed.

(** ** One discount at a time *)

Lemma steps_by_reach (f : float) (fs : list float) (st st' : state) (z : float) :
  steps_by f st st' -> In z (reach (fst st') fs) -> In z (reach (fst st) (f :: fs)).
Proof.
  intros [->|[msg ->]] Hz; cbn [reach]; apply in_or_app.
  - left. exact Hz.
  - right. exact Hz.
Qed.

Lemma steps_by_issues (f : float) (st st' : state) :
  steps_by f st st' -> exists extra, snd st' = (snd st ++ extra)%list.
Proof.
  intros [->|[msg ->]].
  - exists []. rewrite app_nil_r. reflexivity.
  - exists [msg]. reflexivity.
Qed.

Lemma rule_low_quality_steps (confidence data_quality : value) (st st' : state) :
  rule_low_quality confidence data_quality st = Ok st' -> steps_by f0_6 st st'.
Proof.
  unfold rule_low_quality. intros H. bind_inv H. destruct a.
  - bind_inv H. injection H as <-. right. eexists. reflexivity.
  - injection H as <-. left. reflexivity.
Qed.

Lemma rule_failed_sources_steps (score sources_failed : value) (st st' : state) :
  rule_failed_sources score sources_failed st = Ok st' -> steps_by f0_7 st st'.
Proof.
  unfold rule_failed_sources. intros H. bind_inv H. destruct a.
  - bind_inv H. injection H as <-. right. eexists. reflexivity.
  - injection H as <-. left. reflexivity.
Qed.

Lemma rule_few_findings_steps (confidence findings : value) (st st' : state) :
  rule_few_findings confidence findings st = Ok st' -> steps_by f0_8 st st'.
Proof.
  unfold rule_few_findings. intros H. bind_inv H. destruct a.
  - bind_inv H. bind_inv H. injection H as <-. right. eexists. reflexivity.
  - injection H as <-. left. reflexivity.
Qed.

Lemma rule_contradiction_steps (txt : string) (st : state) (pair : string * string) :
  steps_by f0_9 st (rule_contradiction txt st pair).
Proof.
  unfold rule_contradiction.
  destruct (Str.contains (fst pair) txt && Str.contains (snd pair) txt).
  - right. eexists. reflexivity.
  - left. reflexivity.
Qed.

(** What [_check_consistency] returns: the four contradiction rules run
    after the three evidence rules, each a discount or nothing. *)
Lemma check_consistency_inv (analysis raw_data : dict) (s : float)
    (issues : list string) :
  check_consistency analysis raw_data = Ok (s, issues) ->
  exists st1 st2 st3 txt,
    rule_low_quality (dict_get analysis "confidence" (VInt 0))
      (dict_get raw_data "data_quality_score" (VInt 100)) (one, []) = Ok st1 /\
    rule_failed_sources (get_score analysis)
      (dict_get raw_data "sources_failed" (VList [])) st1 = Ok st2 /\
    rule_few_findings (dict_get analysis "confidence" (VInt 0))
      (get_findings analysis) st2 = Ok st3 /\
    findings_text (get_findings analysis) = Ok txt /\
    (s, issues) = fold_left (rule_contradiction txt) contradiction_pairs st3.
Proof.
  unfold check_consistency. intros H.
  bind_inv H. bind_inv H. bind_inv H. bind_inv H. injection H as H.
  exists a, a0, a1, a2. repeat split; try assumption. symmetry. exact H.
Qed.

Lemma contradictions_reach (txt : string) (st : state) (z : float) :
  z = fst (fold_left (rule_contradiction txt) contradiction_pairs st) ->
  In z (reach (fst st) [f0_9; f0_9; f0_9; f0_9]).
Proof.
  intros ->. unfold contradiction_pairs. cbn [fold_left].
  eapply steps_by_reach; [apply rule_contradiction_steps|].
  eapply steps_by_reach; [apply rule_contradiction_steps|].
  eapply steps_by_reach; [apply rule_contradiction_steps|].
  eapply steps_by_reach; [apply rule_contradiction_steps|].
  left. reflexivity.
Qed.

Lemma contradictions_issues (txt : string) (st : state) :
  exists extra,
    snd (fold_left (rule_contradiction txt) contradiction_pairs st)
    = (snd st ++ extra)%list.
Proof.
  unfold contradiction_pairs. cbn [fold_left].
  set (p1 := ("positive", "negative")). set (p2 := ("increasing", "decreasing")).
  set (p3 := ("strong", "weak")). set (p4 := ("improving", "declining")).
  destruct (steps_by_issues _ _ _ (rule_contradiction_steps txt st p1)) as [e1 H1].
  destruct (steps_by_issues _ _ _
    (rule_contradiction_steps txt (rule_contradiction txt st p1) p2)) as [e2 H2].
  destruct (steps_by_issues _ _ _
    (rule_contradiction_steps txt
       (rule_contradiction txt (rule_contradiction txt st p1) p2) p3)) as [e3 H3].
  destruct (steps_by_issues _ _ _
    (rule_contradiction_steps txt
       (rule_contradiction txt
          (rule_contradiction txt (rule_contradiction txt st p1) p2) p3) p4))
    as [e4 H4].
  exists (e1 ++ e2 ++ e3 ++ e4)%list.
  rewrite H4, H3, H2, H1. rewrite <- !app_assoc. reflexivity.
Qed.

(** Every score of the consistency scorer is one of [reach 1.0 discounts]. *)
Lemma check_consistency_reach (analysis raw_data : dict) (s : float)
    (issues : list string) :
  check_consistency analysis raw_data = Ok (s, issues) ->
  In s (reach one consistency_discounts).
Proof.
  intros H. apply check_consistency_inv in H.
  destruct H as (st1 & st2 & st3 & txt & H1 & H2 & H3 & _ & H4).
  unfold consistency_discounts.
  change one with (fst (one, @nil string)).
  eapply steps_by_reach; [apply (rule_low_quality_steps _ _ _ _ H1)|].
  eapply steps_by_reach; [apply (rule_failed_sources_steps _ _ _ _ H2)|].
  eapply steps_by_reach; [apply (rule_few_findings_steps _ _ _ _ H3)|].
  apply (contradictions_reach txt). rewrite <- H4. reflexivity.
Qed.

(** ** High confidence on poor data *)

(** A value above 0.8 is not falsy. *)
Lemma gt_0_8_truthy (v : value) :
  py_gt v (NFloat f0_8) = Ok true -> truthy v = true.
Proof.
  destruct v as [|b|z|f|s|l|d]; try discriminate.
  - destruct b; [reflexivity|]. vm_compute. intros H. discriminate H.
  - destruct z; try reflexivity. vm_compute. intros H. discriminate H.
  - destruct f; try reflexivity. destruct s; vm_compute; intros H; discriminate H.
Qed.

(** When its condition holds, the first rule is a discount by 0.6 whose
    message renders both values. *)
Lemma rule_low_quality_fires (confidence data_quality : value) (st st' : state) :
  py_gt confidence (NFloat f0_8) = Ok true ->
  py_lt data_quality (NInt 50) = Ok true ->
  rule_low_quality confidence data_quality st = Ok st' ->
  exists pct,
    format_pct0 confidence = Ok pct /\
    st' = discount st f0_6
            ("High confidence (" ++ pct ++ ") despite low data quality (" ++
             str data_quality ++ "%)").
Proof.
  intros Hc Hq. unfold rule_low_quality.
  rewrite (gt_0_8_truthy _ Hc), Hc, Hq. cbn [and_then bind].
  intros H. bind_inv H. injection H as <-.
  exists a. split; [exact Ha | reflexivity].
Qed.

Lemma reach_forallb (P : float -> bool) (x : float) (fs : list float) (z : float) :
  forallb P (reach x fs) = true -> In z (reach x fs) -> P z = true.
Proof.
  intros H Hz. rewrite forallb_forall in H. apply H, Hz.
Qed.

(** C6. When the analysis's confidence exceeds 0.8 and the raw data's
    [data_quality_score] is below 50, the consistency scorer opens with a
    discount by 0.6 and an issue that renders both values; the consistency
    score of the result is then below 1.0, and that issue, which reads
    ["confidence"] once lowercased, is among the issues found. *)
Theorem low_quality_discount (cfg : Config) (analysis raw_data : dict)
    (expected_fields : option (list string)) (r : ValidationResult) :
  py_gt (dict_get analysis "confidence" (VInt 0)) (NFloat f0_8) = Ok true ->
  py_lt (dict_get raw_data "data_quality_score" (VInt 100)) (NInt 50) = Ok true ->
  validate cfg analysis raw_data expected_fields = Ok r ->
  exists pct s rest,
    format_pct0 (dict_get analysis "confidence" (VInt 0)) = Ok pct /\
    let msg :=
      "High confidence (" ++ pct ++ ") despite low data quality (" ++
      str (dict_get raw_data "data_quality_score" (VInt 100)) ++ "%)" in
    check_consistency analysis raw_data = Ok (s, msg :: rest) /\
    In s (reach (mul one f0_6) [f0_7; f0_8; f0_9; f0_9; f0_9; f0_9]) /\
    consistency_score r = F64.round3 s /\
    ltb (consistency_score r) one = true /\
    In msg (issues_found r) /\
    Str.contains "confidence" (Str.lower msg) = true.
Proof.
  intros Hc Hq H. apply validate_with_inv in H.
  destruct H as (c & ci & s & si & l & li & qs & pen & _ & Hs & _ & _ & _ & ->).
  pose proof (check_consistency_inv _ _ _ _ Hs)
    as (st1 & st2 & st3 & txt & H1 & H2 & H3 & _ & H4).
  destruct (rule_low_quality_fires _ _ _ _ Hc Hq H1) as (pct & Hpct & ->).
  assert (Hreach : In s (reach (mul one f0_6) [f0_7; f0_8; f0_9; f0_9; f0_9; f0_9])).
  { change (mul one f0_6) with
      (fst (discount (one, @nil string) f0_6
        ("High confidence (" ++ pct ++ ") despite low data quality (" ++
         str (dict_get raw_data "data_quality_score" (VInt 100)) ++ "%)"))).
    eapply steps_by_reach; [apply (rule_failed_sources_steps _ _ _ _ H2)|].
    eapply steps_by_reach; [apply (rule_few_findings_steps _ _ _ _ H3)|].
    apply (contradictions_reach txt). rewrite <- H4. reflexivity. }
  assert (Hissues : exists rest, si =
    ("High confidence (" ++ pct ++ ") despite low data quality (" ++
     str (dict_get raw_data "data_quality_score" (VInt 100)) ++ "%)") :: rest).
  { destruct (steps_by_issues _ _ _ (rule_failed_sources_steps _ _ _ _ H2)) as [e2 E2].
    destruct (steps_by_issues _ _ _ (rule_few_findings_steps _ _ _ _ H3)) as [e3 E3].
    destruct (contradictions_issues txt st3) as [e4 E4].
    rewrite <- H4 in E4. cbn [snd] in E4. rewrite E4, E3, E2.
    cbn [discount snd app]. eexists. reflexivity. }
  destruct Hissues as [rest ->].
  exists pct, s, rest. cbn zeta. cbn [consistency_score issues_found].
  assert (Hword : Str.contains "confidence" (Str.lower
    ("High confidence (" ++ pct ++ ") despite low data quality (" ++
     str (dict_get raw_data "data_quality_score" (VInt 100)) ++ "%)")) = true).
  { rewrite lower_app.
    apply (contains_app_l "confidence" (Str.lower "High confidence (")).
    vm_compute. reflexivity. }
  split; [exact Hpct|]. split; [exact Hs|]. split; [exact Hreach|].
  split; [reflexivity|]. split; [|split; [|exact Hword]].
  - refine (reach_forallb (fun z => ltb (F64.round3 z) one) _ _ _ _ Hreach).
    vm_compute. reflexivity.
  - apply in_or_app. right. apply in_or_app. left. left. reflexivity.
Qed.

(** The test of the suite: on [{"confidence": 0.95, "score": 8}] against
    [{"data_quality_score": 30}] the consistency score is 0.48 and the
    first issue reads ["confidence"]. *)
Lemma low_quality_discount_witness :
  exists pct s rest,
    format_pct0 (dict_get flagged_analysis "confidence" (VInt 0)) = Ok pct /\
    let msg :=
      "High confidence (" ++ pct ++ ") despite low data quality (" ++
      str (dict_get flagged_raw_data "data_quality_score" (VInt 100)) ++ "%)" in
    check_consistency flagged_analysis flagged_raw_data = Ok (s, msg :: rest) /\
    In s (reach (mul one f0_6) [f0_7; f0_8; f0_9; f0_9; f0_9; f0_9]) /\
    consistency_score flagged_result = F64.round3 s /\
    ltb (consistency_score flagged_result) one = true /\
    In msg (issues_found flagged_result) /\
    Str.contains "confidence" (Str.lower msg) = true.
Proof.
  apply (low_quality_discount default_config flagged_analysis flagged_raw_data
           None flagged_result).
  - vm_compute. reflexivity.
  - vm_compute. reflexivity.
  - vm_compute. reflexivity.
Defined.

(** ** The question on confidence *)

(** The questions that come before and after the one on confidence are
    neither of its two texts. *)
Lemma failed_question_other (v : value) (qs : list string) (q : string) :
  failed_question v = Ok qs -> In q qs ->
  q <> q_lower_confidence /\ q <> q_raise_confidence.
Proof.
  unfold failed_question. destruct (truthy v).
  - intros H. bind_inv H. injection H as <-. intros [<-|[]].
    split; intros E; discriminate E.
  - intros H. injection H as <-. intros [].
Qed.

Lemma quality_question_other (v : value) (qs : list string) (q : string) :
  quality_question v = Ok qs -> In q qs ->
  q <> q_lower_confidence /\ q <> q_raise_confidence.
Proof.
  unfold quality_question. intros H. bind_inv H. injection H as <-.
  destruct a.
  - intros [<-|[]]. split; intros E; discriminate E.
  - intros [].
Qed.

Lemma contradiction_question_other (issues : list string) (q : string) :
  In q (contradiction_question issues) ->
  q <> q_lower_confidence /\ q <> q_raise_confidence.
Proof.
  unfold contradiction_question.
  destruct (existsb _ issues).
  - intros [<-|[]]. split; intros E; discriminate E.
  - intros [].
Qed.

(** The [if]/[elif], read off its result. *)
Lemma confidence_question_inv (c : value) (qs : list string) :
  confidence_question c = Ok qs ->
  (truthy c = true /\ py_gt c (NFloat f0_8) = Ok true /\
   qs = [q_lower_confidence]) \/
  (truthy c = true /\ py_gt c (NFloat f0_8) = Ok false /\
   py_lt c (NFloat f0_5) = Ok true /\ qs = [q_raise_confidence]) \/
  (truthy c = true /\ py_gt c (NFloat f0_8) = Ok false /\
   py_lt c (NFloat f0_5) = Ok false /\ qs = []) \/
  (truthy c = false /\ qs = []).
Proof.
  unfold confidence_question, and_then. cbn [bind].
  destruct (truthy c).
  - destruct (py_gt c (NFloat f0_8)) as [[|]|e]; cbn [bind]; intros H.
    + injection H as <-. left. repeat split.
    + destruct (py_lt c (NFloat f0_5)) as [[|]|e]; cbn [bind] in H;
        try discriminate H; injection H as <-.
      * right. left. repeat split.
      * right. right. left. repeat split.
    + discriminate H.
  - intros H. injection H as <-. right. right. right. split; reflexivity.
Qed.

(** Membership of one of the two texts in the whole list is membership in
    the part the [if]/[elif] contributes. *)
Lemma confidence_text_in (analysis raw_data : dict) (issues qs : list string) :
  generate_adversarial_questions analysis raw_data issues = Ok qs ->
  exists q3,
    confidence_question (dict_get analysis "confidence" (VInt 0)) = Ok q3 /\
    forall q, q = q_lower_confidence \/ q = q_raise_confidence ->
              (In q qs <-> In q q3).
Proof.
  unfold generate_adversarial_questions. intros H.
  bind_inv H. bind_inv H. bind_inv H. injection H as <-.
  exists a1. split; [exact Ha1|]. intros q Hq. split.
  - intros Hin. rewrite !in_app_iff in Hin. cbn [In] in Hin.
    repeat (first [ rewrite in_app_iff in Hin
                  | progress cbn [In] in Hin
                  | destruct Hin as [Hin|Hin] ]);
      try (destruct (failed_question_other _ _ _ Ha Hin); tauto);
      try (destruct (quality_question_other _ _ _ Ha0 Hin); tauto);
      try (destruct (contradiction_question_other _ _ Hin); tauto);
      try (subst q; destruct Hq as [E|E]; discriminate E);
      try exact Hin; try contradiction.
  - intros Hin.
    do 2 (apply in_or_app; right). cbn [app In]. do 4 right.
    apply in_or_app. left. exact Hin.
Qed.

(** C7, as the code has it. Among the questions the rule-based generator
    returns, the confidence-lowering one is present exactly when the
    confidence is truthy and above 0.8; the confidence-raising one exactly
    when the confidence is truthy, not above 0.8, and below 0.5. The two
    never come together, and neither comes when the confidence is absent,
    null or zero. *)
Theorem confidence_question_cases (analysis raw_data : dict)
    (issues qs : list string) :
  generate_adversarial_questions analysis raw_data issues = Ok qs ->
  let confidence := dict_get analysis "confidence" (VInt 0) in
  (In q_lower_confidence qs <->
   truthy confidence = true /\ py_gt confidence (NFloat f0_8) = Ok true) /\
  (In q_raise_confidence qs <->
   truthy confidence = true /\ py_gt confidence (NFloat f0_8) = Ok false /\
   py_lt confidence (NFloat f0_5) = Ok true) /\
  ~ (In q_lower_confidence qs /\ In q_raise_confidence qs) /\
  (truthy confidence = false ->
   ~ In q_lower_confidence qs /\ ~ In q_raise_confidence qs) /\
  (dict_has analysis "confidence" = false -> truthy confidence = false).
Proof.
  intros H. cbn zeta.
  destruct (confidence_text_in _ _ _ _ H) as (q3 & H3 & Hin).
  pose proof (Hin q_lower_confidence (or_introl eq_refl)) as Hlo.
  pose proof (Hin q_raise_confidence (or_intror eq_refl)) as Hra.
  assert (Hne : q_lower_confidence <> q_raise_confidence)
    by (intros E; discriminate E).
  assert (Habsent : dict_has analysis "confidence" = false ->
                    dict_get analysis "confidence" (VInt 0) = VInt 0).
  { clear. induction analysis as [|[k v] d IH]; [reflexivity|].
    unfold dict_has. cbn [existsb dict_get fst]. destruct (String.eqb k "confidence").
    - discriminate.
    - intros Hd. apply IH, Hd. }
  apply confidence_question_inv in H3.
  assert (Hne' : q_raise_confidence <> q_lower_confidence)
    by (intros E; discriminate E).
  destruct H3 as [(Ht & Hg & ->)|[(Ht & Hg & Hl & ->)|[(Ht & Hg & Hl & ->)|(Ht & ->)]]];
    rewrite Hlo, Hra; cbn [In]; rewrite ?Ht, ?Hg, ?Hl;
    repeat split;
    try (intros Hd; rewrite (Habsent Hd) in Ht; discriminate Ht);
    intuition (try congruence; try discriminate).
Qed.

(** The confidence of [zero_confidence_analysis] is present and below 0.5,
    and the generator asks neither question about it. *)
Lemma confidence_zero_no_question :
  dict_has zero_confidence_analysis "confidence" = true /\
  py_lt (dict_get zero_confidence_analysis "confidence" VNone) (NFloat f0_5)
    = Ok true /\
  generate_adversarial_questions zero_confidence_analysis [] []
    = Ok [q_current; q_horizon; q_outside; q_peers].
Proof. vm_compute. repeat split. Qed.

(** On the flagged analysis (confidence 0.95) the lowering question is
    asked, the raising one is not. *)
Lemma confidence_question_cases_witness :
  let confidence := dict_get flagged_analysis "confidence" (VInt 0) in
  (In q_lower_confidence (adversarial_questions flagged_result) <->
   truthy confidence = true /\ py_gt confidence (NFloat f0_8) = Ok true) /\
  (In q_raise_confidence (adversarial_questions flagged_result) <->
   truthy confidence = true /\ py_gt confidence (NFloat f0_8) = Ok false /\
   py_lt confidence (NFloat f0_5) = Ok true) /\
  ~ (In q_lower_confidence (adversarial_questions flagged_result) /\
     In q_raise_confidence (adversarial_questions flagged_result)) /\
  (truthy confidence = false ->
   ~ In q_lower_confidence (adversarial_questions flagged_result) /\
   ~ In q_raise_confidence (adversarial_questions flagged_result)) /\
  (dict_has flagged_analysis "confidence" = false -> truthy confidence = false).
Proof.
  apply (confidence_question_cases flagged_analysis flagged_raw_data
           (issues_found flagged_result)).
  vm_compute. reflexivity.
Defined.

(** ** The aggregate on the flagged analysis *)

Lemma validate_overall_confidence_formula_witness :
  exists c ci s si l li n,
    check_completeness flagged_analysis flagged_raw_data None = Ok (c, ci) /\
    check_consistency flagged_analysis flagged_raw_data = Ok (s, si) /\
    check_logic flagged_analysis flagged_raw_data = Ok (l, li) /\
    issues_found flagged_result = (ci ++ si ++ li)%list /\
    int_to_float (Z.of_nat (List.length (issues_found flagged_result))) = Ok n /\
    overall_confidence flagged_result =
      Py.round3
        (max0 (sub (add (add (mul c (completeness_weight default_config))
                             (mul s (consistency_weight default_config)))
                        (mul l (logic_weight default_config)))
                   (fmin (mul n f0_05) f0_3))).
Proof.
  apply (validate_overall_confidence_formula default_config flagged_analysis
           flagged_raw_data None flagged_result).
  vm_compute. reflexivity.
Defined.

Lemma validate_should_rerun_iff_witness :
  exists c ci s si l li pen,
    check_completeness flagged_analysis flagged_raw_data None = Ok (c, ci) /\
    check_consistency flagged_analysis flagged_raw_data = Ok (s, si) /\
    check_logic flagged_analysis flagged_raw_data = Ok (l, li) /\
    issue_penalty (issues_found flagged_result) = Ok pen /\
    let unrounded := max0 (sub (weighted_sum default_config c s l) pen) in
    overall_confidence flagged_result = Py.round3 unrounded /\
    (should_rerun flagged_result = true <->
     num_lt unrounded (NFloat (confidence_threshold default_config)) = true \/
     max_issues_before_rerun default_config
       < Z.of_nat (List.length (issues_found flagged_result))).
Proof.
  apply (validate_should_rerun_iff default_config flagged_analysis
           flagged_raw_data None flagged_result).
  vm_compute. reflexivity.
Defined.

(** ** The LLM-backed generator *)

Lemma parse_response_length (response : value) (qs : list string) :
  parse_response response = Ok qs -> (List.length qs <= 3)%nat.
Proof.
  unfold parse_response. intros H.
  bind_inv H. bind_inv H. bind_inv H. apply Ok_inj in H. rewrite <- H.
  apply firstn_le_length.
Qed.

(** What the overriding generator returns once the rule-based list is
    there: that list, then whatever the answer parses to, or nothing. *)
Lemma ollama_generate_after_base (client : Client) (analysis raw_data : dict)
    (issues base : list string) :
  generate_adversarial_questions analysis raw_data issues = Ok base ->
  ollama_generate_adversarial_questions client analysis raw_data issues
  = Ok (base ++
        match client analysis raw_data issues with
        | Ok response =>
            match parse_response response with
            | Ok llm_questions => llm_questions
            | Raise _ => []
            end
        | Raise _ => []
        end)%list.
Proof.
  intros Hb. unfold ollama_generate_adversarial_questions.
  rewrite Hb. cbn [bind].
  destruct (client analysis raw_data issues) as [response|e]; cbn [bind try_except].
  - destruct (parse_response response) as [qs|e]; cbn [bind try_except].
    + reflexivity.
    + rewrite app_nil_r. reflexivity.
  - rewrite app_nil_r. reflexivity.
Qed.

(** C9. Whatever the client does, once the rule-based generator has
    returned its list the LLM-backed generator returns a list that begins
    with it, followed by at most three more questions; it returns exactly
    that list when the client raises or its answer does not parse. An
    exception of the LLM-backed [validate] is one the rule-based [validate]
    raises on the same input, so none comes from the client. *)
Theorem ollama_questions_fall_back (client : Client) (analysis raw_data : dict)
    (issues base : list string) :
  generate_adversarial_questions analysis raw_data issues = Ok base ->
  (exists extra,
     ollama_generate_adversarial_questions client analysis raw_data issues
     = Ok (base ++ extra)%list /\
     (List.length extra <= 3)%nat) /\
  (forall e, client analysis raw_data issues = Raise e ->
     ollama_generate_adversarial_questions client analysis raw_data issues
     = Ok base) /\
  (forall response e,
     client analysis raw_data issues = Ok response ->
     parse_response response = Raise e ->
     ollama_generate_adversarial_questions client analysis raw_data issues
     = Ok base) /\
  (forall cfg expected_fields,
     match ollama_validate client cfg analysis raw_data expected_fields with
     | Raise e => validate cfg analysis raw_data expected_fields = Raise e
     | Ok r' =>
         exists r extra,
           validate cfg analysis raw_data expected_fields = Ok r /\
           adversarial_questions r'
           = (adversarial_questions r ++ extra)%list
     end).
Proof.
  intros Hb. pose proof (ollama_generate_after_base client _ _ _ _ Hb) as Hg.
  repeat split.
  - eexists. split; [exact Hg|].
    destruct (client analysis raw_data issues) as [response|e]; [|apply Nat.le_0_l].
    destruct (parse_response response) as [qs|e] eqn:Ep; [|apply Nat.le_0_l].
    apply (parse_response_length _ _ Ep).
  - intros e He. rewrite Hg, He, app_nil_r. reflexivity.
  - intros response e Hr Hp. rewrite Hg, Hr, Hp, app_nil_r. reflexivity.
  - intros cfg expected_fields.
    unfold ollama_validate, validate, validate_with.
    destruct (check_completeness analysis raw_data expected_fields)
      as [[c ci]|e]; cbn [bind]; [|reflexivity].
    destruct (check_consistency analysis raw_data) as [[s si]|e];
      cbn [bind]; [|reflexivity].
    destruct (check_logic analysis raw_data) as [[l li]|e];
      cbn [bind]; [|reflexivity].
    destruct (generate_adversarial_questions analysis raw_data
                (ci ++ si ++ li)%list) as [base'|e] eqn:Eb.
    + rewrite (ollama_generate_after_base client _ _ _ _ Eb). cbn [bind].
      destruct (issue_penalty (ci ++ si ++ li)%list) as [pen|e];
        cbn [bind]; [|reflexivity].
      eexists. eexists. split; [reflexivity|]. cbn [adversarial_questions].
      reflexivity.
    + unfold ollama_generate_adversarial_questions. rewrite Eb. reflexivity.
Qed.

(** With the client down, on empty inputs: the four fixed questions. *)
Lemma ollama_questions_fall_back_witness :
  (exists extra,
     ollama_generate_adversarial_questions unreachable_client [] [] []
     = Ok ([q_current; q_horizon; q_outside; q_peers] ++ extra)%list /\
     (List.length extra <= 3)%nat) /\
  (forall e, unreachable_client [] [] [] = Raise e ->
     ollama_generate_adversarial_questions unreachable_client [] [] []
     = Ok [q_current; q_horizon; q_outside; q_peers]) /\
  (forall response e,
     unreachable_client [] [] [] = Ok response ->
     parse_response response = Raise e ->
     ollama_generate_adversarial_questions unreachable_client [] [] []
     = Ok [q_current; q_horizon; q_outside; q_peers]) /\
  (forall cfg expected_fields,
     match ollama_validate unreachable_client cfg [] [] expected_fields with
     | Raise e => validate cfg [] [] expected_fields = Raise e
     | Ok r' =>
         exists r extra,
           validate cfg [] [] expected_fields = Ok r /\
           adversarial_questions r'
           = (adversarial_questions r ++ extra)%list
     end).
Proof.
  apply (ollama_questions_fall_back unreachable_client [] [] []
           [q_current; q_horizon; q_outside; q_peers]).
  reflexivity.
Defined.

(** ** A missing [data_quality_score] *)

Lemma dict_get_absent (d : dict) (k : string) (default : value) :
  dict_has d k = false -> dict_get d k default = default.
Proof.
  unfold dict_has. induction d as [|[k' v] d IH]; [reflexivity|].
  cbn [existsb dict_get fst]. destruct (String.eqb k' k).
  - discriminate.
  - exact IH.
Qed.

(** Against a quality of 100 the first rule does nothing. *)
Lemma rule_low_quality_100 (confidence : value) (st st' : state) :
  rule_low_quality confidence (VInt 100) st = Ok st' -> st' = st.
Proof.
  unfold rule_low_quality, and_then. cbn [bind].
  destruct (truthy confidence).
  - destruct (py_gt confidence (NFloat f0_8)) as [[|]|e]; cbn [bind];
      intros H; try discriminate H.
    + change (py_lt (VInt 100) (NInt 50)) with (@Ok bool false) in H.
      cbn [bind] in H. injection H as <-. reflexivity.
    + injection H as <-. reflexivity.
  - intros H. injection H as <-. reflexivity.
Qed.

Lemma quality_question_prefix (v : value) (qs : list string) (q : string) :
  quality_question v = Ok qs -> In q qs ->
  prefix "Data quality is only" q = true /\ py_lt v (NInt 80) = Ok true.
Proof.
  unfold quality_question. intros H. bind_inv H. apply Ok_inj in H.
  destruct a; subst qs.
  - intros [<-|[]]. split; [reflexivity | exact Ha].
  - intros [].
Qed.

Lemma failed_question_prefix (v : value) (qs : list string) (q : string) :
  failed_question v = Ok qs -> In q qs ->
  prefix "Data quality is only" q = false.
Proof.
  unfold failed_question. destruct (truthy v).
  - intros H. bind_inv H. apply Ok_inj in H. subst qs.
    intros [<-|[]]. reflexivity.
  - intros H. apply Ok_inj in H. subst qs. intros [].
Qed.

Lemma confidence_question_prefix (v : value) (qs : list string) (q : string) :
  confidence_question v = Ok qs -> In q qs ->
  prefix "Data quality is only" q = false.
Proof.
  intros H. apply confidence_question_inv in H.
  destruct H as [(_ & _ & ->)|[(_ & _ & _ & ->)|[(_ & _ & _ & ->)|(_ & ->)]]];
    cbn [In]; intros Hq; repeat destruct Hq as [Hq|Hq];
    try contradiction; subst q; reflexivity.
Qed.

(** C10. When [raw_data] has no [data_quality_score], the consistency
    scorer and the rule-based generator behave as on the same data with
    the score 100: the scorer's low-data-quality rule does nothing (its
    result is that of the remaining rules run from the initial state, and
    its score takes no discount by 0.6), and no question on data quality
    is asked. The logic scorer depends on [raw_data] through
    [sources_successful] alone, so never on that score. *)
Theorem missing_data_quality_score (analysis raw_data : dict) :
  dict_has raw_data "data_quality_score" = false ->
  let with_100 := ("data_quality_score", VInt 100) :: raw_data in
  check_consistency analysis raw_data = check_consistency analysis with_100 /\
  (forall issues,
     generate_adversarial_questions analysis raw_data issues
     = generate_adversarial_questions analysis with_100 issues) /\
  (forall s issues,
     check_consistency analysis raw_data = Ok (s, issues) ->
     In s (reach one [f0_7; f0_8; f0_9; f0_9; f0_9; f0_9]) /\
     exists st2 st3 txt,
       rule_failed_sources (get_score analysis)
         (dict_get raw_data "sources_failed" (VList [])) (one, []) = Ok st2 /\
       rule_few_findings (dict_get analysis "confidence" (VInt 0))
         (get_findings analysis) st2 = Ok st3 /\
       findings_text (get_findings analysis) = Ok txt /\
       (s, issues) = fold_left (rule_contradiction txt) contradiction_pairs st3) /\
  (forall issues qs q,
     generate_adversarial_questions analysis raw_data issues = Ok qs ->
     In q qs -> prefix "Data quality is only" q = false) /\
  (forall raw_data',
     dict_get raw_data' "sources_successful" (VList [])
     = dict_get raw_data "sources_successful" (VList []) ->
     check_logic analysis raw_data' = check_logic analysis raw_data).
Proof.
  intros Habs. cbn zeta.
  pose proof (dict_get_absent raw_data "data_quality_score" (VInt 100) Habs) as Hq.
  split; [|split; [|split; [|split]]].
  - unfold check_consistency. cbn [dict_get String.eqb Ascii.eqb Bool.eqb].
    rewrite Hq. reflexivity.
  - intros issues. unfold generate_adversarial_questions.
    cbn [dict_get String.eqb Ascii.eqb Bool.eqb]. rewrite Hq. reflexivity.
  - intros s issues H. apply check_consistency_inv in H.
    destruct H as (st1 & st2 & st3 & txt & H1 & H2 & H3 & Ht & H4).
    rewrite Hq in H1. apply rule_low_quality_100 in H1. subst st1.
    split.
    + change one with (fst (one, @nil string)).
      eapply steps_by_reach; [apply (rule_failed_sources_steps _ _ _ _ H2)|].
      eapply steps_by_reach; [apply (rule_few_findings_steps _ _ _ _ H3)|].
      apply (contradictions_reach txt). rewrite <- H4. reflexivity.
    + exists st2, st3, txt. repeat split; assumption.
  - intros issues qs q H Hin.
    unfold generate_adversarial_questions in H.
    bind_inv H. bind_inv H. bind_inv H. apply Ok_inj in H. subst qs.
    rewrite Hq in Ha0.
    repeat (first [ rewrite in_app_iff in Hin
                  | progress cbn [In] in Hin
                  | destruct Hin as [Hin|Hin] ]);
      try (apply (failed_question_prefix _ _ _ Ha Hin));
      try (destruct (quality_question_prefix _ _ _ Ha0 Hin) as [_ E];
           discriminate E);
      try (apply (confidence_question_prefix _ _ _ Ha1 Hin));
      try (subst q; reflexivity);
      try contradiction.
    unfold contradiction_question in Hin.
    destruct (existsb _ issues); cbn [In] in Hin;
      repeat destruct Hin as [Hin|Hin]; try contradiction.
    subst q. reflexivity.
  - intros raw_data' Hs. unfold check_logic. rewrite Hs. reflexivity.
Qed.

(** The flagged analysis (confidence 0.95) against raw data with no
    [data_quality_score]. *)
Lemma missing_data_quality_score_witness :
  let with_100 := [("data_quality_score", VInt 100)] in
  check_consistency flagged_analysis [] = check_consistency flagged_analysis with_100 /\
  (forall issues,
     generate_adversarial_questions flagged_analysis [] issues
     = generate_adversarial_questions flagged_analysis with_100 issues) /\
  (forall s issues,
     check_consistency flagged_analysis [] = Ok (s, issues) ->
     In s (reach one [f0_7; f0_8; f0_9; f0_9; f0_9; f0_9]) /\
     exists st2 st3 txt,
       rule_failed_sources (get_score flagged_analysis)
         (dict_get [] "sources_failed" (VList [])) (one, []) = Ok st2 /\
       rule_few_findings (dict_get flagged_analysis "confidence" (VInt 0))
         (get_findings flagged_analysis) st2 = Ok st3 /\
       findings_text (get_findings flagged_analysis) = Ok txt /\
       (s, issues) = fold_left (rule_contradiction txt) contradiction_pairs st3) /\
  (forall issues qs q,
     generate_adversarial_questions flagged_analysis [] issues = Ok qs ->
     In q qs -> prefix "Data quality is only" q = false) /\
  (forall raw_data',
     dict_get raw_data' "sources_successful" (VList [])
     = dict_get [] "sources_successful" (VList []) ->
     check_logic flagged_analysis raw_data' = check_logic flagged_analysis []).
Proof.
  apply (missing_data_quality_score flagged_analysis []).
  reflexivity.
Defined.

(** ** Binary64 rounding *)

Lemma fexp_eq (x : Z) : fexp prec emax x = Z.max (x - 53) (-1074).
Proof. reflexivity. Qed.

Lemma digits2_log2 (p : positive) : Zpos (digits2_pos p) = Z.log2 (Zpos p) + 1.
Proof.
  induction p as [p IH|p IH|]; cbn [digits2_pos].
  - rewrite Pos2Z.inj_succ, IH.
    change (Z.log2 (Zpos p~1)) with (Zpos (Pos.size p)).
    destruct p; cbn; lia.
  - rewrite Pos2Z.inj_succ, IH.
    change (Z.log2 (Zpos p~0)) with (Zpos (Pos.size p)).
    destruct p; cbn; lia.
  - reflexivity.
Qed.

Lemma Zdigits2_log2 (q : Z) : 0 < q -> Zdigits2 q = Z.log2 q + 1.
Proof. destruct q; try lia. intros _. apply digits2_log2. Qed.

Lemma shr_1_m (r : shr_record) :
  0 <= shr_m r -> shr_m (shr_1 r) = shr_m r / 2.
Proof.
  destruct r as [m a b]. cbn [shr_m]. intros H.
  rewrite <- Z.div2_div.
  destruct m as [|[p|p|]|p]; try reflexivity. lia.
Qed.

Lemma pow2_xO (p : positive) : 2 ^ Zpos p~0 = 2 ^ Zpos p * 2 ^ Zpos p.
Proof. rewrite <- Z.pow_add_r by lia. f_equal. lia. Qed.

Lemma pow2_xI (p : positive) : 2 ^ Zpos p~1 = 2 * (2 ^ Zpos p * 2 ^ Zpos p).
Proof.
  rewrite <- Z.pow_add_r by lia. rewrite <- Z.pow_succ_r by lia. f_equal. lia.
Qed.

Lemma iter_shr_1_m (p : positive) : forall r : shr_record,
  0 <= shr_m r -> shr_m (iter_pos shr_1 p r) = shr_m r / 2 ^ Zpos p.
Proof.
  induction p as [p IH|p IH|]; intros r H; cbn [iter_pos].
  - assert (H1 : 0 <= shr_m (shr_1 r)) by (rewrite shr_1_m by exact H; apply Z.div_pos; lia).
    assert (H2 : 0 <= shr_m (iter_pos shr_1 p (shr_1 r)))
      by (rewrite IH by exact H1; apply Z.div_pos; [exact H1 | apply Z.pow_pos_nonneg; lia]).
    rewrite IH by exact H2. rewrite IH by exact H1. rewrite shr_1_m by exact H.
    rewrite !Z.div_div by (try apply Z.pow_pos_nonneg; lia).
    f_equal. rewrite pow2_xI. lia.
  - assert (H2 : 0 <= shr_m (iter_pos shr_1 p r))
      by (rewrite IH by exact H; apply Z.div_pos; [exact H | apply Z.pow_pos_nonneg; lia]).
    rewrite IH by exact H2. rewrite IH by exact H.
    rewrite !Z.div_div by (try apply Z.pow_pos_nonneg; lia).
    f_equal. rewrite pow2_xO. lia.
  - rewrite shr_1_m by exact H. reflexivity.
Qed.

(** [shr] on a nonnegative mantissa: a division by a power of two. *)
Lemma shr_m_spec (r : shr_record) (e k : Z) :
  0 <= shr_m r ->
  shr_m (fst (shr r e k)) = shr_m r / 2 ^ Z.max k 0 /\
  snd (shr r e k) = e + Z.max k 0.
Proof.
  intros H. destruct k as [|p|p]; cbn [shr fst snd].
  - rewrite Z.div_1_r. split; [reflexivity | lia].
  - rewrite iter_shr_1_m by exact H. rewrite Z.max_l by lia. split; reflexivity.
  - rewrite Z.max_r by lia. rewrite Z.div_1_r. split; [reflexivity | lia].
Qed.

Lemma shr_1_exact (m : Z) :
  0 <= m -> m mod 2 = 0 ->
  shr_1 (Build_shr_record m false false) = Build_shr_record (m / 2) false false.
Proof.
  intros H0 H. rewrite <- Z.div2_div.
  destruct m as [|[p|p|]|p]; try reflexivity; try lia.
  - exfalso. rewrite Pos2Z.inj_xI in H.
    rewrite Z.add_comm, Z.mul_comm, Z.mod_add in H by lia. discriminate H.
  - discriminate H.
Qed.

Lemma iter_shr_1_exact (p : positive) : forall m : Z,
  0 <= m -> m mod 2 ^ Zpos p = 0 ->
  iter_pos shr_1 p (Build_shr_record m false false)
  = Build_shr_record (m / 2 ^ Zpos p) false false.
Proof.
  induction p as [p IH|p IH|]; intros m H0 H; cbn [iter_pos].
  - rewrite pow2_xI in *.
    assert (Hp : 0 < 2 ^ Zpos p) by (apply Z.pow_pos_nonneg; lia).
    apply Z.mod_divide in H; [|lia]. destruct H as [c ->].
    rewrite shr_1_exact; [|lia|].
    2:{ replace (c * (2 * (2 ^ Zpos p * 2 ^ Zpos p)))
          with ((c * (2 ^ Zpos p * 2 ^ Zpos p)) * 2) by lia.
        apply Z.mod_mul. lia. }
    replace (c * (2 * (2 ^ Zpos p * 2 ^ Zpos p)) / 2)
      with (c * 2 ^ Zpos p * 2 ^ Zpos p).
    2:{ replace (c * (2 * (2 ^ Zpos p * 2 ^ Zpos p)))
          with ((c * 2 ^ Zpos p * 2 ^ Zpos p) * 2) by lia.
        rewrite Z.div_mul by lia. reflexivity. }
    rewrite IH; [| nia | apply Z.mod_mul; lia].
    rewrite Z.div_mul by lia.
    rewrite IH; [| nia | apply Z.mod_mul; lia].
    rewrite Z.div_mul by lia.
    f_equal.
    replace (c * (2 * (2 ^ Zpos p * 2 ^ Zpos p)))
      with (c * (2 * (2 ^ Zpos p * 2 ^ Zpos p))) by lia.
    rewrite Z.div_mul by lia. reflexivity.
  - rewrite pow2_xO in *.
    assert (Hp : 0 < 2 ^ Zpos p) by (apply Z.pow_pos_nonneg; lia).
    apply Z.mod_divide in H; [|lia]. destruct H as [c ->].
    replace (c * (2 ^ Zpos p * 2 ^ Zpos p)) with (c * 2 ^ Zpos p * 2 ^ Zpos p) by lia.
    rewrite IH; [| nia | apply Z.mod_mul; lia].
    rewrite Z.div_mul by lia.
    rewrite IH; [| nia | apply Z.mod_mul; lia].
    rewrite Z.div_mul by lia.
    f_equal.
    replace (c * 2 ^ Zpos p * 2 ^ Zpos p) with (c * (2 ^ Zpos p * 2 ^ Zpos p)) by lia.
    rewrite Z.div_mul by lia. reflexivity.
  - change (2 ^ 1) with 2 in *. apply shr_1_exact; assumption.
Qed.

Lemma shr_record_of_loc_m (m : Z) (l : location) :
  shr_m (shr_record_of_loc m l) = m.
Proof. destruct l as [|[| |]]; reflexivity. Qed.

Lemma round_nearest_even_cases (m : Z) (l : location) :
  round_nearest_even m l = m \/ round_nearest_even m l = m + 1.
Proof.
  destruct l as [|[| |]]; cbn; auto. destruct (Z.even m); auto.
Qed.

(** [binary_round_aux] in arithmetic: shift, round up or not, shift again. *)
Lemma binary_round_aux_spec (s : bool) (q e : Z) (l : location) :
  0 <= q ->
  exists m1r,
    (m1r = q / 2 ^ shift_of q e \/ m1r = q / 2 ^ shift_of q e + 1) /\
    (l = loc_Exact -> q mod 2 ^ shift_of q e = 0 -> m1r = q / 2 ^ shift_of q e) /\
    binary_round_aux prec emax s q e l
    = finish s (m1r / 2 ^ shift_of m1r (e + shift_of q e))
               (e + shift_of q e + shift_of m1r (e + shift_of q e)).
Proof.
  intros Hq. unfold binary_round_aux, shr_fexp, shift_of.
  set (k1 := fexp prec emax (Zdigits2 q + e) - e).
  assert (H0 : 0 <= shr_m (shr_record_of_loc q l))
    by (rewrite shr_record_of_loc_m; exact Hq).
  destruct (shr_m_spec (shr_record_of_loc q l) e k1 H0) as [Hm1 He1].
  rewrite shr_record_of_loc_m in Hm1.
  destruct (shr (shr_record_of_loc q l) e k1) as [mrs' e1] eqn:E1.
  cbn [fst snd] in Hm1, He1.
  set (m1r := round_nearest_even (shr_m mrs') (loc_of_shr_record mrs')).
  assert (Hm1r : m1r = q / 2 ^ Z.max k1 0 \/ m1r = q / 2 ^ Z.max k1 0 + 1).
  { unfold m1r. rewrite <- Hm1. apply round_nearest_even_cases. }
  assert (Hpos : 0 <= q / 2 ^ Z.max k1 0).
  { apply Z.div_pos; [exact Hq|]. apply Z.pow_pos_nonneg; lia. }
  assert (H1 : 0 <= shr_m (shr_record_of_loc m1r loc_Exact))
    by (cbn; lia).
  rewrite <- He1.
  set (k2 := fexp prec emax (Zdigits2 m1r + e1) - e1).
  destruct (shr_m_spec (shr_record_of_loc m1r loc_Exact) e1 k2 H1) as [Hm2 He2].
  destruct (shr (shr_record_of_loc m1r loc_Exact) e1 k2) as [mrs'' e2] eqn:E2.
  cbn [fst snd shr_record_of_loc shr_m] in Hm2, He2.
  exists m1r. split; [exact Hm1r|]. split.
  - intros -> Hmod. unfold m1r. rewrite <- Hm1.
    assert (Hex : mrs' = Build_shr_record (q / 2 ^ Z.max k1 0) false false).
    { cbn [shr_record_of_loc] in E1. unfold shr in E1.
      destruct k1 as [|p|p].
      - injection E1 as <- _. cbn. rewrite Z.div_1_r. reflexivity.
      - injection E1 as <- _. rewrite Z.max_l in * by lia.
        apply iter_shr_1_exact; assumption.
      - injection E1 as <- _. cbn. rewrite Z.div_1_r. reflexivity. }
    rewrite Hex. reflexivity.
  - unfold finish. rewrite Hm2, He2. reflexivity.
Qed.

Lemma finish_unit (m e : Z) :
  m = 0 \/ (0 < m < 2 ^ 53 /\ e <= -53) \/ (m = 2 ^ 52 /\ e = -52) ->
  unit_floatb (finish false m e) = true.
Proof.
  intros H. unfold finish. destruct m as [|p|p].
  - reflexivity.
  - assert (He : (e <=? emax - prec) = true).
    { apply Z.leb_le. change (emax - prec) with 971. lia. }
    rewrite He. cbn [unit_floatb].
    apply orb_true_iff. destruct H as [H|[[H1 H2]|[H1 H2]]].
    + discriminate H.
    + left. apply andb_true_iff. split; [apply Z.leb_le | apply Z.ltb_lt]; lia.
    + right. apply andb_true_iff. split; [apply Z.eqb_eq | apply Z.eqb_eq]; lia.
  - exfalso. change (2 ^ 53) with 9007199254740992 in H.
    change (2 ^ 52) with 4503599627370496 in H. lia.
Qed.

Lemma shift_of_zero (e : Z) : -1074 <= e -> shift_of 0 e = 0.
Proof. intros H. unfold shift_of. rewrite fexp_eq. cbn [Zdigits2]. lia. Qed.

Lemma shift_of_small (m e : Z) :
  0 < m < 2 ^ 53 -> -1074 <= e -> shift_of m e = 0.
Proof.
  intros [H0 H1] He. unfold shift_of. rewrite fexp_eq, Zdigits2_log2 by exact H0.
  apply Z.log2_lt_pow2 in H1; [|exact H0]. lia.
Qed.

Lemma shift_of_pow53 (e : Z) : -1075 <= e -> shift_of (2 ^ 53) e = 1.
Proof.
  intros He. unfold shift_of. rewrite fexp_eq.
  rewrite Zdigits2_log2 by (apply Z.pow_pos_nonneg; lia).
  rewrite Z.log2_pow2 by lia. lia.
Qed.

(** The quotient core on two integers [n <= d]. *)
Lemma div_core_le (n d : positive) :
  (n <= d)%positive ->
  exists q E l,
    SFdiv_core_binary prec emax (Zpos n) 0 (Zpos d) 0 = (q, E, l) /\
    -1074 <= E <= -53 /\
    0 <= q <= 2 ^ (- E) /\
    (q = 2 ^ (- E) -> l = loc_Exact).
Proof.
  intros Hnd. unfold SFdiv_core_binary.
  rewrite !Zdigits2_log2 by lia. rewrite fexp_eq.
  assert (Hlog : Z.log2 (Zpos n) <= Z.log2 (Zpos d)) by (apply Z.log2_le_mono; lia).
  set (E := Z.min (Z.max (Z.log2 (Zpos n) + 1 + 0 - (Z.log2 (Zpos d) + 1 + 0) - 53) (-1074)) (0 - 0)).
  assert (HE : -1074 <= E <= -53) by (unfold E; lia).
  assert (Hs : 0 - 0 - E = - E) by lia. rewrite Hs.
  destruct (- E) as [|s|s] eqn:Es; try lia.
  rewrite Z.shiftl_mul_pow2 by lia.
  assert (Hp : 0 < 2 ^ Zpos s) by (apply Z.pow_pos_nonneg; lia).
  pose proof (Z.div_eucl_eq (Zpos n * 2 ^ Zpos s) (Zpos d) ltac:(lia)) as Heq.
  pose proof (Z.mod_pos_bound (Zpos n * 2 ^ Zpos s) (Zpos d) ltac:(lia)) as Hr.
  unfold Z.modulo in Hr.
  destruct (Z.div_eucl (Zpos n * 2 ^ Zpos s) (Zpos d)) as [q r].
  exists q, E, (new_location (Zpos d) r). split; [reflexivity|]. split; [exact HE|].
  assert (Hq : 0 <= q <= 2 ^ Zpos s) by nia.
  rewrite Es. split; [exact Hq|].
  intros ->. assert (r = 0) by nia. subst r.
  unfold new_location, new_location_even, new_location_odd.
  destruct (Z.even (Zpos d)); reflexivity.
Qed.

(** What the second shift leaves of a rounded mantissa of at most 54 bits,
    at an exponent [e1 <= -53]. *)
Lemma second_shift_unit (m1r e1 : Z) :
  0 <= m1r <= 2 ^ 53 -> -1074 <= e1 <= -53 ->
  unit_floatb (finish false (m1r / 2 ^ shift_of m1r e1) (e1 + shift_of m1r e1)) = true.
Proof.
  intros Hm He. apply finish_unit.
  assert (Hc : m1r = 0 \/ 0 < m1r < 2 ^ 53 \/ m1r = 2 ^ 53) by lia.
  destruct Hc as [ Hz | [ Hc | Hz ] ]; [subst m1r | | subst m1r].
  - left. reflexivity.
  - rewrite shift_of_small by (try exact Hc; lia).
    rewrite Z.div_1_r. right. left. lia.
  - rewrite shift_of_pow53 by lia.
    change (2 ^ 53 / 2 ^ 1) with (2 ^ 52).
    change (2 ^ 52) with 4503599627370496. change (2 ^ 53) with 9007199254740992.
    lia.
Qed.

(** Rounding a quotient of the unit interval stays in the unit interval. *)
Lemma round_unit (q E : Z) (l : location) :
  -1074 <= E <= -53 -> 0 <= q <= 2 ^ (- E) -> (q = 2 ^ (- E) -> l = loc_Exact) ->
  unit_floatb (binary_round_aux prec emax false q E l) = true.
Proof.
  intros HE Hq Hl.
  destruct (binary_round_aux_spec false q E l (proj1 Hq)) as (m1r & Hc & Hex & ->).
  assert (Hcase : q = 2 ^ (- E) \/ q = 0 \/ 0 < q < 2 ^ (- E)) by lia.
  destruct Hcase as [Hb|[Hz|Hin]].
  - (* the quotient is one *)
    assert (Hsh : shift_of q E = -52 - E).
    { unfold shift_of. rewrite fexp_eq.
      rewrite Zdigits2_log2 by (rewrite Hb; apply Z.pow_pos_nonneg; lia).
      rewrite Hb, Z.log2_pow2 by lia. lia. }
    assert (Hsplit : 2 ^ (- E) = 2 ^ 52 * 2 ^ (-52 - E)).
    { rewrite <- Z.pow_add_r by lia. f_equal. lia. }
    assert (Hp : 0 < 2 ^ (-52 - E)) by (apply Z.pow_pos_nonneg; lia).
    assert (Hm : m1r = 2 ^ 52).
    { rewrite Hex.
      - rewrite Hsh, Hb, Hsplit. apply Z.div_mul. lia.
      - apply Hl, Hb.
      - rewrite Hsh, Hb, Hsplit. apply Z.mod_mul. lia. }
    rewrite Hm, Hsh. replace (E + (-52 - E)) with (-52) by lia.
    apply finish_unit. right. right.
    rewrite shift_of_small by (change (2 ^ 52) with 4503599627370496;
                               change (2 ^ 53) with 9007199254740992; lia).
    rewrite Z.div_1_r. lia.
  - (* the quotient is below the least subnormal *)
    subst q. rewrite shift_of_zero in * by lia.
    change (0 / 2 ^ 0) with 0 in Hc. rewrite Z.add_0_r.
    apply second_shift_unit; [|lia].
    change (2 ^ 53) with 9007199254740992. lia.
  - (* the general case *)
    assert (Hlog : Z.log2 q < - E) by (apply Z.log2_lt_pow2; lia).
    pose proof (Z.log2_spec q (proj1 Hin)) as Hspec.
    assert (Hsh : 0 <= shift_of q E /\ Z.log2 q + 1 - 53 <= shift_of q E /\
                  -1074 <= E + shift_of q E <= -53).
    { unfold shift_of. rewrite fexp_eq, Zdigits2_log2 by lia. lia. }
    destruct Hsh as (Hs0 & Hs1 & Hs2).
    assert (Hp : 0 < 2 ^ shift_of q E) by (apply Z.pow_pos_nonneg; lia).
    assert (Hm1 : 0 <= q / 2 ^ shift_of q E < 2 ^ 53).
    { split; [apply Z.div_pos; lia|].
      apply Z.div_lt_upper_bound; [exact Hp|].
      rewrite <- Z.pow_add_r by lia.
      apply Z.lt_le_trans with (2 ^ Z.succ (Z.log2 q)); [lia|].
      apply Z.pow_le_mono_r; lia. }
    apply second_shift_unit; [|exact Hs2]. lia.
Qed.

(** The correctly rounded quotient of two positive integers [n <= d]. *)
Lemma div_le_unit (n d : positive) :
  (n <= d)%positive ->
  unit_floatb
    (let '(q, e, l) := SFdiv_core_binary prec emax (Zpos n) 0 (Zpos d) 0 in
     binary_round_aux prec emax false q e l) = true.
Proof.
  intros H. destruct (div_core_le n d H) as (q & E & l & -> & HE & Hq & Hl).
  apply round_unit; assumption.
Qed.

(** Rounding a nonnegative quotient gives neither a NaN nor a negative. *)
Lemma round_nonneg (q e : Z) (l : location) :
  0 <= q -> nonnegb (binary_round_aux prec emax false q e l) = true.
Proof.
  intros Hq.
  destruct (binary_round_aux_spec false q e l Hq) as (m1r & Hc & _ & ->).
  assert (H1 : 0 <= q / 2 ^ shift_of q e).
  { apply Z.div_pos; [exact Hq|]. apply Z.pow_pos_nonneg; [lia|].
    unfold shift_of. lia. }
  assert (H2 : 0 <= m1r / 2 ^ shift_of m1r (e + shift_of q e)).
  { apply Z.div_pos; [lia|]. apply Z.pow_pos_nonneg; [lia|].
    unfold shift_of. lia. }
  unfold finish.
  destruct (m1r / 2 ^ shift_of m1r (e + shift_of q e)); try reflexivity.
  - destruct (_ <=? _); reflexivity.
  - lia.
Qed.

(** ** Scores in range *)

Lemma unit_float_in_unit (x : float) : unit_floatb x = true -> in_unit x = true.
Proof.
  destruct x as [[|]|s| |[|] m e]; try discriminate; [reflexivity|].
  cbn [unit_floatb]. intros H. apply orb_true_iff in H.
  unfold in_unit, leb, SFleb, zero, one. cbn [SFcompare andb].
  destruct H as [H|H]; apply andb_true_iff in H; destruct H as [H1 H2].
  - apply Z.leb_le in H1. destruct (Z.compare_spec e (-52)); [lia | reflexivity | lia].
  - apply Z.eqb_eq in H1. apply Z.eqb_eq in H2. subst e.
    injection H2 as ->. reflexivity.
Qed.

Lemma div_pos_unit (n d : positive) :
  (n <= d)%positive -> unit_floatb (div_pos false n d) = true.
Proof. exact (div_le_unit n d). Qed.

(** [round(x, 3)] keeps a float of the unit interval in it. *)
Lemma round3_unit (x : float) :
  unit_floatb x = true -> unit_floatb (F64.round3 x) = true.
Proof.
  destruct x as [[|]|s| |[|] m e]; try discriminate; [reflexivity|].
  cbn [unit_floatb]. intros H.
  assert (Hm : e < 0 /\ Zpos m <= 2 ^ (- e)).
  { apply orb_true_iff in H.
    destruct H as [H|H]; apply andb_true_iff in H; destruct H as [H1 H2].
    - apply Z.leb_le in H1. apply Z.ltb_lt in H2. split; [lia|].
      apply Z.le_trans with (2 ^ 53); [lia|]. apply Z.pow_le_mono_r; lia.
    - apply Z.eqb_eq in H1. apply Z.eqb_eq in H2. subst e. split; [lia|].
      rewrite H2. apply Z.le_refl. }
  destruct Hm as [He Hm].
  unfold F64.round3, scaled_nearest.
  destruct (Z.leb_spec 0 e) as [Hge|_]; [lia|].
  assert (Hp : 0 < 2 ^ (- e)) by (apply Z.pow_pos_nonneg; lia).
  assert (Hr : round_half_even (Zpos m * 1000) (2 ^ (- e)) <= 1000).
  { unfold round_half_even.
    pose proof (Z.div_mod (Zpos m * 1000) (2 ^ (- e)) ltac:(lia)) as Hdm.
    pose proof (Z.mod_pos_bound (Zpos m * 1000) (2 ^ (- e)) Hp) as Hmod.
    destruct (Z.compare_spec (2 * ((Zpos m * 1000) mod 2 ^ (- e))) (2 ^ (- e)));
      [destruct (Z.even _)| |]; nia. }
  destruct (round_half_even (Zpos m * 1000) (2 ^ (- e))) as [|n|n];
    try reflexivity.
  apply div_pos_unit. lia.
Qed.

Lemma filter_length_le {A : Type} (f : A -> bool) (l : list A) :
  (List.length (filter f l) <= List.length l)%nat.
Proof.
  induction l as [|a l IH]; cbn; [lia|]. destruct (f a); cbn; lia.
Qed.

(** [a / b] on ints with [0 <= a <= b] and [0 < b] returns, in [0.0, 1.0]. *)
Lemma int_truediv_unit (a b : Z) :
  0 <= a <= b -> 0 < b ->
  exists q, int_truediv a b = Ok q /\ unit_floatb q = true.
Proof.
  intros Ha Hb. unfold int_truediv.
  destruct b as [|b|b]; try lia. destruct a as [|a|a]; try lia.
  - exists (S754_zero false). split; reflexivity.
  - change (xorb (Zpos a <? 0) (Zpos b <? 0)) with false.
    change (Z.to_pos (Z.abs (Zpos a))) with a.
    change (Z.to_pos (Z.abs (Zpos b))) with b.
    pose proof (div_pos_unit a b ltac:(lia)) as H.
    destruct (div_pos false a b) as [s|s| |s m e]; try discriminate H.
    + eexists. split; [reflexivity | exact H].
    + eexists. split; [reflexivity | exact H].
Qed.

(** On values that render, the completeness scorer returns; its score is
    in [0.0, 1.0]. *)
Lemma check_completeness_unit (analysis raw_data : dict)
    (expected_fields : option (list string)) :
  exists c issues,
    check_completeness analysis raw_data expected_fields = Ok (c, issues) /\
    unit_floatb c = true.
Proof.
  unfold check_completeness.
  destruct (available_sources raw_data) as [|a l] eqn:Ea.
  - cbn [bind]. eexists. eexists. split; reflexivity.
  - destruct (int_truediv_unit
      (Z.of_nat (List.length (sources_referenced analysis (a :: l))))
      (Z.of_nat (List.length (a :: l)))) as (q & Hq & Hu).
    + split; [lia|]. apply Nat2Z.inj_le. unfold sources_referenced.
      apply filter_length_le.
    + cbn [List.length]. lia.
    + rewrite Hq. cbn [bind]. eexists. eexists. split; [reflexivity | exact Hu].
Qed.

Lemma div_core_nonneg (n d : positive) :
  0 <= fst (fst (SFdiv_core_binary prec emax (Zpos n) 0 (Zpos d) 0)).
Proof.
  unfold SFdiv_core_binary.
  set (s := 0 - 0 - _).
  set (m' := match s with Z0 => Zpos n | Zpos _ => Z.shiftl (Zpos n) s | Zneg _ => 0 end).
  assert (Hm : 0 <= m').
  { unfold m'. destruct s; try lia. apply Z.shiftl_nonneg. lia. }
  pose proof (Z.div_pos m' (Zpos d) Hm ltac:(lia)) as Hq.
  unfold Z.div in Hq. destruct (Z.div_eucl m' (Zpos d)) as [q r]. exact Hq.
Qed.

Lemma div_pos_nonneg (n d : positive) : nonnegb (div_pos false n d) = true.
Proof.
  unfold div_pos. pose proof (div_core_nonneg n d) as H.
  destruct (SFdiv_core_binary prec emax (Zpos n) 0 (Zpos d) 0) as [[q e] l].
  apply round_nonneg. exact H.
Qed.

Lemma nonneg_num_nonneg (f : float) :
  nonnegb f = true -> num_nonneg (NFloat f) = true.
Proof.
  destruct f as [s|[|]| |[|] m e]; try discriminate; try reflexivity.
  intros _. unfold num_nonneg, num_compare, cmp_Z.
  destruct (Z.leb_spec 0 e) as [He|He]; [|reflexivity].
  assert (Hp : 0 < 2 ^ e) by (apply Z.pow_pos_nonneg; lia).
  destruct (Z.compare_spec (Zpos m * 2 ^ e) 0); try reflexivity; nia.
Qed.

(** A float above the int [0] is [inf] or a finite float with the sign
    bit clear. *)
Lemma gt_0_inv (x : float) :
  num_gt (NFloat x) (NInt 0) = true ->
  x = S754_infinity false \/ exists m e, x = S754_finite false m e.
Proof.
  unfold num_gt, num_compare, cmp_Z.
  destruct x as [s|[|]| |[|] m e]; try discriminate.
  - left. reflexivity.
  - intros H. exfalso.
    destruct (Z.leb_spec 0 e) as [He|He]; [|discriminate H].
    assert (Hp : 0 < 2 ^ e) by (apply Z.pow_pos_nonneg; lia).
    destruct (Z.compare_spec (Zneg m * 2 ^ e) 0); try discriminate H. nia.
  - right. exists m, e. reflexivity.
Qed.

(** [round(max(0, x), 3)] is never negative, whatever the float [x]. *)
Lemma round3_max0_nonneg (x : float) : num_nonneg (Py.round3 (max0 x)) = true.
Proof.
  unfold max0. destruct (num_gt (NFloat x) (NInt 0)) eqn:E; [|reflexivity].
  apply gt_0_inv in E. destruct E as [->|(m & e & ->)]; [reflexivity|].
  cbn [Py.round3]. apply nonneg_num_nonneg. unfold F64.round3.
  destruct (scaled_nearest m e 1000); try reflexivity.
  apply div_pos_nonneg.
Qed.

(** ** The completeness score *)

Lemma in_list_In (x : string) (l : list string) : in_list x l = true <-> In x l.
Proof.
  unfold in_list. rewrite existsb_exists. split.
  - intros (y & Hy & E). apply String.eqb_eq in E. subst y. exact Hy.
  - intros H. exists x. split; [exact H | apply String.eqb_refl].
Qed.

(** The available sources, folded from any set of sources so far. *)
Lemma available_from_nil (raw_data : dict) : forall acc : list string,
  fold_left
    (fun acc kv => if is_source (fst kv) (snd kv) then set_add (fst kv) acc else acc)
    raw_data acc = [] <->
  acc = [] /\ forall k v, In (k, v) raw_data -> is_source k v = false.
Proof.
  induction raw_data as [|[k v] d IH]; intros acc; cbn [fold_left fst snd].
  - split; [intros ->; split; [reflexivity | intros k v []] | intros [-> _]; reflexivity].
  - rewrite IH. destruct (is_source k v) eqn:Es.
    + split.
      * intros [Hadd _]. exfalso. unfold set_add in Hadd.
        destruct (in_list k acc) eqn:Ei.
        -- subst acc. discriminate Ei.
        -- destruct acc; discriminate Hadd.
      * intros [_ H]. rewrite (H k v (or_introl eq_refl)) in Es. discriminate Es.
    + split.
      * intros [-> H]. split; [reflexivity|].
        intros k' v' [E|Hin]; [injection E as <- <-; exact Es | apply H, Hin].
      * intros [-> H]. split; [reflexivity|].
        intros k' v' Hin. apply H. right. exact Hin.
Qed.

(** A top-level entry is no source exactly when its value is falsy, its key
    is reserved, or it is a mapping with a falsy [success] or with no
    truthy value under another key. *)
Lemma is_source_false_iff (k : string) (v : value) :
  is_source k v = false <->
  truthy v = false \/ In k reserved_keys \/
  exists d, v = VDict d /\
    (truthy (dict_get d "success" (VBool true)) = false \/
     forall k' v', In (k', v') d -> k' = "success" \/ truthy v' = false).
Proof.
  unfold is_source. rewrite !andb_false_iff, negb_false_iff, in_list_In.
  split.
  - intros [[H|H]|H]; [left; exact H | right; left; exact H |].
    destruct v as [|b|z|f|s|l|d]; try (left; exact H).
    right. right. exists d. split; [reflexivity|].
    cbn [has_data] in H. apply andb_false_iff in H. destruct H as [H|H].
    + left. exact H.
    + right. intros k' v' Hin.
      destruct (String.eqb_spec k' "success") as [E|E]; [left; exact E|].
      right. destruct (truthy v') eqn:Et; [|reflexivity].
      assert (Hex : existsb (fun kv => negb (String.eqb (fst kv) "success")
                                    && truthy (snd kv)) d = true).
      { apply existsb_exists. exists (k', v'). split; [exact Hin|].
        cbn [fst snd]. rewrite Et. apply String.eqb_neq in E. rewrite E. reflexivity. }
      rewrite Hex in H. discriminate H.
  - intros [H|[H|(d & -> & H)]]; [left; left; exact H | left; right; exact H |].
    right. cbn [has_data]. apply andb_false_iff. destruct H as [H|H].
    + left. exact H.
    + right. destruct (existsb _ d) eqn:Ex; [|reflexivity].
      apply existsb_exists in Ex. destruct Ex as ([k' v'] & Hin & Hb).
      cbn [fst snd] in Hb. apply andb_true_iff in Hb. destruct Hb as [Hk Hv].
      destruct (H k' v' Hin) as [->|Hf].
      * discriminate Hk.
      * rewrite Hf in Hv. discriminate Hv.
Qed.

(** ** Scores of a result *)

(** C5. In every result of [validate] the completeness score and the
    consistency score lie in [0.0, 1.0], as the scorers return them and as
    the result stores them rounded; the consistency score stays above 0,
    its discounts compounding from 1.0; and the overall confidence is never
    below 0. *)
Theorem scores_in_range (cfg : Config) (analysis raw_data : dict)
    (expected_fields : option (list string)) (r : ValidationResult) :
  validate cfg analysis raw_data expected_fields = Ok r ->
  in_unit (completeness_score r) = true /\
  in_unit (consistency_score r) = true /\
  num_nonneg (overall_confidence r) = true /\
  exists c ci s si,
    check_completeness analysis raw_data expected_fields = Ok (c, ci) /\
    check_consistency analysis raw_data = Ok (s, si) /\
    completeness_score r = F64.round3 c /\
    consistency_score r = F64.round3 s /\
    in_unit c = true /\
    in_unit s = true /\
    ltb zero s = true /\
    In s (reach one consistency_discounts).
Proof.
  intros H. apply validate_with_inv in H.
  destruct H as (c & ci & s & si & l & li & qs & pen & Hc & Hs & _ & _ & _ & ->).
  cbn [completeness_score consistency_score overall_confidence].
  destruct (check_completeness_unit analysis raw_data expected_fields)
    as (c' & ci' & Hc' & Hu).
  rewrite Hc in Hc'. apply Ok_inj in Hc'. injection Hc' as <- <-.
  pose proof (check_consistency_reach _ _ _ _ Hs) as Hreach.
  assert (Hall : forallb (fun z => in_unit z && in_unit (F64.round3 z) && ltb zero z)
                   (reach one consistency_discounts) = true)
    by (vm_compute; reflexivity).
  pose proof (reach_forallb _ _ _ _ Hall Hreach) as Hz.
  cbv beta in Hz. apply andb_true_iff in Hz. destruct Hz as [Hz Hpos].
  apply andb_true_iff in Hz. destruct Hz as [Hs1 Hs2].
  split; [apply unit_float_in_unit, round3_unit, Hu|].
  split; [exact Hs2|].
  split; [apply round3_max0_nonneg|].
  exists c, ci, s, si.
  repeat split; try assumption.
  apply unit_float_in_unit, Hu.
Qed.

Lemma scores_in_range_witness :
  in_unit (completeness_score flagged_result) = true /\
  in_unit (consistency_score flagged_result) = true /\
  num_nonneg (overall_confidence flagged_result) = true /\
  exists c ci s si,
    check_completeness flagged_analysis flagged_raw_data None = Ok (c, ci) /\
    check_consistency flagged_analysis flagged_raw_data = Ok (s, si) /\
    completeness_score flagged_result = F64.round3 c /\
    consistency_score flagged_result = F64.round3 s /\
    in_unit c = true /\
    in_unit s = true /\
    ltb zero s = true /\
    In s (reach one consistency_discounts).
Proof.
  apply (scores_in_range default_config flagged_analysis flagged_raw_data None
           flagged_result).
  vm_compute. reflexivity.
Defined.

(* ================================================================== *)
(** * Further properties *)

Import Devices.

(** ** Issues and discounts go together *)

Lemma reach_count_ge (x : float) (fs : list float) : forall (n : nat) z k,
  In (z, k) (reach_count x n fs) -> (n <= k)%nat.
Proof.
  revert x. induction fs as [|f r IH]; intros x n z k H; cbn [reach_count] in H.
  - destruct H as [E|[]]. injection E as _ <-. apply Nat.le_refl.
  - apply in_app_or in H. destruct H as [H|H].
    + apply (IH _ _ _ _ H).
    + apply IH in H. lia.
Qed.

(** With no discount taken the score has not moved. *)
Lemma reach_count_same (x : float) (fs : list float) : forall (n : nat) z,
  In (z, n) (reach_count x n fs) -> z = x.
Proof.
  revert x. induction fs as [|f r IH]; intros x n z H; cbn [reach_count] in H.
  - destruct H as [E|[]]. injection E as <-. reflexivity.
  - apply in_app_or in H. destruct H as [H|H].
    + apply (IH _ _ _ H).
    + apply reach_count_ge in H. lia.
Qed.

Lemma steps_by_reach_count (f : float) (fs : list float) (st st' : state)
    (z : float) (k : nat) :
  steps_by f st st' ->
  In (z, k) (reach_count (fst st') (List.length (snd st')) fs) ->
  In (z, k) (reach_count (fst st) (List.length (snd st)) (f :: fs)).
Proof.
  intros [->|[msg ->]] Hz; cbn [reach_count]; apply in_or_app.
  - left. exact Hz.
  - right. unfold discount in Hz. cbn [fst snd] in Hz.
    rewrite length_app in Hz. cbn [List.length] in Hz.
    rewrite Nat.add_1_r in Hz. exact Hz.
Qed.

Lemma reach_count_forallb (P : float * nat -> bool) (x : float) (n : nat)
    (fs : list float) (zk : float * nat) :
  forallb P (reach_count x n fs) = true -> In zk (reach_count x n fs) ->
  P zk = true.
Proof.
  intros H Hz. rewrite forallb_forall in H. apply H, Hz.
Qed.

Lemma check_consistency_reach_count (analysis raw_data : dict) (s : float)
    (issues : list string) :
  check_consistency analysis raw_data = Ok (s, issues) ->
  In (s, List.length issues) (reach_count one 0 consistency_discounts).
Proof.
  intros H. apply check_consistency_inv in H.
  destruct H as (st1 & st2 & st3 & txt & H1 & H2 & H3 & _ & H4).
  unfold consistency_discounts.
  change one with (fst (one, @nil string)).
  change 0%nat with (List.length (snd (one, @nil string))).
  eapply steps_by_reach_count; [apply (rule_low_quality_steps _ _ _ _ H1)|].
  eapply steps_by_reach_count; [apply (rule_failed_sources_steps _ _ _ _ H2)|].
  eapply steps_by_reach_count; [apply (rule_few_findings_steps _ _ _ _ H3)|].
  unfold contradiction_pairs in H4. cbn [fold_left] in H4.
  eapply steps_by_reach_count; [apply rule_contradiction_steps|].
  eapply steps_by_reach_count; [apply rule_contradiction_steps|].
  eapply steps_by_reach_count; [apply rule_contradiction_steps|].
  eapply steps_by_reach_count; [apply rule_contradiction_steps|].
  rewrite <- H4. left. reflexivity.
Qed.

(** X1. The consistency scorer returns the score 1.0 exactly when it
    reports no issue. It reports at most seven issues, and with any issue
    its score is at most 0.9. *)
Theorem consistency_score_and_issues (analysis raw_data : dict) (s : float)
    (issues : list string) :
  check_consistency analysis raw_data = Ok (s, issues) ->
  (issues = [] <-> s = one) /\
  (List.length issues <= 7)%nat /\
  (issues <> [] -> leb s f0_9 = true).
Proof.
  intros H. apply check_consistency_reach_count in H.
  assert (Hall : forallb
            (fun zk : float * nat =>
               (snd zk <=? 7)%nat &&
               ((snd zk =? 0)%nat || leb (fst zk) f0_9))
            (reach_count one 0 consistency_discounts) = true)
    by (vm_compute; reflexivity).
  pose proof (reach_count_forallb _ _ _ _ _ Hall H) as Hp.
  cbn [fst snd] in Hp. apply andb_true_iff in Hp. destruct Hp as [Hlen Hle].
  apply Nat.leb_le in Hlen. apply orb_true_iff in Hle.
  split; [split|split].
  - intros ->. apply (reach_count_same _ _ _ _ H).
  - intros ->. destruct issues as [|i issues]; [reflexivity|].
    destruct Hle as [Hz|Hz]; [discriminate Hz|].
    vm_compute in Hz. discriminate Hz.
  - exact Hlen.
  - intros Hne. destruct Hle as [Hz|Hz]; [|exact Hz].
    apply Nat.eqb_eq in Hz. destruct issues; [contradiction Hne; reflexivity|].
    discriminate Hz.
Qed.

(** On the flagged analysis: two issues, score 0.48. *)
Lemma consistency_score_and_issues_witness :
  (["High confidence (95%) despite low data quality (30%)";
    "High confidence (95%) but only 0 findings"] = [] <-> lit 48 100 = one) /\
  (List.length ["High confidence (95%) despite low data quality (30%)";
                "High confidence (95%) but only 0 findings"] <= 7)%nat /\
  (["High confidence (95%) despite low data quality (30%)";
    "High confidence (95%) but only 0 findings"] <> [] ->
   leb (lit 48 100) f0_9 = true).
Proof.
  apply (consistency_score_and_issues flagged_analysis flagged_raw_data).
  vm_compute. reflexivity.
Defined.

(** ** The logic scorer *)

Lemma rule_limited_sources_steps (confidence sources_successful : value)
    (st st' : state) :
  rule_limited_sources confidence sources_successful st = Ok st' ->
  steps_by f0_7 st st'.
Proof.
  unfold rule_limited_sources. intros H. bind_inv H. destruct a.
  - bind_inv H. destruct (a <? 4).
    + bind_inv H. apply Ok_inj in H. subst st'. right. eexists. reflexivity.
    + apply Ok_inj in H. subst st'. left. reflexivity.
  - apply Ok_inj in H. subst st'. left. reflexivity.
Qed.

Lemma rule_extreme_score_steps (analysis : dict) (score : value) (st st' : state) :
  rule_extreme_score analysis score st = Ok st' -> steps_by f0_6 st st'.
Proof.
  unfold rule_extreme_score. destruct (truthy score).
  - intros H. bind_inv H. destruct a.
    + bind_inv H. destruct (a <? 3); apply Ok_inj in H; subst st'.
      * right. eexists. reflexivity.
      * left. reflexivity.
    + apply Ok_inj in H. subst st'. left. reflexivity.
  - intros H. apply Ok_inj in H. subst st'. left. reflexivity.
Qed.

Lemma rule_unsupported_steps (recommendations findings : value) (st : state) :
  steps_by f0_7 st (rule_unsupported recommendations findings st).
Proof.
  unfold rule_unsupported.
  destruct (truthy recommendations && negb (truthy findings)).
  - right. eexists. reflexivity.
  - left. reflexivity.
Qed.

Lemma check_logic_reach_count (analysis raw_data : dict) (l : float)
    (issues : list string) :
  check_logic analysis raw_data = Ok (l, issues) ->
  In (l, List.length issues) (reach_count one 0 logic_discounts).
Proof.
  unfold check_logic. intros H. bind_inv H. bind_inv H. apply Ok_inj in H.
  unfold logic_discounts.
  change one with (fst (one, @nil string)).
  change 0%nat with (List.length (snd (one, @nil string))).
  eapply steps_by_reach_count; [apply (rule_limited_sources_steps _ _ _ _ Ha)|].
  eapply steps_by_reach_count; [apply (rule_extreme_score_steps _ _ _ _ Ha0)|].
  eapply steps_by_reach_count; [apply rule_unsupported_steps|].
  rewrite H. left. reflexivity.
Qed.

(** X2. In every result of [validate] the logic score lies in [0.0, 1.0].
    The logic scorer reports at most three issues, its score is 1.0
    exactly when it reports none, and above 0 always. *)
Theorem logic_score_in_range (cfg : Config) (analysis raw_data : dict)
    (expected_fields : option (list string)) (r : ValidationResult) :
  validate cfg analysis raw_data expected_fields = Ok r ->
  in_unit (logic_score r) = true /\
  exists l li,
    check_logic analysis raw_data = Ok (l, li) /\
    logic_score r = F64.round3 l /\
    in_unit l = true /\
    ltb zero l = true /\
    (li = [] <-> l = one) /\
    (List.length li <= 3)%nat.
Proof.
  intros H. apply validate_with_inv in H.
  destruct H as (c & ci & s & si & l & li & qs & pen & _ & _ & Hl & _ & _ & ->).
  cbn [logic_score].
  pose proof (check_logic_reach_count _ _ _ _ Hl) as Hr.
  assert (Hall : forallb
            (fun zk : float * nat =>
               in_unit (fst zk) && in_unit (F64.round3 (fst zk)) &&
               ltb zero (fst zk) && (snd zk <=? 3)%nat &&
               ((snd zk =? 0)%nat || ltb (fst zk) one))
            (reach_count one 0 logic_discounts) = true)
    by (vm_compute; reflexivity).
  pose proof (reach_count_forallb _ _ _ _ _ Hall Hr) as Hp.
  cbn [fst snd] in Hp.
  apply andb_true_iff in Hp. destruct Hp as [Hp Hone].
  apply andb_true_iff in Hp. destruct Hp as [Hp Hlen].
  apply andb_true_iff in Hp. destruct Hp as [Hp Hpos].
  apply andb_true_iff in Hp. destruct Hp as [Hu Hur].
  apply Nat.leb_le in Hlen. apply orb_true_iff in Hone.
  split; [exact Hur|].
  exists l, li. split; [exact Hl|]. split; [reflexivity|].
  split; [exact Hu|]. split; [exact Hpos|]. split; [split|exact Hlen].
  - intros ->. apply (reach_count_same _ _ _ _ Hr).
  - intros ->. destruct li as [|i li]; [reflexivity|].
    destruct Hone as [Hz|Hz]; [discriminate Hz | vm_compute in Hz; discriminate Hz].
Qed.

Lemma logic_score_in_range_witness :
  in_unit (logic_score flagged_result) = true /\
  exists l li,
    check_logic flagged_analysis flagged_raw_data = Ok (l, li) /\
    logic_score flagged_result = F64.round3 l /\
    in_unit l = true /\
    ltb zero l = true /\
    (li = [] <-> l = one) /\
    (List.length li <= 3)%nat.
Proof.
  apply (logic_score_in_range default_config flagged_analysis flagged_raw_data
           None flagged_result).
  vm_compute. reflexivity.
Defined.

(** ** Recommended actions *)

(** What [_generate_recommendations] lists, condition by condition. *)
Lemma generate_recommendations_spec (completeness consistency logic : float)
    (issues questions : list string) :
  let recs :=
    generate_recommendations completeness consistency logic issues questions in
  recs <> [] /\
  (List.length recs <= 5)%nat /\
  (In rec_add_data recs <-> ltb completeness f0_8 = true) /\
  (In rec_review recs <-> ltb consistency f0_7 = true) /\
  (In rec_rerun recs <-> ltb logic f0_7 = true) /\
  (In rec_escalate recs <-> (5 < List.length issues)%nat) /\
  (In rec_deep_dive recs <-> (4 < List.length questions)%nat) /\
  (In rec_approved recs <-> recs = [rec_approved]) /\
  (In rec_approved recs <->
   ltb completeness f0_8 = false /\ ltb consistency f0_7 = false /\
   ltb logic f0_7 = false /\ (List.length issues <= 5)%nat /\
   (List.length questions <= 4)%nat).
Proof.
  cbn zeta. unfold generate_recommendations.
  destruct (ltb completeness f0_8); destruct (ltb consistency f0_7);
    destruct (ltb logic f0_7);
    destruct (Nat.ltb_spec 5 (List.length issues));
    destruct (Nat.ltb_spec 4 (List.length questions));
    cbn [app];
    (split; [intros E; discriminate E|]);
    (split; [cbn [List.length]; lia|]);
    repeat split; intros;
    try reflexivity; try discriminate; try lia;
    repeat match goal with
           | H : _ /\ _ |- _ => destruct H
           end;
    try discriminate; try lia;
    try match goal with
        | H : In _ _ |- _ =>
            apply in_list_In in H; vm_compute in H; discriminate H
        end;
    try match goal with
        | |- In _ _ => apply in_list_In; vm_compute; reflexivity
        end.
Qed.

(** X3. [_generate_recommendations] never returns an empty list and never
    more than five entries. Each of the five findings is listed exactly
    when its own condition holds, and the approval is listed exactly when
    none does, in which case it is the only entry. *)
Theorem recommendations_cases (completeness consistency logic : float)
    (issues questions : list string) :
  let recs :=
    generate_recommendations completeness consistency logic issues questions in
  recs <> [] /\
  (List.length recs <= 5)%nat /\
  (In rec_add_data recs <-> ltb completeness f0_8 = true) /\
  (In rec_review recs <-> ltb consistency f0_7 = true) /\
  (In rec_rerun recs <-> ltb logic f0_7 = true) /\
  (In rec_escalate recs <-> (5 < List.length issues)%nat) /\
  (In rec_deep_dive recs <-> (4 < List.length questions)%nat) /\
  (In rec_approved recs <-> recs = [rec_approved]) /\
  (In rec_approved recs <->
   ltb completeness f0_8 = false /\ ltb consistency f0_7 = false /\
   ltb logic f0_7 = false /\ (List.length issues <= 5)%nat /\
   (List.length questions <= 4)%nat).
Proof.
  exact (generate_recommendations_spec completeness consistency logic issues
           questions).
Qed.

(** ** The questions of the rule-based generator *)

Lemma failed_question_inv (v : value) (qs : list string) :
  failed_question v = Ok qs ->
  (truthy v = false /\ qs = []) \/
  (truthy v = true /\
   exists n, py_len v = Ok n /\
     qs = ["How confident can we be with " ++ Str.of_Z n ++
           " data sources unavailable?"]).
Proof.
  unfold failed_question. destruct (truthy v); intros H.
  - right. split; [reflexivity|]. bind_inv H. apply Ok_inj in H. subst qs.
    exists a. split; [exact Ha | reflexivity].
  - left. apply Ok_inj in H. subst qs. split; reflexivity.
Qed.

Lemma quality_question_inv (v : value) (qs : list string) :
  quality_question v = Ok qs ->
  (py_lt v (NInt 80) = Ok false /\ qs = []) \/
  (py_lt v (NInt 80) = Ok true /\
   qs = ["Data quality is only " ++ str v ++
         "% - what are we potentially missing?"]).
Proof.
  unfold quality_question. intros H. bind_inv H. apply Ok_inj in H. subst qs.
  destruct a; [right | left]; split; (exact Ha || reflexivity).
Qed.

Lemma contradiction_question_inv (issues : list string) :
  (contradiction_question issues = [] /\
   forall issue, In issue issues ->
     Str.contains "contradictory" (Str.lower issue) = false) \/
  (contradiction_question issues = [q_contradictions] /\
   exists issue, In issue issues /\
     Str.contains "contradictory" (Str.lower issue) = true).
Proof.
  unfold contradiction_question.
  destruct (existsb _ issues) eqn:E.
  - right. split; [reflexivity|]. apply existsb_exists in E. exact E.
  - left. split; [reflexivity|]. intros issue Hin.
    destruct (Str.contains "contradictory" (Str.lower issue)) eqn:Ec;
      [|reflexivity].
    rewrite <- E. symmetry. apply existsb_exists. exists issue. split; assumption.
Qed.

(** X4. The rule-based generator returns the four fixed questions in
    their order, after at most two questions on the data (failed sources,
    data quality) and before at most two more (confidence,
    contradictions): between four and eight in all. Nothing comes before
    the fixed ones exactly when no source failed and the data quality is
    not below 80, and the question on contradictions is asked exactly when
    some issue mentions the word, in any case. *)
Theorem questions_shape (analysis raw_data : dict) (issues qs : list string) :
  generate_adversarial_questions analysis raw_data issues = Ok qs ->
  exists pre post,
    qs = (pre ++ fixed_questions ++ post)%list /\
    (List.length pre <= 2)%nat /\ (List.length post <= 2)%nat /\
    (4 <= List.length qs <= 8)%nat /\
    (pre = [] <->
     truthy (dict_get raw_data "sources_failed" (VList [])) = false /\
     py_lt (dict_get raw_data "data_quality_score" (VInt 100)) (NInt 80)
       = Ok false) /\
    (In q_contradictions qs <->
     exists issue, In issue issues /\
       Str.contains "contradictory" (Str.lower issue) = true).
Proof.
  unfold generate_adversarial_questions. intros H.
  bind_inv H. bind_inv H. bind_inv H. apply Ok_inj in H. subst qs.
  exists (a ++ a0)%list, (a1 ++ contradiction_question issues)%list.
  apply failed_question_inv in Ha. apply quality_question_inv in Ha0.
  apply confidence_question_inv in Ha1.
  pose proof (contradiction_question_inv issues) as Hc.
  split; [unfold fixed_questions; rewrite <- !app_assoc; reflexivity|].
  assert (Hpre : (List.length (a ++ a0) <= 2)%nat).
  { rewrite length_app.
    destruct Ha as [[_ ->]|[_ (n & _ & ->)]];
      destruct Ha0 as [[_ ->]|[_ ->]]; cbn [List.length]; lia. }
  assert (Hpost : (List.length (a1 ++ contradiction_question issues) <= 2)%nat).
  { rewrite length_app.
    destruct Ha1 as [(_ & _ & ->)|[(_ & _ & _ & ->)|[(_ & _ & _ & ->)|(_ & ->)]]];
      destruct Hc as [[-> _]|[-> _]]; cbn [List.length]; lia. }
  split; [exact Hpre|]. split; [exact Hpost|].
  split.
  { unfold fixed_questions. repeat rewrite length_app in *.
    cbn [List.length] in *. lia. }
  split.
  - destruct Ha as [[Hf ->]|[Hf (n & _ & ->)]];
      destruct Ha0 as [[Hq ->]|[Hq ->]]; cbn [app]; rewrite Hf, Hq;
      split; try (intros E; discriminate E); try (intros [E1 E2]; discriminate);
      try reflexivity; try (intros _; split; reflexivity).
  - split.
    + intros Hin.
      destruct Hc as [[Hn _]|[_ Hex]]; [|exact Hex].
      exfalso. rewrite Hn in Hin.
      repeat (first [ rewrite in_app_iff in Hin
                    | progress cbn [In] in Hin
                    | destruct Hin as [Hin|Hin] ]);
        try discriminate Hin; try contradiction.
      * destruct Ha as [[_ ->]|[_ (n & _ & ->)]]; [destruct Hin|].
        destruct Hin as [E|[]]. discriminate E.
      * destruct Ha0 as [[_ ->]|[_ ->]]; [destruct Hin|].
        destruct Hin as [E|[]]. discriminate E.
      * destruct Ha1 as [(_ & _ & ->)|[(_ & _ & _ & ->)|[(_ & _ & _ & ->)|(_ & ->)]]];
          cbn [In] in Hin; try contradiction;
          destruct Hin as [E|[]]; discriminate E.
    + intros Hex.
      destruct Hc as [[_ Hn]|[Hy _]].
      * destruct Hex as (issue & Hin & Hc). rewrite (Hn _ Hin) in Hc. discriminate Hc.
      * rewrite Hy. rewrite !in_app_iff. do 4 right. left. reflexivity.
Qed.

Lemma questions_shape_witness :
  exists pre post,
    adversarial_questions flagged_result = (pre ++ fixed_questions ++ post)%list /\
    (List.length pre <= 2)%nat /\ (List.length post <= 2)%nat /\
    (4 <= List.length (adversarial_questions flagged_result) <= 8)%nat /\
    (pre = [] <->
     truthy (dict_get flagged_raw_data "sources_failed" (VList [])) = false /\
     py_lt (dict_get flagged_raw_data "data_quality_score" (VInt 100)) (NInt 80)
       = Ok false) /\
    (In q_contradictions (adversarial_questions flagged_result) <->
     exists issue, In issue (issues_found flagged_result) /\
       Str.contains "contradictory" (Str.lower issue) = true).
Proof.
  apply (questions_shape flagged_analysis flagged_raw_data
           (issues_found flagged_result) (adversarial_questions flagged_result)).
  vm_compute. reflexivity.
Defined.

(** The generator's result, part by part. *)
Lemma generate_adversarial_questions_inv (analysis raw_data : dict)
    (issues qs : list string) :
  generate_adversarial_questions analysis raw_data issues = Ok qs ->
  exists q1 q2 q3,
    failed_question (dict_get raw_data "sources_failed" (VList [])) = Ok q1 /\
    quality_question (dict_get raw_data "data_quality_score" (VInt 100)) = Ok q2 /\
    confidence_question (dict_get analysis "confidence" (VInt 0)) = Ok q3 /\
    qs = (q1 ++ q2 ++ fixed_questions ++ q3 ++ contradiction_question issues)%list.
Proof.
  unfold generate_adversarial_questions. intros H.
  bind_inv H. bind_inv H. bind_inv H. apply Ok_inj in H. subst qs.
  exists a, a0, a1. repeat split; assumption.
Qed.

(** Only the four fixed questions are left when the list is no longer than
    four. *)
Lemma only_fixed_questions (q1 q2 q3 q4 : list string) :
  let qs := (q1 ++ q2 ++ fixed_questions ++ q3 ++ q4)%list in
  ((List.length qs <= 4)%nat <-> q1 = [] /\ q2 = [] /\ q3 = [] /\ q4 = []) /\
  (qs = fixed_questions <-> q1 = [] /\ q2 = [] /\ q3 = [] /\ q4 = []).
Proof.
  cbn zeta.
  assert (Hlen : (List.length (q1 ++ q2 ++ fixed_questions ++ q3 ++ q4) <= 4)%nat ->
                 q1 = [] /\ q2 = [] /\ q3 = [] /\ q4 = []).
  { rewrite !length_app. change (List.length fixed_questions) with 4%nat.
    intros H.
    repeat split; apply length_zero_iff_nil; lia. }
  split; split.
  - exact Hlen.
  - intros (-> & -> & -> & ->). cbn [app List.length fixed_questions]. lia.
  - intros E. apply Hlen. rewrite E. cbn [List.length fixed_questions]. lia.
  - intros (-> & -> & -> & ->). cbn [app]. apply app_nil_r.
Qed.

(** X5. In a result of [validate], DEEP_DIVE is recommended exactly when
    some question was asked beyond the four fixed ones. APPROVED is
    recommended only alone, with exactly the four fixed questions and at
    most five issues: no source failed, the data quality is not below 80,
    the confidence, if truthy, compares neither above 0.8 nor below 0.5 (an
    absent, zero or NaN confidence does not stand in the way), and no issue
    mentions a contradiction. An analysis whose confidence is truthy and
    above 0.8 therefore always gets DEEP_DIVE and never APPROVED. *)
Theorem approval_needs_plain_questions (cfg : Config) (analysis raw_data : dict)
    (expected_fields : option (list string)) (r : ValidationResult) :
  validate cfg analysis raw_data expected_fields = Ok r ->
  let confidence := dict_get analysis "confidence" (VInt 0) in
  (In rec_deep_dive (recommended_actions r) <->
   adversarial_questions r <> fixed_questions) /\
  (In rec_approved (recommended_actions r) ->
   recommended_actions r = [rec_approved] /\
   adversarial_questions r = fixed_questions /\
   (List.length (issues_found r) <= 5)%nat /\
   truthy (dict_get raw_data "sources_failed" (VList [])) = false /\
   py_lt (dict_get raw_data "data_quality_score" (VInt 100)) (NInt 80) = Ok false /\
   (truthy confidence = true ->
    py_gt confidence (NFloat f0_8) = Ok false /\
    py_lt confidence (NFloat f0_5) = Ok false) /\
   (forall issue, In issue (issues_found r) ->
      Str.contains "contradictory" (Str.lower issue) = false)) /\
  (truthy confidence = true -> py_gt confidence (NFloat f0_8) = Ok true ->
   In rec_deep_dive (recommended_actions r) /\
   ~ In rec_approved (recommended_actions r)).
Proof.
  intros H. apply validate_with_inv in H.
  destruct H as (c & ci & s & si & l & li & qs & pen & _ & _ & _ & Hq & _ & ->).
  cbn [recommended_actions adversarial_questions issues_found]. cbn zeta.
  pose proof (generate_recommendations_spec c s l (ci ++ si ++ li)%list qs) as Hrec.
  cbn zeta in Hrec.
  destruct Hrec as (_ & _ & _ & _ & _ & _ & Hdd & Hap1 & Hap2).
  apply generate_adversarial_questions_inv in Hq.
  destruct Hq as (q1 & q2 & q3 & H1 & H2 & H3 & Hqs).
  pose proof (only_fixed_questions q1 q2 q3
                (contradiction_question (ci ++ si ++ li)%list)) as [Hlen Hfix].
  cbn zeta in Hlen, Hfix. rewrite <- Hqs in Hlen, Hfix.
  assert (Hdd' : In rec_deep_dive (generate_recommendations c s l (ci ++ si ++ li) qs)
                 <-> qs <> fixed_questions).
  { rewrite Hdd, Hfix, <- Hlen. lia. }
  split; [exact Hdd'|]. split.
  - intros Hap. split; [apply Hap1, Hap|].
    apply Hap2 in Hap. destruct Hap as (_ & _ & _ & Hi & Hq).
    apply Hlen in Hq. destruct Hq as (-> & -> & -> & Hcq).
    split; [apply Hfix; repeat split; assumption|].
    split; [exact Hi|].
    apply failed_question_inv in H1. apply quality_question_inv in H2.
    apply confidence_question_inv in H3.
    split; [destruct H1 as [[Hf _]|[_ (n & _ & E)]]; [exact Hf | discriminate E]|].
    split; [destruct H2 as [[Hf _]|[_ E]]; [exact Hf | discriminate E]|].
    split.
    + intros Ht.
      destruct H3 as [(_ & _ & E)|[(_ & _ & _ & E)|[(_ & Hg & Hl & _)|(Hf & _)]]];
        try discriminate E.
      * split; assumption.
      * rewrite Hf in Ht. discriminate Ht.
    + destruct (contradiction_question_inv (ci ++ si ++ li)%list) as [[_ Hn]|[E _]];
        [exact Hn|]. rewrite E in Hcq. discriminate Hcq.
  - intros Ht Hg.
    assert (Hne : qs <> fixed_questions).
    { intros E. apply Hfix in E. destruct E as (_ & _ & -> & _).
      apply confidence_question_inv in H3.
      destruct H3 as [(_ & _ & E)|[(_ & Hg' & _)|[(_ & Hg' & _)|(Hf & _)]]].
      - discriminate E.
      - rewrite Hg in Hg'. discriminate Hg'.
      - rewrite Hg in Hg'. discriminate Hg'.
      - rewrite Hf in Ht. discriminate Ht. }
    split; [apply Hdd', Hne|].
    intros Hap. apply Hap2 in Hap. destruct Hap as (_ & _ & _ & _ & Hq).
    apply Hne, Hfix, Hlen, Hq.
Qed.

Lemma approval_needs_plain_questions_witness :
  (exists r,
     validate default_config steady_analysis steady_raw_data None = Ok r /\
     In rec_approved (recommended_actions r) /\
     recommended_actions r = [rec_approved] /\
     adversarial_questions r = fixed_questions /\
     (List.length (issues_found r) <= 5)%nat /\
     truthy (dict_get steady_raw_data "sources_failed" (VList [])) = false /\
     py_lt (dict_get steady_raw_data "data_quality_score" (VInt 100)) (NInt 80)
       = Ok false /\
     (truthy (dict_get steady_analysis "confidence" (VInt 0)) = true ->
      py_gt (dict_get steady_analysis "confidence" (VInt 0)) (NFloat f0_8)
        = Ok false /\
      py_lt (dict_get steady_analysis "confidence" (VInt 0)) (NFloat f0_5)
        = Ok false) /\
     (forall issue, In issue (issues_found r) ->
        Str.contains "contradictory" (Str.lower issue) = false)) /\
  (exists r,
     validate default_config good_analysis good_raw_data None = Ok r /\
     In rec_deep_dive (recommended_actions r) /\
     ~ In rec_approved (recommended_actions r)).
Proof.
  split.
  - eexists. split; [vm_compute; reflexivity|].
    split; [vm_compute; left; reflexivity|].
    refine (proj1 (proj2 (approval_needs_plain_questions default_config
                            steady_analysis steady_raw_data None _ _)) _).
    + vm_compute. reflexivity.
    + vm_compute. left. reflexivity.
  - eexists. split; [vm_compute; reflexivity|].
    refine (proj2 (proj2 (approval_needs_plain_questions default_config
                            good_analysis good_raw_data None _ _)) _ _).
    + vm_compute. reflexivity.
    + vm_compute. reflexivity.
    + vm_compute. reflexivity.
Defined.

(** ** Contradictory terms in the findings *)

(** The issues of [discount]. *)
Lemma discount_issue (st : state) (f : float) (msg m : string) :
  In m (snd (discount st f msg)) <-> In m (snd st) \/ m = msg.
Proof.
  unfold discount. cbn [snd]. rewrite in_app_iff. cbn [In].
  split; intros [H|H]; auto; destruct H as [H|[]]; auto.
Qed.

(** The loop over the pairs adds the message of a pair exactly when both
    its terms occur. *)
Lemma contradictions_fold (txt : string) (pairs : list (string * string)) :
  forall (st : state) (m : string),
    In m (snd (fold_left (rule_contradiction txt) pairs st)) <->
    In m (snd st) \/
    exists pair, In pair pairs /\
      Str.contains (fst pair) txt = true /\ Str.contains (snd pair) txt = true /\
      m = "Potentially contradictory terms in findings: '" ++ fst pair ++
          "' and '" ++ snd pair ++ "'".
Proof.
  induction pairs as [|p pairs IH]; intros st m; cbn [fold_left].
  - split; [intros H; left; exact H|].
    intros [H|(pair & [] & _)]. exact H.
  - rewrite IH. unfold rule_contradiction.
    destruct (Str.contains (fst p) txt) eqn:E1;
      [destruct (Str.contains (snd p) txt) eqn:E2|]; cbn [andb].
    + rewrite discount_issue. split.
      * intros [[H|H]|(pair & Hin & H)].
        -- left. exact H.
        -- right. exists p. repeat split; try assumption. left. reflexivity.
        -- right. exists pair. split; [right; exact Hin | exact H].
      * intros [H|(pair & [<-|Hin] & Hc1 & Hc2 & Hm)].
        -- left. left. exact H.
        -- left. right. exact Hm.
        -- right. exists pair. repeat split; assumption.
    + split.
      * intros [H|(pair & Hin & H)]; [left; exact H|].
        right. exists pair. split; [right; exact Hin | exact H].
      * intros [H|(pair & [<-|Hin] & Hc1 & Hc2 & Hm)].
        -- left. exact H.
        -- rewrite E2 in Hc2. discriminate Hc2.
        -- right. exists pair. repeat split; assumption.
    + split.
      * intros [H|(pair & Hin & H)]; [left; exact H|].
        right. exists pair. split; [right; exact Hin | exact H].
      * intros [H|(pair & [<-|Hin] & Hc1 & Hc2 & Hm)].
        -- left. exact H.
        -- rewrite E1 in Hc1. discriminate Hc1.
        -- right. exists pair. repeat split; assumption.
Qed.

(** The messages of the other rules do not start like the one on
    contradictions. *)
Lemma rule_low_quality_issue (confidence data_quality : value) (st st' : state)
    (m : string) :
  rule_low_quality confidence data_quality st = Ok st' ->
  In m (snd st') -> In m (snd st) \/ prefix "High" m = true.
Proof.
  unfold rule_low_quality. intros H. bind_inv H. destruct a.
  - bind_inv H. apply Ok_inj in H. subst st'. rewrite discount_issue.
    intros [Hin| ->]; [left; exact Hin | right; reflexivity].
  - apply Ok_inj in H. subst st'. intros Hin. left. exact Hin.
Qed.

Lemma rule_failed_sources_issue (score sources_failed : value) (st st' : state)
    (m : string) :
  rule_failed_sources score sources_failed st = Ok st' ->
  In m (snd st') -> In m (snd st) \/ prefix "High" m = true.
Proof.
  unfold rule_failed_sources. intros H. bind_inv H. destruct a.
  - bind_inv H. apply Ok_inj in H. subst st'. rewrite discount_issue.
    intros [Hin| ->]; [left; exact Hin | right; reflexivity].
  - apply Ok_inj in H. subst st'. intros Hin. left. exact Hin.
Qed.

Lemma rule_few_findings_issue (confidence findings : value) (st st' : state)
    (m : string) :
  rule_few_findings confidence findings st = Ok st' ->
  In m (snd st') -> In m (snd st) \/ prefix "High" m = true.
Proof.
  unfold rule_few_findings. intros H. bind_inv H. destruct a.
  - bind_inv H. bind_inv H. apply Ok_inj in H. subst st'. rewrite discount_issue.
    intros [Hin| ->]; [left; exact Hin | right; reflexivity].
  - apply Ok_inj in H. subst st'. intros Hin. left. exact Hin.
Qed.

Lemma check_logic_issue (analysis raw_data : dict) (l : float)
    (li : list string) (m : string) :
  check_logic analysis raw_data = Ok (l, li) -> In m li ->
  prefix "Very" m = true \/ prefix "Extreme" m = true \/
  prefix "Recommendations" m = true.
Proof.
  unfold check_logic. intros H. bind_inv H. bind_inv H. apply Ok_inj in H.
  assert (H1 : forall m, In m (snd a) -> prefix "Very" m = true).
  { unfold rule_limited_sources in Ha. bind_inv Ha. destruct a1.
    - bind_inv Ha. destruct (a1 <? 4).
      + bind_inv Ha. apply Ok_inj in Ha. subst a. intros m'.
        rewrite discount_issue. intros [[]| ->]. reflexivity.
      + apply Ok_inj in Ha. subst a. intros m' [].
    - apply Ok_inj in Ha. subst a. intros m' []. }
  assert (H2 : forall m, In m (snd a0) ->
                         prefix "Very" m = true \/ prefix "Extreme" m = true).
  { unfold rule_extreme_score in Ha0.
    destruct (truthy (get_score analysis)).
    - bind_inv Ha0. destruct a1.
      + bind_inv Ha0. destruct (a1 <? 3).
        * apply Ok_inj in Ha0. subst a0. intros m'.
          rewrite discount_issue. intros [Hin| ->];
            [left; apply H1, Hin | right; reflexivity].
        * apply Ok_inj in Ha0. subst a0. intros m' Hin. left. apply H1, Hin.
      + apply Ok_inj in Ha0. subst a0. intros m' Hin. left. apply H1, Hin.
    - apply Ok_inj in Ha0. subst a0. intros m' Hin. left. apply H1, Hin. }
  unfold rule_unsupported in H.
  destruct (truthy _ && negb _).
  - intros Hin. assert (Hin' : In m (snd (discount a0 f0_7
        "Recommendations provided without supporting findings"))).
    { rewrite H. exact Hin. }
    apply discount_issue in Hin'. destruct Hin' as [Hin'| ->].
    + destruct (H2 _ Hin'); tauto.
    + right. right. reflexivity.
  - subst a0. cbn [snd] in H2. intros Hin. destruct (H2 _ Hin); tauto.
Qed.

Lemma check_completeness_issue (analysis raw_data : dict)
    (expected_fields : option (list string)) (c : float) (ci : list string)
    (m : string) :
  check_completeness analysis raw_data expected_fields = Ok (c, ci) -> In m ci ->
  prefix "Critical" m = true \/ prefix "Expected" m = true.
Proof.
  unfold check_completeness. intros H. bind_inv H. apply Ok_inj in H.
  injection H as _ <-. rewrite in_app_iff. intros [Hin|Hin].
  - left. unfold critical_issues in Hin. apply in_flat_map in Hin.
    destruct Hin as (source & _ & Hin).
    destruct (is_critical source && negb _); [|destruct Hin].
    destruct Hin as [<-|[]]. reflexivity.
  - right. unfold expected_issues in Hin.
    destruct expected_fields as [fields|]; [|destruct Hin].
    apply in_flat_map in Hin. destruct Hin as (field & _ & Hin).
    destruct (existsb _ _); [destruct Hin|].
    destruct Hin as [<-|[]]. reflexivity.
Qed.

(** Two prefixes of one string start with the same character. *)
Lemma prefix_head (a b : ascii) (p q m : string) :
  prefix (String a p) m = true -> prefix (String b q) m = true -> a = b.
Proof.
  destruct m as [|x m]; cbn [prefix]; [intros H; discriminate H|].
  destruct (ascii_dec a x) as [->|]; [|intros H; discriminate H].
  destruct (ascii_dec b x) as [->|]; [|intros _ H; discriminate H].
  reflexivity.
Qed.

(** X6. For each of the four pairs of opposite terms, the issue on that
    pair is among the issues of a result of [validate] exactly when both
    terms occur in the lowercased text of the findings. When it is, the
    question on contradictions is asked, DEEP_DIVE is recommended, and the
    consistency score is at most 0.9. *)
Theorem contradiction_flagged_iff (cfg : Config) (analysis raw_data : dict)
    (expected_fields : option (list string)) (r : ValidationResult)
    (txt : string) (pair : string * string) :
  validate cfg analysis raw_data expected_fields = Ok r ->
  findings_text (get_findings analysis) = Ok txt ->
  In pair contradiction_pairs ->
  let msg := "Potentially contradictory terms in findings: '" ++ fst pair ++
             "' and '" ++ snd pair ++ "'" in
  (In msg (issues_found r) <->
   Str.contains (fst pair) txt = true /\ Str.contains (snd pair) txt = true) /\
  (In msg (issues_found r) ->
   In q_contradictions (adversarial_questions r) /\
   In rec_deep_dive (recommended_actions r) /\
   leb (consistency_score r) f0_9 = true).
Proof.
  intros H Htxt Hpair msg. apply validate_with_inv in H.
  destruct H as (c & ci & s & si & l & li & qs & pen & Hc & Hs & Hl & Hq & _ & ->).
  cbn [recommended_actions adversarial_questions issues_found consistency_score].
  pose proof (check_consistency_reach_count _ _ _ _ Hs) as Hreach.
  apply check_consistency_inv in Hs.
  destruct Hs as (st1 & st2 & st3 & txt' & H1 & H2 & H3 & Htxt' & Hfold).
  rewrite Htxt in Htxt'. apply Ok_inj in Htxt'. subst txt'.
  assert (Hsi : si = snd (fold_left (rule_contradiction txt) contradiction_pairs st3))
    by (rewrite <- Hfold; reflexivity).
  assert (Hmsg : prefix "Potentially" msg = true) by reflexivity.
  assert (Hin_si : In msg si <->
            Str.contains (fst pair) txt = true /\ Str.contains (snd pair) txt = true).
  { rewrite Hsi, contradictions_fold. split.
    - intros [Hin|(pair' & Hin' & Hc1 & Hc2 & E)].
      + exfalso.
        destruct (rule_few_findings_issue _ _ _ _ _ H3 Hin) as [Hin3|Hp];
          [|discriminate (prefix_head _ _ _ _ _ Hmsg Hp)].
        destruct (rule_failed_sources_issue _ _ _ _ _ H2 Hin3) as [Hin2|Hp];
          [|discriminate (prefix_head _ _ _ _ _ Hmsg Hp)].
        destruct (rule_low_quality_issue _ _ _ _ _ H1 Hin2) as [Hin1|Hp];
          [destruct Hin1 | discriminate (prefix_head _ _ _ _ _ Hmsg Hp)].
      + assert (Epair : pair' = pair).
        { unfold contradiction_pairs in Hpair, Hin'. cbn [In] in Hpair, Hin'.
          subst msg.
          repeat match goal with
                 | H : _ \/ _ |- _ => destruct H
                 | H : False |- _ => destruct H
                 end; subst; try reflexivity; discriminate E. }
        subst pair'. split; assumption.
    - intros [Hc1 Hc2]. right. exists pair. repeat split; assumption. }
  assert (Hiff : In msg (ci ++ si ++ li) <->
            Str.contains (fst pair) txt = true /\ Str.contains (snd pair) txt = true).
  { rewrite <- Hin_si, !in_app_iff. split; [|tauto].
    intros [Hin|[Hin|Hin]]; [exfalso| exact Hin |exfalso].
    - destruct (check_completeness_issue _ _ _ _ _ _ Hc Hin) as [Hp|Hp];
        discriminate (prefix_head _ _ _ _ _ Hmsg Hp).
    - destruct (check_logic_issue _ _ _ _ _ Hl Hin) as [Hp|[Hp|Hp]];
        discriminate (prefix_head _ _ _ _ _ Hmsg Hp). }
  split; [exact Hiff|].
  intros Hin.
  assert (Hask : In q_contradictions qs).
  { apply generate_adversarial_questions_inv in Hq.
    destruct Hq as (q1 & q2 & q3 & _ & _ & _ & ->).
    rewrite !in_app_iff. do 4 right.
    destruct (contradiction_question_inv (ci ++ si ++ li)%list) as [[_ Hn]|[-> _]];
      [|left; reflexivity].
    specialize (Hn _ Hin). subst msg. rewrite lower_app in Hn.
    rewrite contains_app_l in Hn; [discriminate Hn|]. vm_compute. reflexivity. }
  split; [exact Hask|]. split.
  - apply (generate_recommendations_spec c s l (ci ++ si ++ li)%list qs).
    apply generate_adversarial_questions_inv in Hq.
    destruct Hq as (q1 & q2 & q3 & _ & _ & _ & ->).
    destruct (contradiction_question_inv (ci ++ si ++ li)%list) as [[_ Hn]|[E _]].
    + specialize (Hn _ Hin). subst msg. rewrite lower_app in Hn.
      rewrite contains_app_l in Hn; [discriminate Hn|]. vm_compute. reflexivity.
    + rewrite E, !length_app. cbn [List.length fixed_questions]. lia.
  - apply Hiff in Hin. apply Hin_si in Hin.
    assert (Hlen : (1 <= List.length si)%nat).
    { destruct si; [destruct Hin | cbn [List.length]; lia]. }
    refine (_ (reach_count_forallb
                 (fun zk => (snd zk =? 0)%nat || leb (F64.round3 (fst zk)) f0_9)
                 _ _ _ _ _ Hreach)).
    + cbn [fst snd]. intros Hb. apply orb_true_iff in Hb.
      destruct Hb as [Hb|Hb]; [|exact Hb].
      apply Nat.eqb_eq in Hb. lia.
    + vm_compute. reflexivity.
Qed.

Lemma contradiction_flagged_iff_witness :
  exists r,
    validate default_config contradictory_analysis [] None = Ok r /\
    let pair := ("increasing", "decreasing") in
    let txt :=
      "revenue is strongly increasing market share is decreasing significantly" in
    let msg := "Potentially contradictory terms in findings: '" ++ fst pair ++
               "' and '" ++ snd pair ++ "'" in
    (In msg (issues_found r) <->
     Str.contains (fst pair) txt = true /\ Str.contains (snd pair) txt = true) /\
    (In msg (issues_found r) ->
     In q_contradictions (adversarial_questions r) /\
     In rec_deep_dive (recommended_actions r) /\
     leb (consistency_score r) f0_9 = true).
Proof.
  eexists. split; [vm_compute; reflexivity|].
  apply (contradiction_flagged_iff default_config contradictory_analysis [] None).
  - vm_compute. reflexivity.
  - vm_compute. reflexivity.
  - right. left. reflexivity.
Defined.

(** ** Which exceptions [validate] raises *)

Lemma raises_only_Ok {A : Type} (P : exc -> bool) (a : A) : raises_only P (Ok a).
Proof. intros e H. discriminate H. Qed.

Lemma raises_only_bind {A B : Type} (P : exc -> bool) (r : result A)
    (k : A -> result B) :
  raises_only P r -> (forall a, r = Ok a -> raises_only P (k a)) ->
  raises_only P (bind r k).
Proof.
  intros Hr Hk e. destruct r as [a|e']; cbn [bind].
  - apply (Hk a). reflexivity.
  - intros H. injection H as <-. apply Hr. reflexivity.
Qed.

Lemma and_then_true (a b : result bool) :
  and_then a b = Ok true -> a = Ok true /\ b = Ok true.
Proof.
  unfold and_then. destruct a as [[|]|e]; cbn [bind]; intros H;
    try discriminate H. split; [reflexivity | exact H].
Qed.

Lemma raises_only_and_then (P : exc -> bool) (a b : result bool) :
  raises_only P a -> (a = Ok true -> raises_only P b) ->
  raises_only P (and_then a b).
Proof.
  intros Ha Hb. apply raises_only_bind; [exact Ha|].
  intros [|] E; [apply Hb, E | apply raises_only_Ok].
Qed.

Lemma raises_only_or_else (P : exc -> bool) (a b : result bool) :
  raises_only P a -> raises_only P b -> raises_only P (or_else a b).
Proof.
  intros Ha Hb. apply raises_only_bind; [exact Ha|].
  intros [|] _; [apply raises_only_Ok | exact Hb].
Qed.

Lemma py_gt_raises (v : value) (n : num) :
  raises_only type_or_overflow (py_gt v n).
Proof.
  unfold py_gt. destruct (as_num v); intros e H; [discriminate H|].
  injection H as <-. reflexivity.
Qed.

Lemma py_lt_raises (v : value) (n : num) :
  raises_only type_or_overflow (py_lt v n).
Proof.
  unfold py_lt. destruct (as_num v); intros e H; [discriminate H|].
  injection H as <-. reflexivity.
Qed.

Lemma py_len_raises (v : value) : raises_only type_or_overflow (py_len v).
Proof.
  destruct v; intros e H; try discriminate H; injection H as <-; reflexivity.
Qed.

Lemma py_iter_raises (v : value) : raises_only type_or_overflow (py_iter v).
Proof.
  destruct v; intros e H; try discriminate H; injection H as <-; reflexivity.
Qed.

Lemma int_to_float_raises (z : Z) : raises_only type_or_overflow (int_to_float z).
Proof.
  unfold int_to_float. intros err.
  destruct (F64.of_Z z); intros H; try discriminate H.
  injection H as <-. reflexivity.
Qed.

(** A number formats as a percentage unless it is an int too large for a
    float. *)
Lemma format_pct0_raises (v : value) (b : bool) (n : num) :
  py_gt v n = Ok b -> raises_only type_or_overflow (Py.format_pct0 v).
Proof.
  unfold py_gt. destruct v; cbn [as_num]; intros H; try discriminate H;
    cbn [Py.format_pct0].
  - apply raises_only_Ok.
  - apply raises_only_bind; [apply int_to_float_raises|].
    intros a _. apply raises_only_Ok.
  - apply raises_only_Ok.
Qed.

Lemma rule_low_quality_raises (confidence data_quality : value) (st : state) :
  raises_only type_or_overflow (rule_low_quality confidence data_quality st).
Proof.
  unfold rule_low_quality. apply raises_only_bind.
  - apply raises_only_and_then; [apply raises_only_Ok|]. intros _.
    apply raises_only_and_then; [apply py_gt_raises|]. intros _.
    apply py_lt_raises.
  - intros [|] Hc; [|apply raises_only_Ok].
    apply and_then_true in Hc. destruct Hc as [_ Hc].
    apply and_then_true in Hc. destruct Hc as [Hg _].
    apply raises_only_bind; [apply (format_pct0_raises _ _ _ Hg)|].
    intros pct _. apply raises_only_Ok.
Qed.

Lemma rule_failed_sources_raises (score sources_failed : value) (st : state) :
  raises_only type_or_overflow (rule_failed_sources score sources_failed st).
Proof.
  unfold rule_failed_sources. apply raises_only_bind.
  - apply raises_only_and_then; [apply raises_only_Ok|]. intros _.
    apply raises_only_and_then; [apply py_gt_raises|]. intros _.
    apply raises_only_bind; [apply py_len_raises|].
    intros n _. apply raises_only_Ok.
  - intros [|] _; [|apply raises_only_Ok].
    apply raises_only_bind; [apply py_len_raises|].
    intros n _. apply raises_only_Ok.
Qed.

Lemma rule_few_findings_raises (confidence findings : value) (st : state) :
  raises_only type_or_overflow (rule_few_findings confidence findings st).
Proof.
  unfold rule_few_findings. apply raises_only_bind.
  - apply raises_only_and_then; [apply raises_only_Ok|]. intros _.
    apply raises_only_and_then; [apply py_gt_raises|]. intros _.
    apply raises_only_bind; [apply py_len_raises|].
    intros n _. apply raises_only_Ok.
  - intros [|] Hc; [|apply raises_only_Ok].
    apply and_then_true in Hc. destruct Hc as [_ Hc].
    apply and_then_true in Hc. destruct Hc as [Hg _].
    apply raises_only_bind; [apply (format_pct0_raises _ _ _ Hg)|].
    intros pct _.
    apply raises_only_bind; [apply py_len_raises|].
    intros n _. apply raises_only_Ok.
Qed.

Lemma check_consistency_raises (analysis raw_data : dict) :
  raises_only type_or_overflow (check_consistency analysis raw_data).
Proof.
  unfold check_consistency.
  apply raises_only_bind; [apply rule_low_quality_raises|]. intros st1 _.
  apply raises_only_bind; [apply rule_failed_sources_raises|]. intros st2 _.
  apply raises_only_bind; [apply rule_few_findings_raises|]. intros st3 _.
  apply raises_only_bind.
  - unfold findings_text. apply raises_only_bind; [apply py_iter_raises|].
    intros items _. apply raises_only_Ok.
  - intros txt _. apply raises_only_Ok.
Qed.

Lemma check_logic_raises (analysis raw_data : dict) :
  raises_only type_or_overflow (check_logic analysis raw_data).
Proof.
  unfold check_logic.
  apply raises_only_bind.
  - unfold rule_limited_sources. apply raises_only_bind.
    + apply raises_only_and_then; [apply raises_only_Ok|]. intros _.
      apply py_gt_raises.
    + intros [|] Hc; [|apply raises_only_Ok].
      apply and_then_true in Hc. destruct Hc as [_ Hg].
      apply raises_only_bind; [apply py_len_raises|]. intros n _.
      destruct (n <? 4); [|apply raises_only_Ok].
      apply raises_only_bind; [apply (format_pct0_raises _ _ _ Hg)|].
      intros pct _. apply raises_only_Ok.
  - intros st1 _. apply raises_only_bind.
    + unfold rule_extreme_score.
      destruct (truthy (get_score analysis)); [|apply raises_only_Ok].
      apply raises_only_bind.
      * apply raises_only_or_else; [apply py_gt_raises | apply py_lt_raises].
      * intros [|] _; [|apply raises_only_Ok].
        apply raises_only_bind; [apply py_len_raises|]. intros n _.
        destruct (n <? 3); apply raises_only_Ok.
    + intros st2 _. apply raises_only_Ok.
Qed.

Lemma generate_adversarial_questions_raises (analysis raw_data : dict)
    (issues : list string) :
  raises_only type_or_overflow
    (generate_adversarial_questions analysis raw_data issues).
Proof.
  unfold generate_adversarial_questions.
  apply raises_only_bind.
  { unfold failed_question. destruct (truthy _); [|apply raises_only_Ok].
    apply raises_only_bind; [apply py_len_raises|].
    intros n _. apply raises_only_Ok. }
  intros q1 _. apply raises_only_bind.
  { unfold quality_question. apply raises_only_bind; [apply py_lt_raises|].
    intros c _. apply raises_only_Ok. }
  intros q2 _. apply raises_only_bind.
  { unfold confidence_question. apply raises_only_bind.
    - apply raises_only_and_then; [apply raises_only_Ok|]. intros _.
      apply py_gt_raises.
    - intros [|] _; [apply raises_only_Ok|].
      apply raises_only_bind.
      + apply raises_only_and_then; [apply raises_only_Ok|]. intros _.
        apply py_lt_raises.
      + intros lo _. apply raises_only_Ok. }
  intros q3 _. apply raises_only_Ok.
Qed.

Lemma ollama_generate_raises (client : Client) (analysis raw_data : dict)
    (issues : list string) :
  raises_only type_or_overflow
    (ollama_generate_adversarial_questions client analysis raw_data issues).
Proof.
  unfold ollama_generate_adversarial_questions.
  apply raises_only_bind; [apply generate_adversarial_questions_raises|].
  intros base _ e. unfold try_except.
  destruct (bind _ _); intros H; discriminate H.
Qed.

Lemma validate_with_raises (generate : QuestionGenerator) (cfg : Config)
    (analysis raw_data : dict) (expected_fields : option (list string)) :
  (forall issues, raises_only type_or_overflow (generate analysis raw_data issues)) ->
  raises_only type_or_overflow
    (validate_with generate cfg analysis raw_data expected_fields).
Proof.
  intros Hgen. unfold validate_with.
  apply raises_only_bind.
  { destruct (check_completeness_unit analysis raw_data expected_fields)
      as (c & ci & -> & _). apply raises_only_Ok. }
  intros [c ci] _. apply raises_only_bind; [apply check_consistency_raises|].
  intros [s si] _. apply raises_only_bind; [apply check_logic_raises|].
  intros [l li] _. apply raises_only_bind; [apply Hgen|].
  intros qs _. apply raises_only_bind.
  { unfold issue_penalty, int_mul_float.
    apply raises_only_bind.
    - apply raises_only_bind; [apply int_to_float_raises|].
      intros f _. apply raises_only_Ok.
    - intros p _. apply raises_only_Ok. }
  intros pen _. apply raises_only_Ok.
Qed.

(** The LLM-backed generator fails exactly when the rule-based one does. *)
Lemma ollama_generate_raise_iff (client : Client) (analysis raw_data : dict)
    (issues : list string) (e : exc) :
  ollama_generate_adversarial_questions client analysis raw_data issues = Raise e <->
  generate_adversarial_questions analysis raw_data issues = Raise e.
Proof.
  destruct (generate_adversarial_questions analysis raw_data issues) as [base|e']
    eqn:Eg.
  - rewrite (ollama_generate_after_base client _ _ _ _ Eg).
    split; intros H; discriminate H.
  - unfold ollama_generate_adversarial_questions. rewrite Eg. cbn [bind].
    reflexivity.
Qed.

(** X7. [validate] never raises a [KeyError], an [IndexError], an
    [AttributeError] or a [ZeroDivisionError]: its lookups are by [get] and
    its one division is guarded. Neither does the LLM-backed validator,
    nor does it let an [ImportError], a [ConnectionError] or a
    [TimeoutError] of its client out: it raises exactly when the
    rule-based validator does, and the same exception, whatever the client
    does. *)
Theorem validate_keeps_errors_inside (cfg : Config) (analysis raw_data : dict)
    (expected_fields : option (list string)) (client : Client) (e : exc) :
  (validate cfg analysis raw_data expected_fields = Raise e ->
   kept_inside e = false) /\
  (ollama_validate client cfg analysis raw_data expected_fields = Raise e ->
   kept_inside e = false) /\
  (ollama_validate client cfg analysis raw_data expected_fields = Raise e <->
   validate cfg analysis raw_data expected_fields = Raise e).
Proof.
  assert (Hk : forall e', type_or_overflow e' = true -> kept_inside e' = false).
  { intros e' H. destruct e'; try discriminate H; reflexivity. }
  split; [|split].
  - intros H. apply Hk. revert H. apply validate_with_raises. intros issues.
    apply generate_adversarial_questions_raises.
  - intros H. apply Hk. revert H. apply validate_with_raises. intros issues.
    apply ollama_generate_raises.
  - unfold ollama_validate, validate, validate_with.
    destruct (check_completeness analysis raw_data expected_fields)
      as [[c ci]|e1]; cbn [bind]; [|reflexivity].
    destruct (check_consistency analysis raw_data) as [[s si]|e2]; cbn [bind];
      [|reflexivity].
    destruct (check_logic analysis raw_data) as [[l li]|e3]; cbn [bind];
      [|reflexivity].
    destruct (generate_adversarial_questions analysis raw_data (ci ++ si ++ li))
      as [base|e4] eqn:Eg.
    + rewrite (ollama_generate_after_base client _ _ _ _ Eg). cbn [bind].
      destruct (issue_penalty (ci ++ si ++ li)) as [pen|e5]; cbn [bind].
      * split; intros H; discriminate H.
      * reflexivity.
    + apply (ollama_generate_raise_iff client) in Eg. rewrite Eg. cbn [bind].
      reflexivity.
Qed.

(** X8. Where the rule-based [validate] returns, the LLM-backed one
    returns too, with the same scores, overall confidence, issues and rerun
    decision. Its questions are the rule-based ones followed by at most
    three more, none when the client raised; its recommended actions
    differ at most in DEEP_DIVE, which is never dropped, and in APPROVED. *)
Theorem ollama_validate_same_scores (client : Client) (cfg : Config)
    (analysis raw_data : dict) (expected_fields : option (list string))
    (r0 : ValidationResult) :
  validate cfg analysis raw_data expected_fields = Ok r0 ->
  exists r1 extra,
    ollama_validate client cfg analysis raw_data expected_fields = Ok r1 /\
    overall_confidence r1 = overall_confidence r0 /\
    completeness_score r1 = completeness_score r0 /\
    consistency_score r1 = consistency_score r0 /\
    logic_score r1 = logic_score r0 /\
    issues_found r1 = issues_found r0 /\
    should_rerun r1 = should_rerun r0 /\
    adversarial_questions r1 = (adversarial_questions r0 ++ extra)%list /\
    (List.length extra <= 3)%nat /\
    (forall e, client analysis raw_data (issues_found r0) = Raise e -> extra = []) /\
    (forall action, action <> rec_deep_dive -> action <> rec_approved ->
       (In action (recommended_actions r1) <-> In action (recommended_actions r0))) /\
    (In rec_deep_dive (recommended_actions r0) ->
     In rec_deep_dive (recommended_actions r1)).
Proof.
  intros H. apply validate_with_inv in H.
  destruct H as (c & ci & s & si & l & li & qs & pen & Hc & Hs & Hl & Hq & Hp & ->).
  pose proof (ollama_generate_after_base client _ _ _ _ Hq) as Ho.
  set (extra := match client analysis raw_data (ci ++ si ++ li)%list with
                | Ok response =>
                    match parse_response response with
                    | Ok llm_questions => llm_questions
                    | Raise _ => []
                    end
                | Raise _ => []
                end) in Ho.
  eexists. exists extra. split.
  { unfold ollama_validate, validate_with. rewrite Hc, Hs, Hl. cbn [bind].
    rewrite Ho. cbn [bind]. rewrite Hp. cbn [bind]. reflexivity. }
  cbn [overall_confidence completeness_score consistency_score logic_score
       issues_found should_rerun adversarial_questions recommended_actions].
  repeat (split; [reflexivity|]).
  split.
  { unfold extra. destruct (client analysis raw_data (ci ++ si ++ li)%list)
      as [response|e]; [|cbn; lia].
    destruct (parse_response response) as [llm|e] eqn:Ep; [|cbn; lia].
    apply (parse_response_length _ _ Ep). }
  split.
  { intros e He. unfold extra. rewrite He. reflexivity. }
  split.
  - intros action Hn1 Hn2.
    unfold generate_recommendations.
    destruct (Nat.ltb_spec 4 (List.length qs)) as [Hlt|Hle];
      destruct (Nat.ltb_spec 4 (List.length (qs ++ extra))) as [Hlt'|Hle'];
      try (rewrite length_app in Hle'; lia);
      destruct (ltb c f0_8); destruct (ltb s f0_7); destruct (ltb l f0_7);
      destruct (5 <? List.length (ci ++ si ++ li))%nat;
      cbn [app In];
      (split; intros Hin;
       repeat destruct Hin as [Hin|Hin]; try contradiction; subst;
       try (exfalso; apply Hn1; reflexivity);
       try (exfalso; apply Hn2; reflexivity);
       auto 10).
  - intros Hin.
    apply (generate_recommendations_spec c s l (ci ++ si ++ li)%list qs) in Hin.
    apply (generate_recommendations_spec c s l (ci ++ si ++ li)%list
             (qs ++ extra)%list).
    rewrite length_app. lia.
Qed.

Lemma ollama_validate_same_scores_witness :
  exists r1 extra,
    ollama_validate unreachable_client default_config flagged_analysis
      flagged_raw_data None = Ok r1 /\
    overall_confidence r1 = overall_confidence flagged_result /\
    completeness_score r1 = completeness_score flagged_result /\
    consistency_score r1 = consistency_score flagged_result /\
    logic_score r1 = logic_score flagged_result /\
    issues_found r1 = issues_found flagged_result /\
    should_rerun r1 = should_rerun flagged_result /\
    adversarial_questions r1
    = (adversarial_questions flagged_result ++ extra)%list /\
    (List.length extra <= 3)%nat /\
    (forall e, unreachable_client flagged_analysis flagged_raw_data
                 (issues_found flagged_result) = Raise e -> extra = []) /\
    (forall action, action <> rec_deep_dive -> action <> rec_approved ->
       (In action (recommended_actions r1) <->
        In action (recommended_actions flagged_result))) /\
    (In rec_deep_dive (recommended_actions flagged_result) ->
     In rec_deep_dive (recommended_actions r1)).
Proof.
  apply (ollama_validate_same_scores unreachable_client default_config
           flagged_analysis flagged_raw_data None flagged_result).
  vm_compute. reflexivity.
Defined.

(** ** The issue penalty *)

(** [float(z)] for [z >= 0] is neither a NaN nor negative. *)
Lemma of_Z_nonneg (z : Z) : 0 <= z -> nonnegb (F64.of_Z z) = true.
Proof.
  intros Hz. unfold F64.of_Z, binary_normalize.
  destruct z as [|p|p]; [reflexivity| |lia].
  unfold binary_round.
  destruct (shl_align p 0 (fexp prec emax (Z.pos (digits2_pos p) + 0))) as [mz ez].
  apply round_nonneg. lia.
Qed.

(** An int below 2^53 converts without overflow. *)
Lemma of_Z_small (z : Z) :
  0 < z < 2 ^ 53 -> exists m e, F64.of_Z z = S754_finite false m e.
Proof.
  intros Hz. unfold F64.of_Z, binary_normalize.
  destruct z as [|p|p]; [lia| |lia].
  unfold binary_round.
  assert (Hd : Z.pos (digits2_pos p) = Z.log2 (Z.pos p) + 1) by apply digits2_log2.
  assert (Hlog : 0 <= Z.log2 (Z.pos p) < 53).
  { split; [apply Z.log2_nonneg|]. apply Z.log2_lt_pow2; lia. }
  pose proof (Z.log2_spec (Z.pos p) ltac:(lia)) as Hspec.
  assert (Hal : exists mz ez,
            shl_align p 0 (fexp prec emax (Z.pos (digits2_pos p) + 0)) = (mz, ez) /\
            0 < Z.pos mz < 2 ^ 53 /\ -52 <= ez <= 0).
  { unfold shl_align. rewrite fexp_eq, Hd.
    destruct (Z.max (Z.log2 (Z.pos p) + 1 + 0 - 53) (-1074) - 0) as [|k|k] eqn:Ek.
    - exists p, 0. split; [reflexivity|]. lia.
    - exists p, 0. split; [reflexivity|]. lia.
    - exists (Pos.iter xO p k), (Z.max (Z.log2 (Z.pos p) + 1 + 0 - 53) (-1074)).
      split; [reflexivity|].
      change (Pos.iter xO p k) with (shift_pos k p).
      rewrite shift_pos_correct.
      change (Z.pow_pos 2 k) with (2 ^ Z.pos k).
      assert (Hk : Z.pos k = 52 - Z.log2 (Z.pos p)) by lia.
      split; [split; [lia|]|lia].
      rewrite Hk.
      apply Z.lt_le_trans with (2 ^ (52 - Z.log2 (Z.pos p)) * 2 ^ (Z.log2 (Z.pos p) + 1)).
      + apply Z.mul_lt_mono_pos_l; [apply Z.pow_pos_nonneg; lia | lia].
      + rewrite <- Z.pow_add_r by lia.
        replace (52 - Z.log2 (Z.pos p) + (Z.log2 (Z.pos p) + 1)) with 53 by lia.
        lia. }
  destruct Hal as (mz & ez & -> & Hmz & Hez).
  destruct (binary_round_aux_spec false (Z.pos mz) ez loc_Exact ltac:(lia))
    as (m1r & _ & Hex & ->).
  assert (Hs : shift_of (Z.pos mz) ez = 0) by (apply shift_of_small; lia).
  rewrite Hs in *. rewrite Z.pow_0_r, Z.div_1_r in Hex.
  rewrite (Hex eq_refl (Z.mod_1_r _)).
  rewrite Z.add_0_r, Hs, Z.pow_0_r, Z.div_1_r, Z.add_0_r.
  unfold finish. exists mz, ez.
  destruct (ez <=? emax - prec) eqn:E; [reflexivity|].
  apply Z.leb_gt in E. unfold emax, prec in E. lia.
Qed.

Lemma int_to_float_small (n : nat) :
  Z.of_nat n < 2 ^ 53 -> exists f, int_to_float (Z.of_nat n) = Ok f.
Proof.
  intros Hn. unfold int_to_float.
  destruct (Z.of_nat n) as [|p|p] eqn:E; [| |lia].
  - eexists. reflexivity.
  - destruct (of_Z_small (Z.pos p) ltac:(lia)) as (m & e & ->).
    eexists. reflexivity.
Qed.

Lemma Some_inj {A : Type} (a b : A) : Some a = Some b -> a = b.
Proof. intros H. injection H as H. exact H. Qed.

(** The order of two floats, read the other way round. *)
Lemma SFcompare_antisym (x y : spec_float) (c : comparison) :
  SFcompare x y = Some c -> SFcompare y x = Some (CompOpp c).
Proof.
  destruct x as [sx|sx| |sx mx ex], y as [sy|sy| |sy my ey]; cbn [SFcompare];
    intros H; try discriminate H; apply Some_inj in H; subst c; f_equal;
    try (destruct sx; reflexivity); try (destruct sy; reflexivity);
    try (destruct sx, sy; reflexivity).
  rewrite (Z.compare_antisym ex ey).
  change (Pos.compare_cont Eq my mx) with (Pos.compare my mx).
  change (Pos.compare_cont Eq mx my) with (Pos.compare mx my).
  rewrite (Pos.compare_antisym mx my).
  destruct sx, sy; try reflexivity;
    destruct (ex ?= ey); cbn [CompOpp]; reflexivity.
Qed.

(** A float that is neither a NaN nor negative is at least zero, and is
    ordered against any finite float. *)
Lemma nonneg_leb_zero (x : float) : nonnegb x = true -> leb zero x = true.
Proof. destruct x as [[|]|[|]| |[|] m e]; intros H; try discriminate H; reflexivity. Qed.

Lemma fmin_le (p q : float) :
  nonnegb p = true -> nonnegb q = true ->
  leb (fmin p q) q = true /\ nonnegb (fmin p q) = true.
Proof.
  intros Hp Hq. unfold fmin, ltb, leb, SFltb, SFleb.
  destruct (SFcompare q p) as [c|] eqn:E.
  - pose proof (SFcompare_antisym _ _ _ E) as E'.
    destruct c; cbn [CompOpp] in E'.
    + rewrite E'. split; [reflexivity | exact Hp].
    + split; [|exact Hq].
      destruct q as [[|]|[|]| |[|] m e]; try discriminate Hq; cbn [SFcompare];
        try reflexivity.
      rewrite Z.compare_refl.
      change (Pos.compare_cont Eq m m) with (Pos.compare m m).
      rewrite Pos.compare_refl. reflexivity.
    + rewrite E'. split; [reflexivity | exact Hp].
  - exfalso. destruct q as [[|]|[|]| |[|] m e]; try discriminate Hq;
      destruct p as [[|]|[|]| |[|] m' e']; try discriminate Hp;
      discriminate E.
Qed.

(** A product of two floats that are neither NaN nor negative nor infinite
    is neither NaN nor negative. *)
Lemma mul_nonneg (x y : float) :
  nonnegb x = true -> nonnegb y = true ->
  (forall s, x <> S754_infinity s) -> (forall s, y <> S754_infinity s) ->
  nonnegb (mul x y) = true.
Proof.
  intros Hx Hy Hxi Hyi. unfold mul, SF64mul, SFmul.
  destruct x as [[|]|sx| |[|] mx ex]; try discriminate Hx;
    try (exfalso; apply (Hxi sx); reflexivity);
    destruct y as [[|]|sy| |[|] my ey]; try discriminate Hy;
    try (exfalso; apply (Hyi sy); reflexivity); try reflexivity.
  cbn [xorb]. apply round_nonneg. lia.
Qed.

(** X9. The issue penalty [min(len(issues) * 0.05, 0.3)] lies between 0
    and 0.3, and is 0.0 when there is no issue. *)
Theorem issue_penalty_range (issues : list string) (p : float) :
  issue_penalty issues = Ok p ->
  leb zero p = true /\ leb p f0_3 = true /\ (issues = [] -> p = zero).
Proof.
  unfold issue_penalty, int_mul_float. intros H. bind_inv H. bind_inv Ha.
  apply Ok_inj in Ha. apply Ok_inj in H. subst a p.
  assert (Hf : nonnegb a0 = true /\ forall s, a0 <> S754_infinity s).
  { unfold int_to_float in Ha0.
    pose proof (of_Z_nonneg (Z.of_nat (List.length issues)) ltac:(lia)) as Hn.
    destruct (F64.of_Z (Z.of_nat (List.length issues)));
      try discriminate Ha0; apply Ok_inj in Ha0; subst a0;
      (split; [exact Hn | intros s' E; discriminate E]). }
  destruct Hf as [Hn Hi].
  assert (Hm : nonnegb (mul a0 f0_05) = true).
  { apply mul_nonneg; [exact Hn | reflexivity | exact Hi |].
    intros s E. vm_compute in E. discriminate E. }
  destruct (fmin_le (mul a0 f0_05) f0_3 Hm eq_refl) as [Hle Hnn].
  split; [apply nonneg_leb_zero, Hnn|]. split; [exact Hle|].
  intros ->. cbn in Ha0. apply Ok_inj in Ha0. subst a0. vm_compute. reflexivity.
Qed.

Lemma issue_penalty_range_witness :
  exists p,
    issue_penalty (issues_found flagged_result) = Ok p /\
    leb zero p = true /\ leb p f0_3 = true /\
    (issues_found flagged_result = [] -> p = zero).
Proof.
  eexists. split; [vm_compute; reflexivity|].
  apply (issue_penalty_range (issues_found flagged_result)).
  vm_compute. reflexivity.
Defined.

(** ** When [validate] returns *)

Lemma py_len_iter (v : value) (n : Z) :
  py_len v = Ok n -> exists items, py_iter v = Ok items.
Proof. destruct v; intros H; try discriminate H; eexists; reflexivity. Qed.

Lemma format_as_num (v : value) (pct : string) :
  Py.format_pct0 v = Ok pct -> exists n, as_num v = Some n.
Proof. destruct v; intros H; try discriminate H; eexists; reflexivity. Qed.

Lemma py_gt_returns (v : value) (x n : num) :
  as_num v = Some x -> py_gt v n = Ok (num_gt x n).
Proof. unfold py_gt. intros ->. reflexivity. Qed.

Lemma py_lt_returns (v : value) (x n : num) :
  as_num v = Some x -> py_lt v n = Ok (num_lt x n).
Proof. unfold py_lt. intros ->. reflexivity. Qed.

Section Returns.

Variables analysis raw_data : dict.

Let confidence := dict_get analysis "confidence" (VInt 0).
Let score := get_score analysis.
Let findings := get_findings analysis.
Let data_quality := dict_get raw_data "data_quality_score" (VInt 100).
Let sources_failed := dict_get raw_data "sources_failed" (VList []).
Let sources_successful := dict_get raw_data "sources_successful" (VList []).

Hypothesis confidence_ok :
  truthy confidence = true -> exists pct, Py.format_pct0 confidence = Ok pct.
Hypothesis score_ok : truthy score = true -> exists n, as_num score = Some n.
Hypothesis data_quality_ok : exists n, as_num data_quality = Some n.
Hypothesis sources_failed_ok : exists n, py_len sources_failed = Ok n.
Hypothesis sources_successful_ok : exists n, py_len sources_successful = Ok n.
Hypothesis findings_ok : exists n, py_len findings = Ok n.

Lemma check_consistency_returns :
  exists s si, check_consistency analysis raw_data = Ok (s, si).
Proof.
  unfold check_consistency.
  fold confidence score findings data_quality sources_failed.
  destruct data_quality_ok as [dq Hdq].
  destruct sources_failed_ok as [nf Hnf].
  destruct findings_ok as [nn Hnn].
  destruct (py_len_iter _ _ Hnn) as [items Hit].
  assert (H1 : forall st, exists st',
             rule_low_quality confidence data_quality st = Ok st').
  { intros st. unfold rule_low_quality, and_then. cbn [bind].
    destruct (truthy confidence) eqn:Et; [|eexists; reflexivity].
    destruct (confidence_ok eq_refl) as [pct Hpct].
    destruct (format_as_num _ _ Hpct) as [c Hc].
    rewrite (py_gt_returns _ _ _ Hc). cbn [bind].
    rewrite (py_lt_returns _ _ _ Hdq).
    destruct (num_gt c (NFloat f0_8)); cbn [bind]; [|eexists; reflexivity].
    destruct (num_lt dq (NInt 50)); [|eexists; reflexivity].
    rewrite Hpct. cbn [bind]. eexists; reflexivity. }
  assert (H2 : forall st, exists st',
             rule_failed_sources score sources_failed st = Ok st').
  { intros st. unfold rule_failed_sources, and_then. cbn [bind].
    destruct (truthy score) eqn:Et; [|eexists; reflexivity].
    destruct (score_ok eq_refl) as [c Hc].
    rewrite (py_gt_returns _ _ _ Hc). cbn [bind]. rewrite Hnf. cbn [bind].
    destruct (num_gt c (NInt 7)); cbn [bind]; [|eexists; reflexivity].
    destruct (2 <? nf); eexists; reflexivity. }
  assert (H3 : forall st, exists st',
             rule_few_findings confidence findings st = Ok st').
  { intros st. unfold rule_few_findings, and_then. cbn [bind].
    destruct (truthy confidence) eqn:Et; [|eexists; reflexivity].
    destruct (confidence_ok eq_refl) as [pct Hpct].
    destruct (format_as_num _ _ Hpct) as [c Hc].
    rewrite (py_gt_returns _ _ _ Hc). cbn [bind]. rewrite Hnn. cbn [bind].
    destruct (num_gt c (NFloat f0_8)); cbn [bind]; [|eexists; reflexivity].
    destruct (nn <? 2); [|eexists; reflexivity].
    rewrite Hpct. cbn [bind]. eexists; reflexivity. }
  destruct (H1 (one, [])) as [st1 ->]. cbn [bind].
  destruct (H2 st1) as [st2 ->]. cbn [bind].
  destruct (H3 st2) as [st3 ->]. cbn [bind].
  unfold findings_text. rewrite Hit. cbn [bind].
  destruct (fold_left _ _ _) as [s si]. exists s, si. reflexivity.
Qed.

Lemma check_logic_returns :
  exists l li, check_logic analysis raw_data = Ok (l, li).
Proof.
  unfold check_logic.
  fold confidence score findings sources_successful.
  destruct sources_successful_ok as [ns Hns].
  destruct findings_ok as [nn Hnn].
  assert (H1 : forall st, exists st',
             rule_limited_sources confidence sources_successful st = Ok st').
  { intros st. unfold rule_limited_sources, and_then. cbn [bind].
    destruct (truthy confidence) eqn:Et; [|eexists; reflexivity].
    destruct (confidence_ok eq_refl) as [pct Hpct].
    destruct (format_as_num _ _ Hpct) as [c Hc].
    rewrite (py_gt_returns _ _ _ Hc). cbn [bind].
    destruct (num_gt c (NFloat f0_9)); [|eexists; reflexivity].
    rewrite Hns. cbn [bind].
    destruct (ns <? 4); [|eexists; reflexivity].
    rewrite Hpct. cbn [bind]. eexists; reflexivity. }
  assert (H2 : forall st, exists st',
             rule_extreme_score analysis score st = Ok st').
  { intros st. unfold rule_extreme_score, or_else. fold findings.
    destruct (truthy score) eqn:Et; [|eexists; reflexivity].
    destruct (score_ok eq_refl) as [c Hc].
    rewrite (py_gt_returns _ _ _ Hc), (py_lt_returns _ _ _ Hc). cbn [bind].
    destruct (num_gt c (NInt 9)); cbn [bind].
    - rewrite Hnn. cbn [bind]. destruct (nn <? 3); eexists; reflexivity.
    - destruct (num_lt c (NInt 1)); [|eexists; reflexivity].
      rewrite Hnn. cbn [bind]. destruct (nn <? 3); eexists; reflexivity. }
  destruct (H1 (one, [])) as [st1 ->]. cbn [bind].
  destruct (H2 st1) as [st2 ->]. cbn [bind].
  destruct (rule_unsupported _ _ st2) as [l li]. exists l, li. reflexivity.
Qed.

Lemma generate_adversarial_questions_returns (issues : list string) :
  exists qs, generate_adversarial_questions analysis raw_data issues = Ok qs.
Proof.
  unfold generate_adversarial_questions.
  fold confidence data_quality sources_failed.
  destruct data_quality_ok as [dq Hdq].
  destruct sources_failed_ok as [nf Hnf].
  unfold failed_question. rewrite Hnf.
  assert (H1 : exists q1,
             (if truthy sources_failed
              then n <- Ok nf ;;
                   Ok ["How confident can we be with " ++ Str.of_Z n ++
                       " data sources unavailable?"]
              else Ok []) = Ok q1).
  { destruct (truthy sources_failed); eexists; reflexivity. }
  destruct H1 as [q1 ->]. cbn [bind].
  unfold quality_question. rewrite (py_lt_returns _ _ _ Hdq). cbn [bind].
  assert (H3 : exists q3, confidence_question confidence = Ok q3).
  { unfold confidence_question, and_then. cbn [bind].
    destruct (truthy confidence) eqn:Et; [|eexists; reflexivity].
    destruct (confidence_ok eq_refl) as [pct Hpct].
    destruct (format_as_num _ _ Hpct) as [c Hc].
    rewrite (py_gt_returns _ _ _ Hc), (py_lt_returns _ _ _ Hc). cbn [bind].
    destruct (num_gt c (NFloat f0_8)); eexists; reflexivity. }
  destruct H3 as [q3 ->]. cbn [bind]. eexists; reflexivity.
Qed.

End Returns.

(** How many issues the scorers can report. *)
Lemma flat_map_length_le {A B : Type} (f : A -> list B) (l : list A) :
  (forall x, (List.length (f x) <= 1)%nat) ->
  (List.length (flat_map f l) <= List.length l)%nat.
Proof.
  intros Hf. induction l as [|x l IH]; cbn [flat_map List.length]; [lia|].
  rewrite length_app. specialize (Hf x). lia.
Qed.

Lemma available_sources_length (raw_data : dict) :
  (List.length (available_sources raw_data) <= List.length raw_data)%nat.
Proof.
  unfold available_sources.
  assert (H : forall acc : list string,
             (List.length
                (fold_left
                   (fun acc kv =>
                      if is_source (fst kv) (snd kv) then set_add (fst kv) acc else acc)
                   raw_data acc)
              <= List.length acc + List.length raw_data)%nat).
  { induction raw_data as [|kv rd IH]; intros acc; cbn [fold_left List.length];
      [lia|].
    etransitivity; [apply IH|].
    destruct (is_source (fst kv) (snd kv)); [|lia].
    unfold set_add. destruct (in_list (fst kv) acc); [lia|].
    rewrite length_app. cbn [List.length]. lia. }
  apply (H []).
Qed.

Lemma check_completeness_issues_length (analysis raw_data : dict)
    (expected_fields : option (list string)) (c : float) (ci : list string) :
  check_completeness analysis raw_data expected_fields = Ok (c, ci) ->
  (List.length ci <=
   List.length raw_data +
   match expected_fields with Some fields => List.length fields | None => 0 end)%nat.
Proof.
  unfold check_completeness. intros H. bind_inv H. apply Ok_inj in H.
  injection H as _ <-. rewrite length_app.
  apply Nat.add_le_mono.
  - etransitivity; [|apply available_sources_length].
    unfold critical_issues. apply flat_map_length_le.
    intros source. destruct (is_critical source && negb _); cbn [List.length]; lia.
  - unfold expected_issues. destruct expected_fields as [fields|]; [|cbn; lia].
    apply flat_map_length_le.
    intros field. destruct (existsb _ _); cbn [List.length]; lia.
Qed.

Lemma check_consistency_issues_length (analysis raw_data : dict) (s : float)
    (si : list string) :
  check_consistency analysis raw_data = Ok (s, si) -> (List.length si <= 7)%nat.
Proof.
  intros H. apply check_consistency_reach_count in H.
  refine (_ (reach_count_forallb (fun zk => (snd zk <=? 7)%nat) _ _ _ _ _ H)).
  - cbn [snd]. apply Nat.leb_le.
  - vm_compute. reflexivity.
Qed.

Lemma check_logic_issues_length (analysis raw_data : dict) (l : float)
    (li : list string) :
  check_logic analysis raw_data = Ok (l, li) -> (List.length li <= 3)%nat.
Proof.
  intros H. apply check_logic_reach_count in H.
  refine (_ (reach_count_forallb (fun zk => (snd zk <=? 3)%nat) _ _ _ _ _ H)).
  - cbn [snd]. apply Nat.leb_le.
  - vm_compute. reflexivity.
Qed.

Lemma issue_penalty_returns (issues : list string) :
  Z.of_nat (List.length issues) < 2 ^ 53 -> exists p, issue_penalty issues = Ok p.
Proof.
  intros H. unfold issue_penalty, int_mul_float.
  destruct (int_to_float_small _ H) as [f ->]. cbn [bind].
  eexists. reflexivity.
Qed.

(** X10. [validate] returns, and so does the LLM-backed validator with
    any client, when the recognised keys hold values of the expected kind:
    a truthy confidence is a number that formats as a percentage, a truthy
    score is a number, the data quality score is a number, and the failed
    sources, the successful sources and the findings have a length; and
    when the analysis and the raw data are values CPython renders, with no
    int of more than 4300 digits and no nesting deeper than 100. (The
    bound on the sizes keeps the number of issues convertible to a
    float.) *)
Theorem validate_returns (cfg : Config) (analysis raw_data : dict)
    (expected_fields : option (list string)) (client : Client) :
  let confidence := dict_get analysis "confidence" (VInt 0) in
  let score := get_score analysis in
  (truthy confidence = true -> exists pct, Py.format_pct0 confidence = Ok pct) ->
  (truthy score = true -> exists n, as_num score = Some n) ->
  (exists n, as_num (dict_get raw_data "data_quality_score" (VInt 100)) = Some n) ->
  (exists n, py_len (dict_get raw_data "sources_failed" (VList [])) = Ok n) ->
  (exists n, py_len (dict_get raw_data "sources_successful" (VList [])) = Ok n) ->
  (exists n, py_len (get_findings analysis) = Ok n) ->
  renders (VDict analysis) = true ->
  renders (VDict raw_data) = true ->
  Z.of_nat (List.length raw_data +
            match expected_fields with
            | Some fields => List.length fields
            | None => 0
            end) < 2 ^ 52 ->
  (exists r, validate cfg analysis raw_data expected_fields = Ok r) /\
  (exists r, ollama_validate client cfg analysis raw_data expected_fields = Ok r).
Proof.
  intros confidence score Hconf Hscore Hdq Hsf Hss Hfi _ _ Hlen.
  destruct (check_completeness_unit analysis raw_data expected_fields)
    as (c & ci & Hc & _).
  destruct (check_consistency_returns analysis raw_data Hconf Hscore Hdq Hsf Hfi)
    as (s & si & Hs).
  destruct (check_logic_returns analysis raw_data Hconf Hscore Hss Hfi)
    as (l & li & Hl).
  destruct (generate_adversarial_questions_returns analysis raw_data Hconf Hdq Hsf
              (ci ++ si ++ li)%list) as (qs & Hq).
  pose proof (check_completeness_issues_length _ _ _ _ _ Hc) as Lc.
  pose proof (check_consistency_issues_length _ _ _ _ Hs) as Ls.
  pose proof (check_logic_issues_length _ _ _ _ Hl) as Ll.
  destruct (issue_penalty_returns (ci ++ si ++ li)%list) as (pen & Hp).
  { rewrite !length_app.
    assert (2 ^ 52 + 10 < 2 ^ 53) by (vm_compute; reflexivity). lia. }
  split.
  - unfold validate, validate_with. rewrite Hc, Hs, Hl. cbn [bind].
    rewrite Hq. cbn [bind]. rewrite Hp. cbn [bind]. eexists. reflexivity.
  - unfold ollama_validate, validate_with. rewrite Hc, Hs, Hl. cbn [bind].
    rewrite (ollama_generate_after_base client _ _ _ _ Hq). cbn [bind].
    rewrite Hp. cbn [bind]. eexists. reflexivity.
Qed.

Lemma validate_returns_witness :
  (exists r, validate default_config good_analysis good_raw_data None = Ok r) /\
  (exists r, ollama_validate unreachable_client default_config good_analysis
               good_raw_data None = Ok r).
Proof.
  apply (validate_returns default_config good_analysis good_raw_data None
           unreachable_client).
  - intros _. eexists. vm_compute. reflexivity.
  - intros _. eexists. vm_compute. reflexivity.
  - eexists. vm_compute. reflexivity.
  - eexists. vm_compute. reflexivity.
  - eexists. vm_compute. reflexivity.
  - eexists. vm_compute. reflexivity.
  - vm_compute. reflexivity.
  - vm_compute. reflexivity.
  - vm_compute. reflexivity.
Defined.

(** ** Completeness at its ends *)

(** A positive integer divided by itself is 1.0. *)
Lemma div_pos_same (p : positive) : div_pos false p p = one.
Proof.
  unfold div_pos, SFdiv_core_binary.
  replace (Zdigits2 (Z.pos p) + 0 - (Zdigits2 (Z.pos p) + 0)) with 0 by lia.
  change (Z.min (fexp prec emax 0) (0 - 0)) with (-53).
  change (0 - 0 - -53) with 53.
  cbv iota beta. rewrite Z.shiftl_mul_pow2 by lia.
  pose proof (Z.div_mul (2 ^ 53) (Z.pos p) ltac:(lia)) as Hq.
  pose proof (Z.mod_mul (2 ^ 53) (Z.pos p) ltac:(lia)) as Hr.
  rewrite (Z.mul_comm (2 ^ 53)) in Hq, Hr.
  unfold Z.div, Z.modulo in Hq, Hr.
  destruct (Z.div_eucl (Z.pos p * 2 ^ 53) (Z.pos p)) as [q r].
  subst q r.
  replace (new_location (Z.pos p) 0) with loc_Exact.
  - vm_compute. reflexivity.
  - unfold new_location, new_location_even, new_location_odd.
    destruct (Z.even (Z.pos p)); reflexivity.
Qed.

Lemma int_truediv_same (n : nat) :
  (0 < n)%nat -> int_truediv (Z.of_nat n) (Z.of_nat n) = Ok one.
Proof.
  intros Hn. unfold int_truediv.
  destruct (Z.of_nat n) as [|p|p] eqn:E; [lia| |lia].
  cbn [Z.ltb Z.compare xorb Z.abs Z.to_pos]. rewrite div_pos_same. reflexivity.
Qed.

Lemma int_truediv_zero (n : nat) :
  (0 < n)%nat -> int_truediv 0 (Z.of_nat n) = Ok zero.
Proof.
  intros Hn. unfold int_truediv.
  destruct (Z.of_nat n) as [|p|p] eqn:E; [lia| |lia]. reflexivity.
Qed.

(** The critical issues and the referenced sources share the available
    ones. *)
Lemma critical_issues_length (referenced : list string) (f : string -> bool)
    (l : list string) :
  (forall s, In s l -> f s = true -> in_list s referenced = true) ->
  (List.length (critical_issues l referenced) + List.length (filter f l)
   <= List.length l)%nat.
Proof.
  unfold critical_issues. induction l as [|x l IH]; intros H; [cbn; lia|].
  cbn [flat_map filter]. rewrite length_app.
  specialize (IH (fun s Hs => H s (or_intror Hs))).
  destruct (f x) eqn:Ef.
  - rewrite (H x (or_introl eq_refl) Ef). rewrite andb_false_r.
    cbn [List.length negb]. lia.
  - destruct (is_critical x && negb (in_list x referenced));
      cbn [List.length]; lia.
Qed.

Lemma critical_issues_In (available referenced : list string) (issue : string) :
  In issue (critical_issues available referenced) <->
  exists source,
    In source available /\ ~ In source referenced /\ is_critical source = true /\
    issue = "Critical data source '" ++ source ++
            "' available but not clearly analyzed".
Proof.
  unfold critical_issues. rewrite in_flat_map. split.
  - intros (source & Hin & H). exists source.
    destruct (is_critical source) eqn:Ec; [|destruct H].
    destruct (in_list source referenced) eqn:Er; [destruct H|].
    cbn [andb negb In] in H. destruct H as [<-|[]].
    repeat split; try assumption.
    intros Hr. apply in_list_In in Hr. rewrite Hr in Er. discriminate Er.
  - intros (source & Hin & Hn & Hc & ->). exists source. split; [exact Hin|].
    rewrite Hc. destruct (in_list source referenced) eqn:Er.
    + exfalso. apply Hn, in_list_In, Er.
    + left. reflexivity.
Qed.

(** X11. Without expected fields, the completeness scorer returns 1.0
    and no issue when every available source is referenced, and 0.0 when
    sources are available and none is referenced. Its issues are exactly
    one per available source that is critical and not referenced, so that
    issues and referenced sources together never outnumber the available
    sources; a source that is not critical lowers the score without an
    issue. *)
Theorem completeness_extremes (analysis raw_data : dict) (c : float)
    (ci : list string) :
  check_completeness analysis raw_data None = Ok (c, ci) ->
  let available := available_sources raw_data in
  let referenced := sources_referenced analysis available in
  (referenced = available -> c = one /\ ci = []) /\
  (available <> [] -> referenced = [] -> c = zero) /\
  (List.length ci + List.length referenced <= List.length available)%nat /\
  (forall issue, In issue ci <->
     exists source,
       In source available /\ ~ In source referenced /\
       is_critical source = true /\
       issue = "Critical data source '" ++ source ++
               "' available but not clearly analyzed").
Proof.
  intros H available referenced. unfold check_completeness in H.
  fold available in H. fold referenced in H.
  bind_inv H. apply Ok_inj in H. injection H as <- <-.
  cbn [expected_issues]. rewrite app_nil_r.
  split; [|split; [|split]].
  - intros E. rewrite E in Ha |- *. split.
    + destruct available as [|x l] eqn:Eav; [apply Ok_inj in Ha; congruence|].
      rewrite int_truediv_same in Ha by (cbn [List.length]; lia).
      apply Ok_inj in Ha. congruence.
    + destruct (critical_issues available available) as [|i l] eqn:Ecr;
        [reflexivity|].
      assert (Hin : In i (critical_issues available available))
        by (rewrite Ecr; left; reflexivity).
      apply critical_issues_In in Hin.
      destruct Hin as (source & Hin & Hn & _). contradiction.
  - intros Hne E. rewrite E in Ha.
    destruct available as [|x l] eqn:Eav; [contradiction Hne; reflexivity|].
    cbn [List.length] in Ha.
    change (Z.of_nat 0) with 0 in Ha.
    rewrite int_truediv_zero in Ha by lia. apply Ok_inj in Ha. congruence.
  - unfold referenced, sources_referenced.
    apply critical_issues_length.
    intros s Hs Hf. apply in_list_In, filter_In. split; assumption.
  - intros issue. apply critical_issues_In.
Qed.

Lemma completeness_extremes_witness :
  exists c ci,
    check_completeness unread_analysis unread_raw_data None = Ok (c, ci) /\
    let available := available_sources unread_raw_data in
    let referenced := sources_referenced unread_analysis available in
    (referenced = available -> c = one /\ ci = []) /\
    (available <> [] -> referenced = [] -> c = zero) /\
    (List.length ci + List.length referenced <= List.length available)%nat /\
    (forall issue, In issue ci <->
       exists source,
         In source available /\ ~ In source referenced /\
         is_critical source = true /\
         issue = "Critical data source '" ++ source ++
                 "' available but not clearly analyzed").
Proof.
  eexists. eexists. split; [vm_compute; reflexivity|].
  apply (completeness_extremes unread_analysis unread_raw_data).
  vm_compute. reflexivity.
Defined.

(** ** Expected fields *)

Lemma prefix_shorter (a b : string) : forall s : string,
  prefix (a ++ b) s = true -> prefix a s = true.
Proof.
  induction a as [|c a IH]; intros s; [destruct s; reflexivity|].
  destruct s as [|d s]; cbn [append prefix]; [intros H; exact H|].
  destruct (ascii_dec c d); [apply IH | intros H; exact H].
Qed.

Lemma contains_shorter (a b : string) : forall s : string,
  Str.contains (a ++ b) s = true -> Str.contains a s = true.
Proof.
  induction s as [|d s IH]; cbn [Str.contains]; intros H;
    apply orb_true_iff in H; apply orb_true_iff.
  - destruct H as [H|H]; [left; apply (prefix_shorter a b), H | discriminate H].
  - destruct H as [H|H]; [left; apply (prefix_shorter a b), H | right; apply IH, H].
Qed.

(** A name that occurs in the text has a related term that occurs in it. *)
Lemma related_terms_direct (name text : string) :
  Str.contains name text = true ->
  existsb (fun term => Str.contains term text) (related_terms name) = true.
Proof.
  intros H. unfold related_terms, semantic_mappings. cbn [find fst snd].
  destruct (String.eqb_spec "earnings" name) as [<-|_];
    [cbn [existsb find fst snd]; rewrite H; reflexivity|].
  destruct (String.eqb_spec "news" name) as [<-|_];
    [cbn [existsb find fst snd]; rewrite H; reflexivity|].
  destruct (String.eqb_spec "analyst" name) as [<-|_];
    [cbn [existsb find fst snd]; rewrite H; reflexivity|].
  destruct (String.eqb_spec "insider" name) as [<-|_];
    [cbn [existsb find fst snd]; rewrite H; reflexivity|].
  destruct (String.eqb_spec "sec" name) as [<-|_];
    [cbn [existsb find fst snd]; rewrite H; reflexivity|].
  destruct (String.eqb_spec "filings" name) as [<-|_].
  - cbn [existsb find fst snd].
    rewrite (contains_shorter "filing" "s" text H). reflexivity.
  - cbn [existsb find fst snd]. rewrite H. reflexivity.
Qed.

Lemma expected_issues_In (text : string) (fields : list string) (issue : string) :
  In issue (expected_issues text (Some fields)) <->
  exists field,
    In field fields /\
    existsb (fun term => Str.contains term text)
            (related_terms (Str.lower field)) = false /\
    issue = "Expected field '" ++ field ++ "' not addressed in analysis".
Proof.
  unfold expected_issues. rewrite in_flat_map. split.
  - intros (field & Hin & H). exists field.
    destruct (existsb _ _); [destruct H|]. destruct H as [<-|[]].
    repeat split. exact Hin.
  - intros (field & Hin & He & ->). exists field. split; [exact Hin|].
    rewrite He. left. reflexivity.
Qed.

Lemma check_completeness_fields (analysis raw_data : dict)
    (expected_fields : option (list string)) (c : float) (ci : list string) :
  check_completeness analysis raw_data None = Ok (c, ci) ->
  check_completeness analysis raw_data expected_fields
  = Ok (c, (ci ++ expected_issues
                    (Str.lower (flatten_to_string (VDict analysis) 0))
                    expected_fields)%list).
Proof.
  unfold check_completeness. intros H. bind_inv H. apply Ok_inj in H.
  injection H as <- <-. rewrite Ha. cbn [bind expected_issues].
  rewrite app_nil_r. reflexivity.
Qed.

Lemma string_length_app (a b : string) :
  String.length (a ++ b) = (String.length a + String.length b)%nat.
Proof. induction a as [|c a IH]; cbn [append String.length]; [reflexivity|]. rewrite IH. reflexivity. Qed.

(** [++] on strings cancels on both sides. *)
Lemma string_app_inv_head (p x y : string) : p ++ x = p ++ y -> x = y.
Proof.
  induction p as [|c p IH]; cbn [append]; intros H; [exact H|].
  injection H as H. apply IH, H.
Qed.

Lemma string_app_inv_tail (s : string) : forall x y : string,
  x ++ s = y ++ s -> x = y.
Proof.
  induction x as [|c x IH]; intros [|d y] H; cbn [append] in H.
  - reflexivity.
  - exfalso. apply (f_equal String.length) in H.
    cbn [String.length] in H. rewrite string_length_app in H. lia.
  - exfalso. apply (f_equal String.length) in H.
    cbn [String.length] in H. rewrite string_length_app in H. lia.
  - injection H as -> H. f_equal. apply IH, H.
Qed.

(** Two prefixes of one string: one is a prefix of the other. *)
Lemma prefix_comparable (p : string) : forall q m : string,
  prefix p m = true -> prefix q m = true -> prefix p q || prefix q p = true.
Proof.
  induction p as [|a p IH]; intros q m Hp Hq.
  - destruct q; reflexivity.
  - destruct q as [|b q]; [reflexivity|].
    destruct m as [|x m]; cbn [prefix] in Hp, Hq; [discriminate Hp|].
    destruct (ascii_dec a x) as [->|]; [|discriminate Hp].
    destruct (ascii_dec b x) as [->|]; [|discriminate Hq].
    cbn [prefix]. destruct (ascii_dec x x) as [_|Hn]; [|contradiction Hn; reflexivity].
    apply (IH q m Hp Hq).
Qed.

(** X12. Passing expected fields changes none of the three sub-scores
    [validate] reports. It adds one issue for each expected field none of
    whose related terms occurs in the lowercased text of the analysis, and
    nothing else: a field whose own lowercased name occurs in the text
    never gets one, and an empty list of fields gives the very result of
    passing none. *)
Theorem expected_fields_only_add_issues (cfg : Config)
    (analysis raw_data : dict) (fields : list string)
    (r0 r1 : ValidationResult) :
  validate cfg analysis raw_data None = Ok r0 ->
  validate cfg analysis raw_data (Some fields) = Ok r1 ->
  let text := Str.lower (flatten_to_string (VDict analysis) 0) in
  completeness_score r1 = completeness_score r0 /\
  consistency_score r1 = consistency_score r0 /\
  logic_score r1 = logic_score r0 /\
  (forall issue,
     In issue (issues_found r1) <->
     In issue (issues_found r0) \/
     exists field,
       In field fields /\
       existsb (fun term => Str.contains term text)
               (related_terms (Str.lower field)) = false /\
       issue = "Expected field '" ++ field ++ "' not addressed in analysis") /\
  (List.length (issues_found r1)
   <= List.length (issues_found r0) + List.length fields)%nat /\
  (forall field, In field fields ->
     Str.contains (Str.lower field) text = true ->
     ~ In ("Expected field '" ++ field ++ "' not addressed in analysis")
          (issues_found r1)) /\
  (fields = [] -> r1 = r0).
Proof.
  intros H0 H1 text.
  apply validate_with_inv in H0.
  destruct H0 as (c & ci & s & si & l & li & qs & pen & Hc & Hs & Hl & Hq & Hp & ->).
  apply validate_with_inv in H1.
  destruct H1 as (c' & ci' & s' & si' & l' & li' & qs' & pen' &
                  Hc' & Hs' & Hl' & Hq' & Hp' & ->).
  rewrite Hs in Hs'. apply Ok_inj in Hs'. injection Hs' as <- <-.
  rewrite Hl in Hl'. apply Ok_inj in Hl'. injection Hl' as <- <-.
  rewrite (check_completeness_fields _ _ (Some fields) _ _ Hc) in Hc'.
  apply Ok_inj in Hc'.
  assert (Ec : c' = c) by congruence.
  assert (Eci : ci' = (ci ++ expected_issues text (Some fields))%list)
    by (unfold text; congruence).
  clear Hc'. subst c' ci'.
  cbn [completeness_score consistency_score logic_score issues_found].
  repeat (split; [reflexivity|]).
  assert (Hiff : forall issue,
            In issue ((ci ++ expected_issues text (Some fields)) ++ si ++ li) <->
            In issue (ci ++ si ++ li) \/
            exists field,
              In field fields /\
              existsb (fun term => Str.contains term text)
                      (related_terms (Str.lower field)) = false /\
              issue = "Expected field '" ++ field ++ "' not addressed in analysis").
  { intros issue. rewrite <- expected_issues_In, !in_app_iff. tauto. }
  split; [exact Hiff|]. split.
  { rewrite !length_app.
    assert (List.length (expected_issues text (Some fields)) <= List.length fields)%nat.
    { unfold expected_issues. apply flat_map_length_le.
      intros field. destruct (existsb _ _); cbn [List.length]; lia. }
    lia. }
  split.
  - intros field Hin Hcon Hmem. apply Hiff in Hmem.
    set (msg := "Expected field '" ++ field ++ "' not addressed in analysis") in *.
    assert (Hmsg : prefix "Expected" msg = true) by reflexivity.
    destruct Hmem as [Hmem|(field' & Hin' & He & E)].
    + rewrite !in_app_iff in Hmem. destruct Hmem as [Hm|[Hm|Hm]].
      * unfold check_completeness in Hc. bind_inv Hc. apply Ok_inj in Hc.
        injection Hc as _ <-. cbn [expected_issues] in Hm.
        rewrite app_nil_r in Hm. apply critical_issues_In in Hm.
        destruct Hm as (source & _ & _ & _ & E).
        unfold msg in E. discriminate E.
      * apply check_consistency_inv in Hs.
        destruct Hs as (st1 & st2 & st3 & txt & R1 & R2 & R3 & _ & Hfold).
        assert (Hsi : si = snd (fold_left (rule_contradiction txt)
                                  contradiction_pairs st3))
          by (rewrite <- Hfold; reflexivity).
        rewrite Hsi in Hm. apply contradictions_fold in Hm.
        destruct Hm as [Hm|(pair & _ & _ & _ & E)];
          [|unfold msg in E; discriminate E].
        destruct (rule_few_findings_issue _ _ _ _ _ R3 Hm) as [Hm3|Hp3];
          [|discriminate (prefix_head _ _ _ _ _ Hmsg Hp3)].
        destruct (rule_failed_sources_issue _ _ _ _ _ R2 Hm3) as [Hm2|Hp2];
          [|discriminate (prefix_head _ _ _ _ _ Hmsg Hp2)].
        destruct (rule_low_quality_issue _ _ _ _ _ R1 Hm2) as [[]|Hp1].
        discriminate (prefix_head _ _ _ _ _ Hmsg Hp1).
      * destruct (check_logic_issue _ _ _ _ _ Hl Hm) as [Hp1|[Hp1|Hp1]];
          pose proof (prefix_comparable _ _ _ Hmsg Hp1) as Hcmp;
          vm_compute in Hcmp; discriminate Hcmp.
    + assert (field' = field).
      { unfold msg in E. apply string_app_inv_head in E.
        apply string_app_inv_tail in E. symmetry. exact E. }
      subst field'.
      rewrite (related_terms_direct _ _ Hcon) in He. discriminate He.
  - intros ->. 
    cbn [expected_issues flat_map] in *. rewrite app_nil_r in *.
    rewrite Hq in Hq'. apply Ok_inj in Hq'. subst qs'.
    rewrite Hp in Hp'. apply Ok_inj in Hp'. subst pen'. reflexivity.
Qed.

Lemma expected_fields_only_add_issues_witness :
  exists r0 r1,
    validate default_config revenue_analysis [] None = Ok r0 /\
    validate default_config revenue_analysis [] (Some revenue_fields) = Ok r1 /\
    let text := Str.lower (flatten_to_string (VDict revenue_analysis) 0) in
    completeness_score r1 = completeness_score r0 /\
    consistency_score r1 = consistency_score r0 /\
    logic_score r1 = logic_score r0 /\
    (forall issue,
       In issue (issues_found r1) <->
       In issue (issues_found r0) \/
       exists field,
         In field revenue_fields /\
         existsb (fun term => Str.contains term text)
                 (related_terms (Str.lower field)) = false /\
         issue = "Expected field '" ++ field ++ "' not addressed in analysis") /\
    (List.length (issues_found r1)
     <= List.length (issues_found r0) + List.length revenue_fields)%nat /\
    (forall field, In field revenue_fields ->
       Str.contains (Str.lower field) text = true ->
       ~ In ("Expected field '" ++ field ++ "' not addressed in analysis")
            (issues_found r1)) /\
    (revenue_fields = [] -> r1 = r0).
Proof.
  eexists. eexists.
  split; [vm_compute; reflexivity|]. split; [vm_compute; reflexivity|].
  apply (expected_fields_only_add_issues default_config revenue_analysis []
           revenue_fields).
  - vm_compute. reflexivity.
  - vm_compute. reflexivity.
Defined.

(** ** Batches *)

Lemma batch_fold_raise (validate_one : dict -> dict -> result ValidationResult)
    (analyses : list (string * dict * dict)) (e : exc) :
  fold_left (batch_step validate_one) analyses (Raise e) = Raise e.
Proof. induction analyses as [|item l IH]; [reflexivity | exact IH]. Qed.

(** The loop of [batch_validate], unrolled: every item validated, in
    order. *)
Lemma batch_fold_inv (validate_one : dict -> dict -> result ValidationResult)
    (analyses : list (string * dict * dict)) :
  forall (res0 res : list (string * ValidationResult)) (rr0 rr : list RerunItem),
    fold_left (batch_step validate_one) analyses (Ok (res0, rr0)) = Ok (res, rr) ->
    exists results : list ValidationResult,
      Forall2 (fun item r => validate_one (snd (fst item)) (snd item) = Ok r)
              analyses results /\
      res = (res0 ++ combine (map (fun item => fst (fst item)) analyses) results)%list /\
      rr = (rr0 ++ map rerun_item
                     (filter (fun er => should_rerun (snd er))
                        (combine (map (fun item => fst (fst item)) analyses)
                                 results)))%list.
Proof.
  induction analyses as [|[[entity_id analysis] raw_data] l IH];
    intros res0 res rr0 rr H.
  - cbn [fold_left] in H. apply Ok_inj in H. injection H as <- <-.
    exists []. split; [constructor|]. cbn. rewrite !app_nil_r. split; reflexivity.
  - cbn [fold_left] in H. unfold batch_step at 2 in H. cbn [bind] in H.
    destruct (validate_one analysis raw_data) as [r|e] eqn:Ev; cbn [bind] in H.
    + apply IH in H. destruct H as (results & HF & -> & ->).
      exists (r :: results). split; [constructor; [exact Ev | exact HF]|].
      cbn [map combine fst snd filter]. rewrite <- !app_assoc. cbn [app].
      split; [reflexivity|].
      destruct (should_rerun r); cbn [map]; rewrite <- ?app_assoc; reflexivity.
    + rewrite batch_fold_raise in H. discriminate H.
Qed.

Lemma num_min_In (x : num) (rest : list num) : In (num_min x rest) (x :: rest).
Proof.
  unfold num_min. revert x. induction rest as [|y rest IH]; intros x.
  - left. reflexivity.
  - cbn [fold_left]. destruct (num_lt y x).
    + right. apply IH.
    + destruct (IH x) as [H|H]; [left; exact H | right; right; exact H].
Qed.

Lemma num_max_In (x : num) (rest : list num) : In (num_max x rest) (x :: rest).
Proof.
  unfold num_max. revert x. induction rest as [|y rest IH]; intros x.
  - left. reflexivity.
  - cbn [fold_left]. destruct (num_gt y x).
    + right. apply IH.
    + destruct (IH x) as [H|H]; [left; exact H | right; right; exact H].
Qed.

Lemma filter_negb_length {A : Type} (f : A -> bool) (l : list A) :
  (List.length (filter (fun x => negb (f x)) l) + List.length (filter f l)
   = List.length l)%nat.
Proof.
  induction l as [|x l IH]; [reflexivity|]. cbn [filter].
  destruct (f x); cbn [negb List.length]; lia.
Qed.

(** X13. A summary of [batch_validate] counts every analysis of the
    batch: the passed and the rerun ones add up to the total, and the rerun
    items are, in the order of the batch, the entity, confidence, issues
    and recommendations of exactly the results [validate] flags for rerun.
    An empty batch has average, least and greatest confidence 0; otherwise
    the least and the greatest are confidences of the batch and the average
    is the builtin sum over the number of analyses. *)
Theorem batch_validate_summary (py_sum : list num -> result num) (cfg : Config)
    (analyses : list (string * dict * dict)) (summary : BatchSummary) :
  batch_validate py_sum cfg analyses = Ok summary ->
  exists results : list ValidationResult,
    let named := combine (map (fun item => fst (fst item)) analyses) results in
    Forall2 (fun item r => validate cfg (snd (fst item)) (snd item) None = Ok r)
            analyses results /\
    total_validated summary = Z.of_nat (List.length analyses) /\
    passed summary + needs_rerun summary = total_validated summary /\
    needs_rerun summary = Z.of_nat (List.length (filter should_rerun results)) /\
    rerun_items summary
    = map rerun_item (filter (fun er => should_rerun (snd er)) named) /\
    (analyses = [] ->
     avg_confidence summary = NInt 0 /\ min_confidence summary = NInt 0 /\
     max_confidence summary = NInt 0) /\
    (analyses <> [] ->
     In (min_confidence summary) (map overall_confidence results) /\
     In (max_confidence summary) (map overall_confidence results) /\
     exists total,
       py_sum (map overall_confidence results) = Ok total /\
       num_truediv total (Z.of_nat (List.length analyses))
       = Ok (avg_confidence summary)).
Proof.
  unfold batch_validate, batch_validate_with. intros H.
  apply bind_ok_inv in H. destruct H as ([res rr] & Hfold & H).
  apply bind_ok_inv in H. destruct H as (avg & Havg & H).
  apply Ok_inj in H. subst summary.
  apply batch_fold_inv in Hfold. destruct Hfold as (results & HF & -> & ->).
  cbn [app] in *. exists results. cbn zeta.
  set (named := combine (map (fun item => fst (fst item)) analyses) results) in *.
  pose proof (Forall2_length HF) as Hlen.
  assert (Hnamed : List.length named = List.length analyses).
  { unfold named. rewrite length_combine, length_map. lia. }
  assert (Hconf : map (fun er => overall_confidence (snd er)) named
                  = map overall_confidence results).
  { unfold named. clear - Hlen. revert results Hlen.
    induction analyses as [|item l IH]; intros [|r results] Hlen;
      try discriminate Hlen; [reflexivity|].
    cbn [map combine snd]. f_equal. apply IH. injection Hlen as Hlen. exact Hlen. }
  assert (Hrer : List.length (filter (fun er => should_rerun (snd er)) named)
                 = List.length (filter should_rerun results)).
  { unfold named. clear - Hlen. revert results Hlen.
    induction analyses as [|item l IH]; intros [|r results] Hlen;
      try discriminate Hlen; [reflexivity|].
    cbn [map combine filter snd]. injection Hlen as Hlen.
    destruct (should_rerun r); cbn [List.length]; rewrite (IH _ Hlen); reflexivity. }
  cbn [total_validated passed needs_rerun rerun_items avg_confidence
       min_confidence max_confidence].
  split; [exact HF|]. split; [rewrite Hnamed; reflexivity|].
  split.
  { rewrite length_map, Hnamed.
    pose proof (filter_negb_length (fun er : string * ValidationResult =>
                                      should_rerun (snd er)) named) as Hsum.
    cbv beta in Hsum. lia. }
  split; [rewrite length_map, Hrer; reflexivity|].
  split; [reflexivity|].
  rewrite Hconf in *. rewrite length_map in Havg.
  split.
  - intros ->. inversion HF. subst results. cbn [map] in *.
    apply Ok_inj in Havg. subst avg. repeat split.
  - intros Hne.
    destruct (map overall_confidence results) as [|x rest] eqn:Em.
    + exfalso. destruct results; [|discriminate Em].
      destruct analyses; [contradiction Hne; reflexivity | discriminate Hlen].
    + split; [apply num_min_In|]. split; [apply num_max_In|].
      apply bind_ok_inv in Havg. destruct Havg as (total & Hsum & Havg).
      exists total. split; [exact Hsum|].
      rewrite Hlen. exact Havg.
Qed.

Lemma batch_validate_summary_witness :
  exists summary,
    batch_validate sum_left default_config mixed_batch = Ok summary /\
    exists results : list ValidationResult,
      let named := combine (map (fun item => fst (fst item)) mixed_batch) results in
      Forall2 (fun item r =>
                 validate default_config (snd (fst item)) (snd item) None = Ok r)
              mixed_batch results /\
      total_validated summary = Z.of_nat (List.length mixed_batch) /\
      passed summary + needs_rerun summary = total_validated summary /\
      needs_rerun summary = Z.of_nat (List.length (filter should_rerun results)) /\
      rerun_items summary
      = map rerun_item (filter (fun er => should_rerun (snd er)) named) /\
      (mixed_batch = [] ->
       avg_confidence summary = NInt 0 /\ min_confidence summary = NInt 0 /\
       max_confidence summary = NInt 0) /\
      (mixed_batch <> [] ->
       In (min_confidence summary) (map overall_confidence results) /\
       In (max_confidence summary) (map overall_confidence results) /\
       exists total,
         sum_left (map overall_confidence results) = Ok total /\
         num_truediv total (Z.of_nat (List.length mixed_batch))
         = Ok (avg_confidence summary)).
Proof.
  eexists. split; [vm_compute; reflexivity|].
  apply (batch_validate_summary sum_left default_config mixed_batch).
  vm_compute. reflexivity.
Defined.

Lemma batch_fold_ok (validate_one : dict -> dict -> result ValidationResult)
    (analyses : list (string * dict * dict)) :
  Forall (fun item => exists r, validate_one (snd (fst item)) (snd item) = Ok r)
         analyses ->
  forall st0, exists st,
    fold_left (batch_step validate_one) analyses (Ok st0) = Ok st.
Proof.
  induction 1 as [|[[entity_id analysis] raw_data] l [r Hr] _ IH]; intros [res rr].
  - eexists. reflexivity.
  - cbn [fold_left]. unfold batch_step at 2. cbn [bind fst snd] in *.
    rewrite Hr. cbn [bind]. apply IH.
Qed.

(** X14. One analysis on which [validate] raises loses the whole batch:
    when [validate] returns on the analyses before it, [batch_validate]
    raises the exception [validate] raises on it, whatever comes after it
    and whatever the builtin sum does; it is none of the exceptions
    [validate] keeps inside. *)
Theorem batch_validate_first_failure (py_sum : list num -> result num)
    (cfg : Config) (pre post : list (string * dict * dict))
    (entity_id : string) (analysis raw_data : dict) (e : exc) :
  Forall (fun item =>
            exists r, validate cfg (snd (fst item)) (snd item) None = Ok r) pre ->
  validate cfg analysis raw_data None = Raise e ->
  batch_validate py_sum cfg (pre ++ (entity_id, analysis, raw_data) :: post)
  = Raise e /\
  kept_inside e = false.
Proof.
  intros Hpre He. split.
  - unfold batch_validate, batch_validate_with.
    rewrite fold_left_app.
    destruct (batch_fold_ok
                (fun analysis raw_data => validate cfg analysis raw_data None)
                pre Hpre ([], [])) as [[res rr] Hst].
    unfold batch_state in *. rewrite Hst.
    cbn [fold_left]. unfold batch_step at 2. cbn [bind].
    rewrite He. cbn [bind]. rewrite batch_fold_raise. reflexivity.
  - assert (Ht : type_or_overflow e = true).
    { revert He. apply validate_with_raises. intros issues.
      apply generate_adversarial_questions_raises. }
    destruct e; try discriminate Ht; reflexivity.
Qed.

Lemma batch_validate_first_failure_witness :
  batch_validate sum_left default_config
    ([("GOOD", good_analysis, good_raw_data)] ++
     ("NONE", none_analysis, none_raw_data) ::
     [("FLAGGED", flagged_analysis, flagged_raw_data)])
  = Raise TypeError /\
  kept_inside TypeError = false.
Proof.
  apply (batch_validate_first_failure sum_left default_config
           [("GOOD", good_analysis, good_raw_data)]
           [("FLAGGED", flagged_analysis, flagged_raw_data)]
           "NONE" none_analysis none_raw_data TypeError).
  - constructor; [|constructor]. eexists. vm_compute. reflexivity.
  - vm_compute. reflexivity.
Defined.

(** ** The least and the greatest confidence of a batch *)

Lemma round3_max0_like (x : float) : confidence_like (Py.round3 (max0 x)) = true.
Proof.
  unfold max0. destruct (num_gt (NFloat x) (NInt 0)) eqn:E; [|reflexivity].
  apply gt_0_inv in E. destruct E as [->|(m & e & ->)]; [reflexivity|].
  cbn [Py.round3 confidence_like]. unfold F64.round3.
  destruct (scaled_nearest m e 1000); try reflexivity.
  apply div_pos_nonneg.
Qed.

Lemma num_compare_like (a b : num) :
  confidence_like a = true -> confidence_like b = true ->
  num_compare a b = SFcompare (as_float a) (as_float b).
Proof.
  assert (Hz : forall f, nonnegb f = true -> cmp_Z f 0 = SFcompare f zero).
  { intros f Hf. destruct f as [[|]|[|]| |[|] m e]; try discriminate Hf;
      try reflexivity.
    unfold cmp_Z. cbn [SFcompare zero]. f_equal.
    destruct (Z.leb_spec 0 e) as [He|He]; [|reflexivity].
    assert (Hp : 0 < 2 ^ e) by (apply Z.pow_pos_nonneg; lia).
    destruct (Z.compare_spec (Z.pos m * 2 ^ e) 0); try reflexivity; nia. }
  destruct a as [x|x], b as [y|y]; cbn [confidence_like as_float num_compare];
    intros Ha Hb.
  - apply Z.eqb_eq in Ha, Hb. subst. reflexivity.
  - apply Z.eqb_eq in Ha. subst x. rewrite (Hz y Hb).
    destruct (SFcompare y zero) as [c|] eqn:E.
    + rewrite (SFcompare_antisym _ _ _ E). cbn [option_map].
      destruct c; reflexivity.
    + destruct y as [[|]|[|]| |[|] m e]; try discriminate Hb; discriminate E.
  - apply Z.eqb_eq in Hb. subst y. apply Hz, Ha.
  - reflexivity.
Qed.

Lemma SFlt_trans (x y z : float) :
  nonnegb x = true -> nonnegb y = true -> nonnegb z = true ->
  SFltb x y = true -> SFltb y z = true -> SFltb x z = true.
Proof.
  unfold SFltb.
  destruct x as [[|]|[|]| |[|] mx ex]; try discriminate;
    destruct y as [[|]|[|]| |[|] my ey]; try discriminate;
    destruct z as [[|]|[|]| |[|] mz ez]; try discriminate;
    cbn [SFcompare]; intros _ _ _; try discriminate; try reflexivity.
  change (Pos.compare_cont Eq mx my) with (Pos.compare mx my).
  change (Pos.compare_cont Eq my mz) with (Pos.compare my mz).
  change (Pos.compare_cont Eq mx mz) with (Pos.compare mx mz).
  destruct (Z.compare_spec ex ey); destruct (Z.compare_spec ey ez);
    destruct (Z.compare_spec ex ez); try lia; try discriminate; try reflexivity.
  destruct (Pos.compare_spec mx my); destruct (Pos.compare_spec my mz);
    destruct (Pos.compare_spec mx mz); try lia; try discriminate; try reflexivity.
Qed.

Lemma num_lt_trans (a b c : num) :
  confidence_like a = true -> confidence_like b = true ->
  confidence_like c = true ->
  num_lt a b = true -> num_lt b c = true -> num_lt a c = true.
Proof.
  intros Ha Hb Hc. unfold num_lt.
  rewrite !num_compare_like by assumption.
  assert (Hf : forall x, confidence_like x = true -> nonnegb (as_float x) = true).
  { intros [x|x] H; [reflexivity | exact H]. }
  apply SFlt_trans; apply Hf; assumption.
Qed.

Lemma num_lt_irrefl (a : num) : confidence_like a = true -> num_lt a a = false.
Proof.
  intros Ha. unfold num_lt. rewrite num_compare_like by assumption.
  destruct a as [x|x]; cbn [as_float]; [reflexivity|].
  destruct x as [[|]|[|]| |[|] m e]; try discriminate Ha; try reflexivity.
  cbn [SFcompare]. rewrite Z.compare_refl.
  change (Pos.compare_cont Eq m m) with (Pos.compare m m).
  rewrite Pos.compare_refl. reflexivity.
Qed.

Lemma num_gt_lt (a b : num) :
  confidence_like a = true -> confidence_like b = true ->
  num_gt a b = num_lt b a.
Proof.
  intros Ha Hb. unfold num_gt, num_lt. rewrite !num_compare_like by assumption.
  destruct (SFcompare (as_float a) (as_float b)) as [c|] eqn:E.
  - rewrite (SFcompare_antisym _ _ _ E). destruct c; reflexivity.
  - destruct (SFcompare (as_float b) (as_float a)) as [c|] eqn:E'; [|reflexivity].
    rewrite (SFcompare_antisym _ _ _ E') in E. discriminate E.
Qed.

Lemma SFlt_cotrans (x y z : float) :
  nonnegb x = true -> nonnegb y = true -> nonnegb z = true ->
  SFltb x z = true -> SFltb x y = true \/ SFltb y z = true.
Proof.
  unfold SFltb.
  destruct x as [[|]|[|]| |[|] mx ex]; try discriminate;
    destruct y as [[|]|[|]| |[|] my ey]; try discriminate;
    destruct z as [[|]|[|]| |[|] mz ez]; try discriminate;
    cbn [SFcompare]; intros _ _ _; try discriminate; auto.
  change (Pos.compare_cont Eq mx my) with (Pos.compare mx my).
  change (Pos.compare_cont Eq my mz) with (Pos.compare my mz).
  change (Pos.compare_cont Eq mx mz) with (Pos.compare mx mz).
  destruct (Z.compare_spec ex ey); destruct (Z.compare_spec ey ez);
    destruct (Z.compare_spec ex ez); try lia; try discriminate; auto.
  destruct (Pos.compare_spec mx my); destruct (Pos.compare_spec my mz);
    destruct (Pos.compare_spec mx mz); try lia; try discriminate; auto.
Qed.

Lemma num_lt_cotrans (a b c : num) :
  confidence_like a = true -> confidence_like b = true ->
  confidence_like c = true ->
  num_lt a c = true -> num_lt a b = true \/ num_lt b c = true.
Proof.
  intros Ha Hb Hc. unfold num_lt.
  rewrite !num_compare_like by assumption.
  assert (Hf : forall x, confidence_like x = true -> nonnegb (as_float x) = true).
  { intros [x|x] H; [reflexivity | exact H]. }
  apply SFlt_cotrans; apply Hf; assumption.
Qed.

(** [min] returns an item no item is below. *)
Lemma num_min_least (rest : list num) : forall x : num,
  Forall (fun c => confidence_like c = true) (x :: rest) ->
  confidence_like (num_min x rest) = true /\
  Forall (fun c => num_lt c (num_min x rest) = false) (x :: rest).
Proof.
  unfold num_min.
  induction rest as [|y rest IH]; intros x H; cbn [fold_left].
  - inversion H; subst.
    split; [assumption|]. constructor; [apply num_lt_irrefl; assumption | constructor].
  - inversion H as [|? ? Hx H']; subst. inversion H' as [|? ? Hy H'']; subst.
    destruct (num_lt y x) eqn:E.
    + destruct (IH y H') as (Hl & Hall). inversion Hall as [|? ? Hy' Hr]; subst.
      split; [exact Hl|]. constructor; [|exact Hall].
      destruct (num_lt x (fold_left _ rest y)) eqn:E'; [|reflexivity].
      rewrite <- Hy'. symmetry.
      apply (num_lt_trans y x _ Hy Hx Hl E E').
    + destruct (IH x (Forall_cons _ Hx H'')) as (Hl & Hall).
      inversion Hall as [|? ? Hx' Hr]; subst.
      split; [exact Hl|]. constructor; [exact Hx'|]. constructor; [|exact Hr].
      destruct (num_lt y (fold_left _ rest x)) eqn:E'; [|reflexivity].
      destruct (num_lt_cotrans y x _ Hy Hx Hl E') as [C|C]; congruence.
Qed.

(** [max] returns an item no item is above. *)
Lemma num_max_greatest (rest : list num) : forall x : num,
  Forall (fun c => confidence_like c = true) (x :: rest) ->
  confidence_like (num_max x rest) = true /\
  Forall (fun c => num_gt c (num_max x rest) = false) (x :: rest).
Proof.
  unfold num_max.
  induction rest as [|y rest IH]; intros x H; cbn [fold_left].
  - inversion H; subst.
    split; [assumption|].
    constructor; [rewrite num_gt_lt by assumption; apply num_lt_irrefl; assumption
                 | constructor].
  - inversion H as [|? ? Hx H']; subst. inversion H' as [|? ? Hy H'']; subst.
    destruct (num_gt y x) eqn:E.
    + destruct (IH y H') as (Hl & Hall). inversion Hall as [|? ? Hy' Hr]; subst.
      split; [exact Hl|]. constructor; [|exact Hall].
      rewrite num_gt_lt in E, Hy' |- * by assumption.
      destruct (num_lt (fold_left _ rest y) x) eqn:E'; [|reflexivity].
      rewrite <- Hy'. symmetry.
      apply (num_lt_trans _ x y Hl Hx Hy E' E).
    + destruct (IH x (Forall_cons _ Hx H'')) as (Hl & Hall).
      inversion Hall as [|? ? Hx' Hr]; subst.
      split; [exact Hl|]. constructor; [exact Hx'|]. constructor; [|exact Hr].
      rewrite num_gt_lt in E, Hx' |- * by assumption.
      destruct (num_lt (fold_left _ rest x) y) eqn:E'; [|reflexivity].
      destruct (num_lt_cotrans _ x y Hl Hx Hy E') as [C|C]; congruence.
Qed.

Lemma validate_confidence_like (cfg : Config) (analysis raw_data : dict)
    (expected_fields : option (list string)) (r : ValidationResult) :
  validate cfg analysis raw_data expected_fields = Ok r ->
  confidence_like (overall_confidence r) = true.
Proof.
  intros H. apply validate_with_inv in H.
  destruct H as (c & ci & s & si & l & li & qs & pen & _ & _ & _ & _ & _ & ->).
  cbn [overall_confidence]. apply round3_max0_like.
Qed.

(** X15. In a summary of a batch that is not empty, no result of the
    batch has an overall confidence below [min_confidence] or above
    [max_confidence], and the least is not above the greatest; the
    comparison is Python's, exact between the int 0 a clamped confidence is
    and the floats. *)
Theorem batch_validate_bounds (py_sum : list num -> result num) (cfg : Config)
    (analyses : list (string * dict * dict)) (summary : BatchSummary) :
  batch_validate py_sum cfg analyses = Ok summary ->
  analyses <> [] ->
  num_lt (max_confidence summary) (min_confidence summary) = false /\
  forall entity_id analysis raw_data r,
    In (entity_id, analysis, raw_data) analyses ->
    validate cfg analysis raw_data None = Ok r ->
    num_lt (overall_confidence r) (min_confidence summary) = false /\
    num_gt (overall_confidence r) (max_confidence summary) = false.
Proof.
  unfold batch_validate, batch_validate_with. intros H Hne.
  apply bind_ok_inv in H. destruct H as ([res rr] & Hfold & H).
  apply bind_ok_inv in H. destruct H as (avg & _ & H).
  apply Ok_inj in H. subst summary.
  apply batch_fold_inv in Hfold. destruct Hfold as (results & HF & -> & _).
  cbn [app min_confidence max_confidence].
  set (named := combine (map (fun item => fst (fst item)) analyses) results).
  assert (Hconf : map (fun er => overall_confidence (snd er)) named
                  = map overall_confidence results).
  { unfold named. pose proof (Forall2_length HF) as Hlen.
    clear - Hlen. revert results Hlen.
    induction analyses as [|item l IH]; intros [|r results] Hlen;
      try discriminate Hlen; [reflexivity|].
    cbn [map combine snd]. f_equal. apply IH. injection Hlen as Hlen. exact Hlen. }
  rewrite Hconf.
  assert (Hlike : Forall (fun c => confidence_like c = true)
                         (map overall_confidence results)).
  { clear - HF. induction HF as [|item r l rs Hv _ IH]; cbn [map]; constructor.
    - apply (validate_confidence_like _ _ _ _ _ Hv).
    - exact IH. }
  assert (Hmem : forall entity_id analysis raw_data r,
            In (entity_id, analysis, raw_data) analyses ->
            validate cfg analysis raw_data None = Ok r ->
            In (overall_confidence r) (map overall_confidence results)).
  { clear - HF. induction HF as [|item r' l rs Hv _ IH];
      intros entity_id analysis raw_data r Hin Hr; [destruct Hin|].
    destruct Hin as [->|Hin].
    - cbn [fst snd] in Hv. rewrite Hr in Hv. apply Ok_inj in Hv. subst r'.
      left. reflexivity.
    - right. apply (IH _ _ _ _ Hin Hr). }
  destruct (map overall_confidence results) as [|x rest] eqn:Em.
  { exfalso. destruct results; [|discriminate Em].
    inversion HF. subst. contradiction Hne. reflexivity. }
  destruct (num_min_least rest x Hlike) as (Lmin & Hmin).
  destruct (num_max_greatest rest x Hlike) as (Lmax & Hmax).
  rewrite Forall_forall in Hmin, Hmax.
  split.
  - pose proof (Hmax _ (num_min_In x rest)) as Hb.
    rewrite num_gt_lt in Hb by assumption.
    destruct (num_lt (num_max x rest) (num_min x rest)) eqn:E; [|reflexivity].
    pose proof (Hmin _ (num_max_In x rest)) as Hc. congruence.
  - intros entity_id analysis raw_data r Hin Hr.
    pose proof (Hmem _ _ _ _ Hin Hr) as Hc.
    split; [apply Hmin, Hc | apply Hmax, Hc].
Qed.

Lemma batch_validate_bounds_witness :
  exists summary,
    batch_validate sum_left default_config mixed_batch = Ok summary /\
    num_lt (max_confidence summary) (min_confidence summary) = false /\
    forall entity_id analysis raw_data r,
      In (entity_id, analysis, raw_data) mixed_batch ->
      validate default_config analysis raw_data None = Ok r ->
      num_lt (overall_confidence r) (min_confidence summary) = false /\
      num_gt (overall_confidence r) (max_confidence summary) = false.
Proof.
  eexists. split; [vm_compute; reflexivity|].
  apply (batch_validate_bounds sum_left default_config mixed_batch).
  - vm_compute. reflexivity.
  - intros E. discriminate E.
Defined.

(** ** Reading the client's answer *)

Lemma prefix_empty (s : string) : prefix "" s = true.
Proof. destruct s; reflexivity. Qed.

(** What [rstrip] drops is a suffix, what [lstrip] drops a prefix. *)
Lemma rstrip_prefix (s : string) : exists t, s = Str.rstrip s ++ t.
Proof.
  induction s as [|c r [t IH]]; [exists ""; reflexivity|].
  cbn [Str.rstrip]. destruct (Str.rstrip r) as [|d r'] eqn:E.
  - cbn [append] in IH. subst t.
    destruct (Str.isspace c); [exists (String c r) | exists r]; reflexivity.
  - exists t. cbn [append]. f_equal. exact IH.
Qed.

Lemma contains_tail (p : string) (c : ascii) (r : string) :
  Str.contains p r = true -> Str.contains p (String c r) = true.
Proof. intros H. cbn [Str.contains]. rewrite H. apply orb_true_r. Qed.

Lemma contains_lstrip (p s : string) :
  Str.contains p (Str.lstrip s) = true -> Str.contains p s = true.
Proof.
  induction s as [|c r IH]; cbn [Str.lstrip]; [intros H; exact H|].
  destruct (Str.isspace c); [|intros H; exact H].
  intros H. apply contains_tail, IH, H.
Qed.

Lemma contains_rstrip (p s : string) :
  Str.contains p (Str.rstrip s) = true -> Str.contains p s = true.
Proof.
  intros H. destruct (rstrip_prefix s) as [t E]. rewrite E.
  apply contains_app_l, H.
Qed.

Lemma contains_strip (p s : string) :
  Str.contains p (Str.strip s) = true -> Str.contains p s = true.
Proof. intros H. apply contains_lstrip, contains_rstrip, H. Qed.

(** No field of [split] holds the separator. *)
Lemma split_on_no_sep (sep : ascii) (s : string) :
  Forall (fun f => Str.contains (String sep "") f = false) (Str.split_on sep s).
Proof.
  induction s as [|c r IH]; cbn [Str.split_on].
  - constructor; [reflexivity | constructor].
  - destruct (Ascii.eqb_spec c sep) as [->|Hne].
    + constructor; [reflexivity | exact IH].
    + destruct (Str.split_on sep r) as [|f fs].
      * constructor; [|constructor]. cbn [Str.contains prefix].
        destruct (ascii_dec sep c) as [->|_]; [contradiction Hne; reflexivity|].
        reflexivity.
      * inversion IH as [|? ? Hf Hfs]; subst. constructor; [|exact Hfs].
        cbn [Str.contains prefix].
        destruct (ascii_dec sep c) as [->|_]; [contradiction Hne; reflexivity|].
        exact Hf.
Qed.

(** [strip] leaves nothing to strip. *)
Lemma rstrip_idem (s : string) : Str.rstrip (Str.rstrip s) = Str.rstrip s.
Proof.
  induction s as [|c r IH]; [reflexivity|].
  cbn [Str.rstrip]. destruct (Str.rstrip r) as [|d r'] eqn:E.
  - destruct (Str.isspace c) eqn:Ec; [reflexivity|].
    cbn [Str.rstrip]. rewrite Ec. reflexivity.
  - change (Str.rstrip (String c (String d r')))
      with (match Str.rstrip (String d r') with
            | EmptyString =>
                if Str.isspace c then EmptyString else String c EmptyString
            | r'' => String c r''
            end).
    rewrite IH. reflexivity.
Qed.

Lemma lstrip_head (s : string) :
  Str.lstrip s = "" \/
  exists c r, Str.lstrip s = String c r /\ Str.isspace c = false.
Proof.
  induction s as [|c r IH]; [left; reflexivity|].
  cbn [Str.lstrip]. destruct (Str.isspace c) eqn:E; [exact IH|].
  right. exists c, r. split; [reflexivity | exact E].
Qed.

Lemma strip_idem (s : string) : Str.strip (Str.strip s) = Str.strip s.
Proof.
  unfold Str.strip.
  assert (Hl : Str.lstrip (Str.rstrip (Str.lstrip s)) = Str.rstrip (Str.lstrip s)).
  { destruct (lstrip_head s) as [->|(c & r & -> & Hc)]; [reflexivity|].
    cbn [Str.rstrip]. rewrite Hc.
    destruct (Str.rstrip r); cbn [Str.lstrip]; rewrite Hc; reflexivity. }
  rewrite Hl. apply rstrip_idem.
Qed.

Lemma firstn_In {A : Type} (n : nat) (l : list A) (x : A) :
  In x (firstn n l) -> In x l.
Proof.
  intros H. rewrite <- (firstn_skipn n l). apply in_or_app. left. exact H.
Qed.

(** X16. What the LLM-backed generator reads off the client's answer is
    at most three questions, each non-empty, with nothing left to strip
    and no line break in it. Reading fails only with a [KeyError], a
    [TypeError] or an [AttributeError] (which the generator catches), and
    not at all when the answer holds a string under
    ['message']['content']. *)
Theorem parse_response_shape (response : value) :
  (forall qs, parse_response response = Ok qs ->
     (List.length qs <= 3)%nat /\
     forall q, In q qs ->
       q <> "" /\ Str.strip q = q /\ Str.contains (Str.chr 10) q = false) /\
  (forall e, parse_response response = Raise e -> lookup_error e = true) /\
  (forall message text,
     py_getitem response "message" = Ok message ->
     py_getitem message "content" = Ok (VStr text) ->
     exists qs, parse_response response = Ok qs).
Proof.
  split; [|split].
  - intros qs H. split; [apply (parse_response_length _ _ H)|].
    unfold parse_response in H. bind_inv H. bind_inv H. bind_inv H.
    apply Ok_inj in H. subst qs. intros q Hin.
    apply firstn_In, in_map_iff in Hin. destruct Hin as (line & <- & Hin).
    apply filter_In in Hin. destruct Hin as [Hin Ht].
    split; [|split].
    + intros E. rewrite E in Ht. discriminate Ht.
    + apply strip_idem.
    + destruct (Str.contains (Str.chr 10) (Str.strip line)) eqn:Ec; [|reflexivity].
      apply contains_strip in Ec.
      pose proof (split_on_no_sep (ascii_of_nat 10) a1) as Hall.
      rewrite Forall_forall in Hall. rewrite <- (Hall _ Hin). symmetry. exact Ec.
  - intros e. unfold parse_response, py_getitem, py_strip.
    destruct response as [| | | | | |d]; cbn [bind]; intros H;
      try (injection H as <-; reflexivity).
    destruct (dict_has d "message"); cbn [bind] in H;
      [|injection H as <-; reflexivity].
    destruct (dict_get d "message" VNone) as [| | | | | |m]; cbn [bind] in H;
      try (injection H as <-; reflexivity).
    destruct (dict_has m "content"); cbn [bind] in H;
      [|injection H as <-; reflexivity].
    destruct (dict_get m "content" VNone); cbn [bind] in H;
      try (injection H as <-; reflexivity); discriminate H.
  - intros message text Hm Hc. unfold parse_response.
    rewrite Hm. cbn [bind]. rewrite Hc. cbn [bind py_strip]. eexists. reflexivity.
Qed.

(** ** The available sources *)

Lemma set_add_In (x y : string) (s : list string) :
  In y (set_add x s) <-> In y s \/ y = x.
Proof.
  unfold set_add. destruct (in_list x s) eqn:E.
  - apply in_list_In in E. split; [intros H; left; exact H|].
    intros [H| ->]; assumption.
  - rewrite in_app_iff. cbn [In]. split; intros [H|H]; auto.
    + destruct H as [H|[]]. right. symmetry. exact H.
Qed.

Lemma set_add_NoDup (x : string) (s : list string) :
  NoDup s -> NoDup (set_add x s).
Proof.
  intros H. unfold set_add. destruct (in_list x s) eqn:E; [exact H|].
  apply NoDup_app; [exact H | constructor; [intros [] | constructor] |].
  intros y Hy [<-|[]]. apply in_list_In in Hy. rewrite Hy in E. discriminate E.
Qed.

Lemma available_fold (raw_data : dict) : forall acc : list string,
  NoDup acc ->
  let result :=
    fold_left
      (fun acc kv => if is_source (fst kv) (snd kv) then set_add (fst kv) acc else acc)
      raw_data acc in
  NoDup result /\
  forall k, In k result <->
            In k acc \/ exists v, In (k, v) raw_data /\ is_source k v = true.
Proof.
  induction raw_data as [|[k0 v0] rd IH]; intros acc Hacc; cbn [fold_left fst snd].
  - split; [exact Hacc|]. intros k. split; [intros H; left; exact H|].
    intros [H|(v & [] & _)]. exact H.
  - destruct (is_source k0 v0) eqn:E.
    + destruct (IH (set_add k0 acc) (set_add_NoDup k0 acc Hacc)) as [Hnd Hin].
      split; [exact Hnd|]. intros k. rewrite Hin, set_add_In. split.
      * intros [[H| ->]|(v & Hv & Hs)].
        -- left. exact H.
        -- right. exists v0. split; [left; reflexivity | exact E].
        -- right. exists v. split; [right; exact Hv | exact Hs].
      * intros [H|(v & [Hv|Hv] & Hs)].
        -- left. left. exact H.
        -- injection Hv as -> ->. left. right. reflexivity.
        -- right. exists v. split; assumption.
    + destruct (IH acc Hacc) as [Hnd Hin].
      split; [exact Hnd|]. intros k. rewrite Hin. split.
      * intros [H|(v & Hv & Hs)]; [left; exact H|].
        right. exists v. split; [right; exact Hv | exact Hs].
      * intros [H|(v & [Hv|Hv] & Hs)].
        -- left. exact H.
        -- injection Hv as -> ->. rewrite E in Hs. discriminate Hs.
        -- right. exists v. split; assumption.
Qed.

(** X17. The available sources are the keys of [raw_data], each once,
    that hold a truthy value, are not one of the six reserved keys, and
    whose value has data: never more than [raw_data] has entries. A key
    bound to a mapping is among them only if the mapping has no falsy
    ['success'] and holds a truthy value under another key. *)
Theorem available_sources_spec (raw_data : dict) :
  NoDup (available_sources raw_data) /\
  (List.length (available_sources raw_data) <= List.length raw_data)%nat /\
  (forall k, In k (available_sources raw_data) <->
     exists v, In (k, v) raw_data /\ truthy v = true /\
               ~ In k reserved_keys /\ has_data v = true) /\
  (forall k d, In k (available_sources raw_data) ->
     (forall v, In (k, v) raw_data -> v = VDict d) ->
     truthy (dict_get d "success" (VBool true)) = true /\
     exists k' v', In (k', v') d /\ k' <> "success" /\ truthy v' = true).
Proof.
  destruct (available_fold raw_data [] (NoDup_nil _)) as [Hnd Hin].
  cbn zeta in Hnd, Hin. fold (available_sources raw_data) in Hnd, Hin.
  assert (Hspec : forall k, In k (available_sources raw_data) <->
            exists v, In (k, v) raw_data /\ truthy v = true /\
                      ~ In k reserved_keys /\ has_data v = true).
  { intros k. rewrite Hin. split.
    - intros [[]|(v & Hv & Hs)]. exists v. split; [exact Hv|].
      unfold is_source in Hs. apply andb_true_iff in Hs. destruct Hs as [Hs Hd].
      apply andb_true_iff in Hs. destruct Hs as [Ht Hr].
      repeat split; try assumption.
      intros Hk. apply in_list_In in Hk. rewrite Hk in Hr. discriminate Hr.
    - intros (v & Hv & Ht & Hr & Hd). right. exists v. split; [exact Hv|].
      unfold is_source. rewrite Ht, Hd.
      destruct (in_list k reserved_keys) eqn:E; [|reflexivity].
      exfalso. apply Hr, in_list_In, E. }
  split; [exact Hnd|]. split; [apply available_sources_length|].
  split; [exact Hspec|].
  intros k d Hk Hall. apply Hspec in Hk. destruct Hk as (v & Hv & _ & _ & Hd).
  rewrite (Hall v Hv) in Hd. cbn [has_data] in Hd.
  apply andb_true_iff in Hd. destruct Hd as [Hs He]. split; [exact Hs|].
  apply existsb_exists in He. destruct He as ([k' v'] & Hin' & Hc).
  cbn [fst snd] in Hc. apply andb_true_iff in Hc. destruct Hc as [Hn Ht].
  exists k', v'. repeat split; try assumption.
  intros ->. discriminate Hn.
Qed.

(** ** Sources the analysis names *)

Lemma contains_app_r (p a b : string) :
  Str.contains p b = true -> Str.contains p (a ++ b) = true.
Proof.
  intros H. induction a as [|c a IH]; [exact H|].
  cbn [append]. apply contains_tail, IH.
Qed.

Lemma contains_join (p sep x : string) (l : list string) :
  In x l -> Str.contains p x = true -> Str.contains p (Str.join sep l) = true.
Proof.
  unfold Str.join. intros Hin Hp. induction l as [|y l IH]; [destruct Hin|].
  cbn [concat]. destruct l as [|z l].
  - destruct Hin as [->|[]]. exact Hp.
  - destruct Hin as [->|Hin].
    + apply contains_app_l, Hp.
    + apply contains_app_r, contains_app_r, IH, Hin.
Qed.

Lemma lower_join (sep : string) (l : list string) :
  Str.lower (Str.join sep l) = Str.join (Str.lower sep) (map Str.lower l).
Proof.
  unfold Str.join. induction l as [|y l IH]; [reflexivity|].
  cbn [concat map]. destruct l as [|z l]; [reflexivity|].
  rewrite !lower_app, IH. reflexivity.
Qed.

(** A key of the analysis, or a string it holds at top level, is part of
    the text the sources are looked up in. *)
Lemma analysis_text_mentions (analysis : dict) (p k : string) (v : value) :
  In (k, v) analysis ->
  Str.contains p (Str.lower k) = true \/
  (exists s, v = VStr s /\ Str.contains p (Str.lower s) = true) ->
  Str.contains p (Str.lower (flatten_to_string (VDict analysis) 0)) = true.
Proof.
  intros Hin H.
  change (flatten_to_string (VDict analysis) 0)
    with (Str.join " "
            (flat_map (fun kv => [fst kv; flatten_to_string (snd kv) 1]) analysis)).
  rewrite lower_join.
  destruct H as [H|(s & -> & H)].
  - apply (contains_join _ _ (Str.lower k)); [|exact H].
    apply in_map, in_flat_map. exists (k, v). split; [exact Hin | left; reflexivity].
  - apply (contains_join _ _ (Str.lower s)); [|exact H].
    apply in_map, in_flat_map. exists (k, VStr s). split; [exact Hin|].
    right. left. cbn [snd]. destruct s; reflexivity.
Qed.

(** Naming a source references it; naming them all completes the
    analysis. *)
Lemma named_sources_complete (analysis raw_data : dict) :
  let available := available_sources raw_data in
  let named source :=
    exists k v, In (k, v) analysis /\
      (Str.contains (Str.lower source) (Str.lower k) = true \/
       exists s, v = VStr s /\ Str.contains (Str.lower source) (Str.lower s) = true) in
  (forall source, In source available -> named source ->
     In source (sources_referenced analysis available)) /\
  ((forall source, In source available -> named source) ->
   forall expected_fields,
     exists issues,
       check_completeness analysis raw_data expected_fields = Ok (one, issues) /\
       forall issue, In issue issues -> prefix "Expected field" issue = true).
Proof.
  intros available named.
  assert (Href : forall source, In source available -> named source ->
            In source (sources_referenced analysis available)).
  { intros source Hin (k & v & Hkv & H).
    unfold sources_referenced. apply filter_In. split; [exact Hin|].
    unfold is_referenced. cbv zeta.
    rewrite (analysis_text_mentions analysis _ k v Hkv H). reflexivity. }
  split; [exact Href|].
  intros Hall expected_fields.
  assert (Heq : sources_referenced analysis available = available).
  { unfold sources_referenced. apply forallb_filter_id.
    apply forallb_forall. intros source Hin.
    specialize (Href source Hin (Hall source Hin)).
    unfold sources_referenced in Href. apply filter_In in Href. apply Href. }
  unfold check_completeness. fold available. rewrite Heq.
  assert (Hc : match available with
               | [] => Ok one
               | _ :: _ => int_truediv (Z.of_nat (List.length available))
                                       (Z.of_nat (List.length available))
               end = Ok one).
  { destruct available as [|x l]; [reflexivity|].
    apply int_truediv_same. cbn [List.length]. lia. }
  rewrite Hc. cbn [bind]. eexists. split; [reflexivity|].
  intros issue Hin. apply in_app_iff in Hin. destruct Hin as [Hin|Hin].
  - apply critical_issues_In in Hin. destruct Hin as (source & Hi & Hn & _).
    contradiction.
  - unfold expected_issues in Hin. destruct expected_fields as [fields|];
      [|destruct Hin].
    apply in_flat_map in Hin. destruct Hin as (field & _ & Hin).
    destruct (existsb _ _); [destruct Hin|]. destruct Hin as [<-|[]]. reflexivity.
Qed.

(** X18. Where the completeness scorer returns: an available source whose
    lowercased name occurs in a key of the analysis, or in a string the
    analysis holds at top level, in any case, is counted as referenced; and
    when every available source is so named, the completeness score is
    exactly 1.0 and the scorer reports nothing but expected fields. *)
Theorem named_sources_are_referenced (analysis raw_data : dict)
    (expected_fields : option (list string)) (c : float)
    (issues : list string) :
  check_completeness analysis raw_data expected_fields = Ok (c, issues) ->
  let available := available_sources raw_data in
  let named source :=
    exists k v, In (k, v) analysis /\
      (Str.contains (Str.lower source) (Str.lower k) = true \/
       exists s, v = VStr s /\ Str.contains (Str.lower source) (Str.lower s) = true) in
  (forall source, In source available -> named source ->
     In source (sources_referenced analysis available)) /\
  ((forall source, In source available -> named source) ->
   c = one /\
   forall issue, In issue issues -> prefix "Expected field" issue = true).
Proof.
  intros H available named.
  destruct (named_sources_complete analysis raw_data) as [Href Hall].
  split; [exact Href|].
  intros Hnamed.
  destruct (Hall Hnamed expected_fields) as (issues' & H' & Hex).
  rewrite H in H'. apply Ok_inj in H'.
  assert (Ec : c = one) by congruence.
  assert (Ei : issues = issues') by congruence.
  subst c issues'. split; [reflexivity | exact Hex].
Qed.

Lemma named_sources_are_referenced_witness :
  exists c issues,
    check_completeness thorough_analysis thorough_raw_data None = Ok (c, issues) /\
    c = one /\
    forall issue, In issue issues -> prefix "Expected field" issue = true.
Proof.
  eexists. eexists. split; [vm_compute; reflexivity|].
  refine (proj2 (named_sources_are_referenced thorough_analysis
                   thorough_raw_data None _ _ _) _).
  - vm_compute. reflexivity.
  - intros source Hin. vm_compute in Hin.
    exists "text", (VStr "Based on earnings data and news sentiment analysis...").
    split; [left; reflexivity|]. right. eexists. split; [reflexivity|].
    destruct Hin as [<-|[<-|[]]]; vm_compute; reflexivity.
Defined.

(** ** A clean analysis *)

(** X19. With the default configuration, a result of [validate] that has
    no issue, for an analysis that references every available source, has
    overall confidence 1.0 and all three scores 1.0, is not flagged for
    rerun, and recommends APPROVED alone, or DEEP_DIVE alone when more than
    four questions were asked. *)
Theorem clean_analysis_passes (analysis raw_data : dict)
    (expected_fields : option (list string)) (r : ValidationResult) :
  validate default_config analysis raw_data expected_fields = Ok r ->
  issues_found r = [] ->
  sources_referenced analysis (available_sources raw_data)
  = available_sources raw_data ->
  overall_confidence r = NFloat one /\
  completeness_score r = one /\ consistency_score r = one /\
  logic_score r = one /\
  should_rerun r = false /\
  (recommended_actions r = [rec_approved] \/
   recommended_actions r = [rec_deep_dive]).
Proof.
  intros H Hnone Href. apply validate_with_inv in H.
  destruct H as (c & ci & s & si & l & li & qs & pen & Hc & Hs & Hl & _ & Hp & ->).
  cbn [issues_found] in Hnone.
  apply app_eq_nil in Hnone. destruct Hnone as [-> Hnone].
  apply app_eq_nil in Hnone. destruct Hnone as [-> ->].
  cbn [app] in *.
  apply check_consistency_reach_count in Hs. apply reach_count_same in Hs.
  apply check_logic_reach_count in Hl. apply reach_count_same in Hl.
  subst s l.
  assert (c = one).
  { unfold check_completeness in Hc. rewrite Href in Hc. bind_inv Hc.
    apply Ok_inj in Hc. injection Hc as <- _.
    destruct (available_sources raw_data) as [|x rest];
      [apply Ok_inj in Ha; symmetry; exact Ha|].
    rewrite int_truediv_same in Ha by (cbn [List.length]; lia).
    apply Ok_inj in Ha. symmetry. exact Ha. }
  subst c.
  assert (pen = zero).
  { vm_compute in Hp. apply Ok_inj in Hp. symmetry. exact Hp. }
  subst pen.
  cbn [overall_confidence completeness_score consistency_score logic_score
       should_rerun recommended_actions].
  split; [vm_compute; reflexivity|].
  split; [vm_compute; reflexivity|].
  split; [vm_compute; reflexivity|].
  split; [vm_compute; reflexivity|].
  split; [vm_compute; reflexivity|].
  unfold generate_recommendations.
  change (ltb one f0_8) with false. change (ltb one f0_7) with false.
  change (5 <? List.length (@nil string))%nat with false. cbn [app].
  destruct (4 <? List.length qs)%nat; [right | left]; reflexivity.
Qed.

Lemma clean_analysis_passes_witness :
  exists r,
    validate default_config thorough_analysis thorough_raw_data None = Ok r /\
    overall_confidence r = NFloat one /\
    completeness_score r = one /\ consistency_score r = one /\
    logic_score r = one /\
    should_rerun r = false /\
    (recommended_actions r = [rec_approved] \/
     recommended_actions r = [rec_deep_dive]).
Proof.
  eexists. split; [vm_compute; reflexivity|].
  apply (clean_analysis_passes thorough_analysis thorough_raw_data None).
  - vm_compute. reflexivity.
  - vm_compute. reflexivity.
  - vm_compute. reflexivity.
Defined.

(** ** How a source gets referenced *)

(** [needle in hay], as a decomposition of [hay]. *)
Lemma prefix_split (a : string) : forall b : string,
  prefix a b = true -> exists v, b = a ++ v.
Proof.
  induction a as [|c a IH]; intros b H; [exists b; reflexivity|].
  destruct b as [|d b]; cbn [prefix] in H; [discriminate H|].
  destruct (ascii_dec c d) as [->|]; [|discriminate H].
  destruct (IH b H) as [v ->]. exists v. reflexivity.
Qed.

Lemma prefix_refl_app (a v : string) : prefix a (a ++ v) = true.
Proof.
  induction a as [|c a IH]; [apply prefix_empty|].
  cbn [append prefix]. destruct (ascii_dec c c) as [_|Hn];
    [exact IH | contradiction Hn; reflexivity].
Qed.

Lemma string_app_assoc (a b c : string) : (a ++ b) ++ c = a ++ b ++ c.
Proof. induction a as [|x a IH]; [reflexivity|]. cbn [append]. rewrite IH. reflexivity. Qed.

Lemma contains_iff (a b : string) :
  Str.contains a b = true <-> exists u v, b = u ++ a ++ v.
Proof.
  split.
  - induction b as [|d b IH]; cbn [Str.contains]; intros H;
      apply orb_true_iff in H.
    + destruct H as [H|H]; [|discriminate H].
      destruct (prefix_split _ _ H) as [v E]. exists "", v. exact E.
    + destruct H as [H|H].
      * destruct (prefix_split _ _ H) as [v E]. exists "", v. exact E.
      * destruct (IH H) as (u & v & ->). exists (String d u), v. reflexivity.
  - intros (u & v & ->). apply contains_app_r.
    destruct (a ++ v) as [|x r] eqn:E; cbn [Str.contains]; rewrite <- E;
      rewrite prefix_refl_app; reflexivity.
Qed.

Lemma contains_trans (a b c : string) :
  Str.contains a b = true -> Str.contains b c = true -> Str.contains a c = true.
Proof.
  intros H1 H2. apply contains_iff in H1, H2. apply contains_iff.
  destruct H1 as (u & v & ->). destruct H2 as (u' & v' & ->).
  exists (u' ++ u), (v ++ v'). rewrite !string_app_assoc. reflexivity.
Qed.

Lemma contains_refl (a : string) : Str.contains a a = true.
Proof. apply contains_iff. exists "", "". cbn [append]. clear. induction a as [|c a IH]; [reflexivity|]. cbn [append]. f_equal. exact IH. Qed.

Lemma contains_join_tail (p sep x : string) (t : list string) :
  Str.contains p (Str.join sep t) = true ->
  Str.contains p (Str.join sep (x :: t)) = true.
Proof.
  unfold Str.join. destruct t as [|y t]; cbn [concat]; intros H.
  - destruct p; [|discriminate H]. destruct x; reflexivity.
  - apply contains_app_r, contains_app_r, H.
Qed.

(** Every key [collect_keys] finds is part of the lowercased text
    [flatten_to_string] builds, at the same depth. *)
Lemma collect_keys_in_text : forall (obj : value) (depth : nat) (key : string),
  In key (collect_keys obj depth) ->
  Str.contains key (Str.lower (flatten_to_string obj depth)) = true.
Proof.
  fix IH 1. intros obj depth key.
  destruct obj as [| | | | | |d]; cbn [collect_keys];
    try (destruct (5 <? depth)%nat; intros []).
  destruct (5 <? depth)%nat eqn:E5; [intros []|].
  assert (E10 : (10 <? depth)%nat = false).
  { apply Nat.ltb_ge. apply Nat.ltb_ge in E5. lia. }
  cbn [flatten_to_string]. rewrite E10. rewrite lower_join.
  induction d as [|[k v] d IHd]; cbn [flat_map]; [intros []|].
  cbn [map fst snd app].
  intros [<-|Hin].
  - apply (contains_join _ _ (Str.lower k)); [left; reflexivity | apply contains_refl].
  - apply contains_join_tail.
    apply in_app_or in Hin. destruct Hin as [Hin|Hin].
    + apply (contains_join _ _ (Str.lower (flatten_to_string v (S depth))));
        [left; reflexivity|].
      apply (IH v (S depth) key Hin).
    + apply contains_join_tail. apply IHd, Hin.
Qed.

(** The three ways a source gets referenced, and the one that is left
    for a source with no related terms of its own. *)
Lemma is_referenced_cases (analysis : dict) (source : string) :
  let text := Str.lower (flatten_to_string (VDict analysis) 0) in
  let name := Str.lower source in
  let keys := collect_keys (VDict analysis) 0 in
  (is_referenced analysis text source = true <->
   Str.contains name text = true \/
   (2 <= List.length
           (filter (fun term => Str.contains term text) (related_terms name)))%nat \/
   exists term key,
     In term (related_terms name) /\ In key keys /\
     Str.contains term key = true) /\
  (related_terms name = [name] ->
   is_referenced analysis text source = Str.contains name text).
Proof.
  intros text name keys.
  assert (Hkey : in_list name keys = true -> Str.contains name text = true).
  { intros H. apply in_list_In in H. apply (collect_keys_in_text _ _ _ H). }
  split.
  - unfold is_referenced. cbv zeta. fold text name keys.
    destruct (Str.contains name text) eqn:Ed; [split; [left; reflexivity | reflexivity]|].
    destruct (Nat.leb_spec 2 (List.length
                (filter (fun term => Str.contains term text) (related_terms name))))
      as [H2|H2].
    + split; [intros _; right; left; exact H2 | reflexivity].
    + destruct (in_list name keys) eqn:Ek; [discriminate (Hkey eq_refl)|].
      cbn [orb]. split.
      * intros H. right. right. apply existsb_exists in H.
        destruct H as (term & Ht & H). apply existsb_exists in H.
        destruct H as (key & Hk & H). exists term, key. repeat split; assumption.
      * intros [H|[H|(term & key & Ht & Hk & H)]]; [congruence | lia |].
        apply existsb_exists. exists term. split; [exact Ht|].
        apply existsb_exists. exists key. split; assumption.
  - intros Hun. unfold is_referenced. cbv zeta. fold text name keys.
    rewrite Hun.
    destruct (Str.contains name text) eqn:Ed; [reflexivity|].
    cbn [filter]. rewrite Ed. cbn [List.length Nat.leb existsb].
    destruct (in_list name keys) eqn:Ek; [discriminate (Hkey eq_refl)|].
    cbn [orb]. rewrite orb_false_r.
    destruct (existsb (fun key => Str.contains name key) keys) eqn:Ex; [|reflexivity].
    apply existsb_exists in Ex. destruct Ex as (key & Hk & Hc).
    rewrite <- Ed. symmetry.
    apply (contains_trans _ key); [exact Hc|].
    apply (collect_keys_in_text _ _ _ Hk).
Qed.

(** X20. A source is counted as referenced exactly when its lowercased
    name occurs in the lowercased text of the analysis, or at least two of
    its related terms do, or one related term occurs in a key of the
    analysis (down to the depth keys are collected at); a key equal to the
    name adds nothing, every such key being part of the text. A source
    with no related terms of its own is referenced exactly when its name
    occurs in the text. *)
Theorem referenced_cases (analysis : dict) (source : string) :
  let text := Str.lower (flatten_to_string (VDict analysis) 0) in
  let name := Str.lower source in
  let keys := collect_keys (VDict analysis) 0 in
  (is_referenced analysis text source = true <->
   Str.contains name text = true \/
   (2 <= List.length
           (filter (fun term => Str.contains term text) (related_terms name)))%nat \/
   exists term key,
     In term (related_terms name) /\ In key keys /\
     Str.contains term key = true) /\
  (related_terms name = [name] ->
   is_referenced analysis text source = Str.contains name text).
Proof.
  exact (is_referenced_cases analysis source).
Qed.


(** ** The rules of the logic scorer *)

Lemma and_then_ok_true (a b : result bool) :
  and_then a b = Ok true <-> a = Ok true /\ b = Ok true.
Proof.
  split; [apply and_then_true|]. intros [-> ->]. reflexivity.
Qed.

Lemma state_eta (st : state) (l : list string) :
  l = [] -> st = (fst st, (snd st ++ l)%list).
Proof. intros ->. destruct st. cbn. rewrite app_nil_r. reflexivity. Qed.

Lemma rule_limited_sources_inv (confidence sources_successful : value)
    (st st' : state) :
  rule_limited_sources confidence sources_successful st = Ok st' ->
  exists (a : bool) (la : list string),
    (a = true <->
     truthy confidence = true /\ py_gt confidence (NFloat f0_9) = Ok true /\
     exists n, py_len sources_successful = Ok n /\ n < 4) /\
    st' = (scale_if a (fst st) f0_7, (snd st ++ la)%list) /\
    (if a
     then exists pct n,
            Py.format_pct0 confidence = Ok pct /\
            py_len sources_successful = Ok n /\
            la = ["Very high confidence (" ++ pct ++
                  ") with limited data sources (" ++ Str.of_Z n ++ " successful)"]
     else la = []).
Proof.
  unfold rule_limited_sources, and_then. cbn [bind]. intros H.
  destruct (truthy confidence) eqn:Et.
  - destruct (py_gt confidence (NFloat f0_9)) as [[|]|e] eqn:Eg; cbn [bind] in H;
      try discriminate H.
    + bind_inv H. destruct (Z.ltb_spec a 4) as [Hlt|Hge].
      * bind_inv H. apply Ok_inj in H. subst st'. exists true. eexists.
        split; [|split; [reflexivity|]].
        -- split; [intros _|reflexivity]. repeat split. exists a. split; assumption.
        -- exists a0, a. repeat split; assumption.
      * apply Ok_inj in H. subst st'. exists false, [].
        split; [|split; [apply state_eta; reflexivity | reflexivity]].
        split; [intros E; discriminate E|].
        intros (_ & _ & n & Hn & Hlt). rewrite Ha in Hn. apply Ok_inj in Hn. lia.
    + apply Ok_inj in H. subst st'. exists false, [].
      split; [|split; [apply state_eta; reflexivity | reflexivity]].
      split; [intros E; discriminate E|]. intros (_ & E & _). discriminate E.
  - apply Ok_inj in H. subst st'. exists false, [].
    split; [|split; [apply state_eta; reflexivity | reflexivity]].
    split; [intros E; discriminate E|]. intros (E & _). discriminate E.
Qed.

Lemma rule_extreme_score_inv (analysis : dict) (score : value) (st st' : state) :
  rule_extreme_score analysis score st = Ok st' ->
  exists (b : bool) (lb : list string),
    (b = true <->
     truthy score = true /\
     (py_gt score (NInt 9) = Ok true \/ py_lt score (NInt 1) = Ok true) /\
     exists n, py_len (get_findings analysis) = Ok n /\ n < 3) /\
    st' = (scale_if b (fst st) f0_6, (snd st ++ lb)%list) /\
    (if b
     then lb = ["Extreme score (" ++ str score ++
                ") without sufficient supporting findings"]
     else lb = []).
Proof.
  unfold rule_extreme_score, or_else. intros H.
  destruct (truthy score) eqn:Et.
  - bind_inv H.
    assert (Hc : a = true <->
                 py_gt score (NInt 9) = Ok true \/ py_lt score (NInt 1) = Ok true).
    { unfold py_gt, py_lt in *. destruct (as_num score) as [x|]; cbn [bind] in Ha;
        [|discriminate Ha].
      destruct (num_gt x (NInt 9)); apply Ok_inj in Ha; subst a.
      - split; [intros _; left; reflexivity | reflexivity].
      - split; [intros E; right; rewrite E; reflexivity|].
        intros [E|E]; [discriminate E | apply Ok_inj in E; exact E]. }
    destruct a.
    + bind_inv H. destruct (Z.ltb_spec a 3) as [Hlt|Hge]; apply Ok_inj in H; subst st'.
      * exists true. eexists. split; [|split; reflexivity].
        split; [intros _|reflexivity]. split; [reflexivity|].
        split; [apply Hc; reflexivity|]. exists a. split; assumption.
      * exists false, [].
        split; [|split; [apply state_eta; reflexivity | reflexivity]].
        split; [intros E; discriminate E|].
        intros (_ & _ & n & Hn & Hlt). rewrite Ha0 in Hn. apply Ok_inj in Hn. lia.
    + apply Ok_inj in H. subst st'. exists false, [].
      split; [|split; [apply state_eta; reflexivity | reflexivity]].
      split; [intros E; discriminate E|].
      intros (_ & E & _). apply Hc in E. discriminate E.
  - apply Ok_inj in H. subst st'. exists false, [].
    split; [|split; [apply state_eta; reflexivity | reflexivity]].
    split; [intros E; discriminate E|]. intros (E & _). discriminate E.
Qed.

(** X21. What the logic scorer returns, rule by rule: which of its three
    rules fire (very high confidence on fewer than four successful
    sources; a truthy score above 9 or below 1 with fewer than three
    findings; recommendations without findings), the score as 1.0
    multiplied in turn by 0.7, 0.6 and 0.7 for the rules that fire, and the
    issues as the messages of those rules, in that order. *)
Theorem logic_rules (analysis raw_data : dict) (l : float) (li : list string) :
  check_logic analysis raw_data = Ok (l, li) ->
  let confidence := dict_get analysis "confidence" (VInt 0) in
  let score := get_score analysis in
  let findings := get_findings analysis in
  let recommendations := dict_get analysis "recommendations" (VList []) in
  let sources_successful := dict_get raw_data "sources_successful" (VList []) in
  exists (a b c : bool) (la lb lc : list string),
    (a = true <->
     truthy confidence = true /\ py_gt confidence (NFloat f0_9) = Ok true /\
     exists n, py_len sources_successful = Ok n /\ n < 4) /\
    (b = true <->
     truthy score = true /\
     (py_gt score (NInt 9) = Ok true \/ py_lt score (NInt 1) = Ok true) /\
     exists n, py_len findings = Ok n /\ n < 3) /\
    (c = true <-> truthy recommendations = true /\ truthy findings = false) /\
    l = scale_if c (scale_if b (scale_if a one f0_7) f0_6) f0_7 /\
    li = (la ++ lb ++ lc)%list /\
    (if a
     then exists pct n,
            Py.format_pct0 confidence = Ok pct /\
            py_len sources_successful = Ok n /\
            la = ["Very high confidence (" ++ pct ++
                  ") with limited data sources (" ++ Str.of_Z n ++ " successful)"]
     else la = []) /\
    (if b
     then lb = ["Extreme score (" ++ str score ++
                ") without sufficient supporting findings"]
     else lb = []) /\
    (if c
     then lc = ["Recommendations provided without supporting findings"]
     else lc = []).
Proof.
  unfold check_logic. intros H. cbv zeta.
  bind_inv H. bind_inv H. apply Ok_inj in H.
  apply rule_limited_sources_inv in Ha. destruct Ha as (a1 & la & Hca & -> & Hla).
  apply rule_extreme_score_inv in Ha0. destruct Ha0 as (b & lb & Hcb & -> & Hlb).
  cbn [fst snd] in *.
  set (c := truthy (dict_get analysis "recommendations" (VList [])) &&
            negb (truthy (get_findings analysis))) in *.
  exists a1, b, c, la, lb, (if c then ["Recommendations provided without supporting findings"] else []).
  split; [exact Hca|]. split; [exact Hcb|].
  split.
  { unfold c. rewrite andb_true_iff, negb_true_iff. reflexivity. }
  unfold rule_unsupported in H. fold c in H.
  destruct c; unfold discount in H; cbn [fst snd] in H; injection H as <- <-.
  - split; [reflexivity|]. split; [rewrite <- app_assoc; reflexivity|].
    split; [exact Hla|]. split; [exact Hlb | reflexivity].
  - split; [reflexivity|]. split; [rewrite app_nil_r; reflexivity|].
    split; [exact Hla|]. split; [exact Hlb | reflexivity].
Qed.

Lemma logic_rules_witness :
  exists l li,
    check_logic flagged_analysis flagged_raw_data = Ok (l, li) /\
    let confidence := dict_get flagged_analysis "confidence" (VInt 0) in
    let score := get_score flagged_analysis in
    let findings := get_findings flagged_analysis in
    let recommendations := dict_get flagged_analysis "recommendations" (VList []) in
    let sources_successful :=
      dict_get flagged_raw_data "sources_successful" (VList []) in
    exists (a b c : bool) (la lb lc : list string),
      (a = true <->
       truthy confidence = true /\ py_gt confidence (NFloat f0_9) = Ok true /\
       exists n, py_len sources_successful = Ok n /\ n < 4) /\
      (b = true <->
       truthy score = true /\
       (py_gt score (NInt 9) = Ok true \/ py_lt score (NInt 1) = Ok true) /\
       exists n, py_len findings = Ok n /\ n < 3) /\
      (c = true <-> truthy recommendations = true /\ truthy findings = false) /\
      l = scale_if c (scale_if b (scale_if a one f0_7) f0_6) f0_7 /\
      li = (la ++ lb ++ lc)%list /\
      (if a
       then exists pct n,
              Py.format_pct0 confidence = Ok pct /\
              py_len sources_successful = Ok n /\
              la = ["Very high confidence (" ++ pct ++
                    ") with limited data sources (" ++ Str.of_Z n ++ " successful)"]
       else la = []) /\
      (if b
       then lb = ["Extreme score (" ++ str score ++
                  ") without sufficient supporting findings"]
       else lb = []) /\
      (if c
       then lc = ["Recommendations provided without supporting findings"]
       else lc = []).
Proof.
  eexists. eexists. split; [vm_compute; reflexivity|].
  apply (logic_rules flagged_analysis flagged_raw_data).
  vm_compute. reflexivity.
Defined.

(** ** The rules of the consistency scorer *)

Lemma rule_low_quality_inv (confidence data_quality : value) (st st' : state) :
  rule_low_quality confidence data_quality st = Ok st' ->
  exists (a : bool) (la : list string),
    (a = true <->
     truthy confidence = true /\ py_gt confidence (NFloat f0_8) = Ok true /\
     py_lt data_quality (NInt 50) = Ok true) /\
    st' = (scale_if a (fst st) f0_6, (snd st ++ la)%list) /\
    (if a
     then exists pct,
            Py.format_pct0 confidence = Ok pct /\
            la = ["High confidence (" ++ pct ++ ") despite low data quality (" ++
                  str data_quality ++ "%)"]
     else la = []).
Proof.
  unfold rule_low_quality, and_then. cbn [bind]. intros H.
  destruct (truthy confidence) eqn:Et.
  - destruct (py_gt confidence (NFloat f0_8)) as [[|]|e] eqn:Eg; cbn [bind] in H;
      try discriminate H.
    + destruct (py_lt data_quality (NInt 50)) as [[|]|e] eqn:El; cbn [bind] in H;
        try discriminate H.
      * bind_inv H. apply Ok_inj in H. subst st'. exists true. eexists.
        split; [|split; [reflexivity|]].
        -- split; [intros _; repeat split | reflexivity].
        -- exists a. split; [exact Ha | reflexivity].
      * apply Ok_inj in H. subst st'. exists false, [].
        split; [|split; [apply state_eta; reflexivity | reflexivity]].
        split; [intros E; discriminate E|]. intros (_ & _ & E). discriminate E.
    + apply Ok_inj in H. subst st'. exists false, [].
      split; [|split; [apply state_eta; reflexivity | reflexivity]].
      split; [intros E; discriminate E|]. intros (_ & E & _). discriminate E.
  - apply Ok_inj in H. subst st'. exists false, [].
    split; [|split; [apply state_eta; reflexivity | reflexivity]].
    split; [intros E; discriminate E|]. intros (E & _). discriminate E.
Qed.

Lemma rule_failed_sources_inv (score sources_failed : value) (st st' : state) :
  rule_failed_sources score sources_failed st = Ok st' ->
  exists (b : bool) (lb : list string),
    (b = true <->
     truthy score = true /\ py_gt score (NInt 7) = Ok true /\
     exists n, py_len sources_failed = Ok n /\ 2 < n) /\
    st' = (scale_if b (fst st) f0_7, (snd st ++ lb)%list) /\
    (if b
     then exists n,
            py_len sources_failed = Ok n /\
            lb = ["High score (" ++ str score ++ ") but " ++ Str.of_Z n ++
                  " data sources failed"]
     else lb = []).
Proof.
  unfold rule_failed_sources, and_then. cbn [bind]. intros H.
  destruct (truthy score) eqn:Et.
  - destruct (py_gt score (NInt 7)) as [[|]|e] eqn:Eg; cbn [bind] in H;
      try discriminate H.
    + destruct (py_len sources_failed) as [n|e] eqn:En; cbn [bind] in H;
        try discriminate H.
      destruct (Z.ltb_spec 2 n) as [Hlt|Hge]; cbn [bind] in H;
        apply Ok_inj in H; subst st'.
      * exists true. eexists. split; [|split; [reflexivity|]].
        -- split; [intros _|reflexivity]. repeat split. exists n. split; [reflexivity | exact Hlt].
        -- exists n. split; reflexivity.
      * exists false, [].
        split; [|split; [apply state_eta; reflexivity | reflexivity]].
        split; [intros E; discriminate E|].
        intros (_ & _ & m & Hm & Hlt). apply Ok_inj in Hm. lia.
    + apply Ok_inj in H. subst st'. exists false, [].
      split; [|split; [apply state_eta; reflexivity | reflexivity]].
      split; [intros E; discriminate E|]. intros (_ & E & _). discriminate E.
  - apply Ok_inj in H. subst st'. exists false, [].
    split; [|split; [apply state_eta; reflexivity | reflexivity]].
    split; [intros E; discriminate E|]. intros (E & _). discriminate E.
Qed.

Lemma rule_few_findings_inv (confidence findings : value) (st st' : state) :
  rule_few_findings confidence findings st = Ok st' ->
  exists (c : bool) (lc : list string),
    (c = true <->
     truthy confidence = true /\ py_gt confidence (NFloat f0_8) = Ok true /\
     exists n, py_len findings = Ok n /\ n < 2) /\
    st' = (scale_if c (fst st) f0_8, (snd st ++ lc)%list) /\
    (if c
     then exists pct n,
            Py.format_pct0 confidence = Ok pct /\ py_len findings = Ok n /\
            lc = ["High confidence (" ++ pct ++ ") but only " ++ Str.of_Z n ++
                  " findings"]
     else lc = []).
Proof.
  unfold rule_few_findings, and_then. cbn [bind]. intros H.
  destruct (truthy confidence) eqn:Et.
  - destruct (py_gt confidence (NFloat f0_8)) as [[|]|e] eqn:Eg; cbn [bind] in H;
      try discriminate H.
    + destruct (py_len findings) as [n|e] eqn:En; cbn [bind] in H;
        try discriminate H.
      destruct (Z.ltb_spec n 2) as [Hlt|Hge]; cbn [bind] in H.
      * bind_inv H. apply Ok_inj in H. subst st'.
        exists true. eexists. split; [|split; [reflexivity|]].
        -- split; [intros _|reflexivity]. repeat split. exists n. split; [reflexivity | exact Hlt].
        -- exists a, n. repeat split. exact Ha.
      * apply Ok_inj in H. subst st'. exists false, [].
        split; [|split; [apply state_eta; reflexivity | reflexivity]].
        split; [intros E; discriminate E|].
        intros (_ & _ & m & Hm & Hlt). apply Ok_inj in Hm. lia.
    + apply Ok_inj in H. subst st'. exists false, [].
      split; [|split; [apply state_eta; reflexivity | reflexivity]].
      split; [intros E; discriminate E|]. intros (_ & E & _). discriminate E.
  - apply Ok_inj in H. subst st'. exists false, [].
    split; [|split; [apply state_eta; reflexivity | reflexivity]].
    split; [intros E; discriminate E|]. intros (E & _). discriminate E.
Qed.

Lemma contradictions_scale (txt : string) (pairs : list (string * string)) :
  forall st : state,
    fold_left (rule_contradiction txt) pairs st
    = (fold_left (fun x pair => scale_if (contradicts txt pair) x f0_9) pairs (fst st),
       (snd st ++ map contradiction_issue (filter (contradicts txt) pairs))%list).
Proof.
  induction pairs as [|p pairs IH]; intros [x l]; cbn [fold_left filter map fst snd].
  - rewrite app_nil_r. reflexivity.
  - rewrite IH. unfold rule_contradiction.
    change (Str.contains (fst p) txt && Str.contains (snd p) txt)
      with (contradicts txt p).
    destruct (contradicts txt p); unfold discount; cbn [fst snd map];
      [rewrite <- app_assoc|]; reflexivity.
Qed.

(** X22. What the consistency scorer returns, rule by rule: which of its
    three evidence rules fire (confidence above 0.8 on a data quality below
    50; a truthy score above 7 with more than two failed sources;
    confidence above 0.8 with fewer than two findings), the score as 1.0
    multiplied in turn by 0.6, 0.7, 0.8 for the rules that fire and by 0.9
    for each pair of opposite terms found in the findings, and the issues
    as the messages of those rules followed by those of the pairs, in
    order. *)
Theorem consistency_rules (analysis raw_data : dict) (s : float)
    (si : list string) :
  check_consistency analysis raw_data = Ok (s, si) ->
  let confidence := dict_get analysis "confidence" (VInt 0) in
  let score := get_score analysis in
  let findings := get_findings analysis in
  let data_quality := dict_get raw_data "data_quality_score" (VInt 100) in
  let sources_failed := dict_get raw_data "sources_failed" (VList []) in
  exists (a b c : bool) (la lb lc : list string) (txt : string),
    (a = true <->
     truthy confidence = true /\ py_gt confidence (NFloat f0_8) = Ok true /\
     py_lt data_quality (NInt 50) = Ok true) /\
    (b = true <->
     truthy score = true /\ py_gt score (NInt 7) = Ok true /\
     exists n, py_len sources_failed = Ok n /\ 2 < n) /\
    (c = true <->
     truthy confidence = true /\ py_gt confidence (NFloat f0_8) = Ok true /\
     exists n, py_len findings = Ok n /\ n < 2) /\
    findings_text findings = Ok txt /\
    s = fold_left (fun x pair => scale_if (contradicts txt pair) x f0_9)
          contradiction_pairs
          (scale_if c (scale_if b (scale_if a one f0_6) f0_7) f0_8) /\
    si = (la ++ lb ++ lc ++
          map contradiction_issue (filter (contradicts txt) contradiction_pairs))%list /\
    (if a
     then exists pct,
            Py.format_pct0 confidence = Ok pct /\
            la = ["High confidence (" ++ pct ++ ") despite low data quality (" ++
                  str data_quality ++ "%)"]
     else la = []) /\
    (if b
     then exists n,
            py_len sources_failed = Ok n /\
            lb = ["High score (" ++ str score ++ ") but " ++ Str.of_Z n ++
                  " data sources failed"]
     else lb = []) /\
    (if c
     then exists pct n,
            Py.format_pct0 confidence = Ok pct /\ py_len findings = Ok n /\
            lc = ["High confidence (" ++ pct ++ ") but only " ++ Str.of_Z n ++
                  " findings"]
     else lc = []).
Proof.
  intros H. cbv zeta. apply check_consistency_inv in H.
  destruct H as (st1 & st2 & st3 & txt & H1 & H2 & H3 & Htxt & Hfold).
  apply rule_low_quality_inv in H1. destruct H1 as (a & la & Hca & -> & Hla).
  apply rule_failed_sources_inv in H2. destruct H2 as (b & lb & Hcb & -> & Hlb).
  apply rule_few_findings_inv in H3. destruct H3 as (c & lc & Hcc & -> & Hlc).
  cbn [fst snd app] in *.
  rewrite contradictions_scale in Hfold. cbn [fst snd] in Hfold.
  exists a, b, c, la, lb, lc, txt.
  split; [exact Hca|]. split; [exact Hcb|]. split; [exact Hcc|].
  split; [exact Htxt|].
  assert (Es : s = fst (s, si)) by reflexivity.
  assert (Ei : si = snd (s, si)) by reflexivity.
  rewrite Hfold in Es, Ei. cbn [fst snd] in Es, Ei.
  split; [exact Es|]. split; [rewrite Ei, <- !app_assoc; reflexivity|].
  split; [exact Hla|]. split; [exact Hlb | exact Hlc].
Qed.

Lemma consistency_rules_witness :
  exists s si,
    check_consistency flagged_analysis flagged_raw_data = Ok (s, si) /\
    let confidence := dict_get flagged_analysis "confidence" (VInt 0) in
    let score := get_score flagged_analysis in
    let findings := get_findings flagged_analysis in
    let data_quality := dict_get flagged_raw_data "data_quality_score" (VInt 100) in
    let sources_failed := dict_get flagged_raw_data "sources_failed" (VList []) in
    exists (a b c : bool) (la lb lc : list string) (txt : string),
      (a = true <->
       truthy confidence = true /\ py_gt confidence (NFloat f0_8) = Ok true /\
       py_lt data_quality (NInt 50) = Ok true) /\
      (b = true <->
       truthy score = true /\ py_gt score (NInt 7) = Ok true /\
       exists n, py_len sources_failed = Ok n /\ 2 < n) /\
      (c = true <->
       truthy confidence = true /\ py_gt confidence (NFloat f0_8) = Ok true /\
       exists n, py_len findings = Ok n /\ n < 2) /\
      findings_text findings = Ok txt /\
      s = fold_left (fun x pair => scale_if (contradicts txt pair) x f0_9)
            contradiction_pairs
            (scale_if c (scale_if b (scale_if a one f0_6) f0_7) f0_8) /\
      si = (la ++ lb ++ lc ++
            map contradiction_issue (filter (contradicts txt) contradiction_pairs))%list /\
      (if a
       then exists pct,
              Py.format_pct0 confidence = Ok pct /\
              la = ["High confidence (" ++ pct ++ ") despite low data quality (" ++
                    str data_quality ++ "%)"]
       else la = []) /\
      (if b
       then exists n,
              py_len sources_failed = Ok n /\
              lb = ["High score (" ++ str score ++ ") but " ++ Str.of_Z n ++
                    " data sources failed"]
       else lb = []) /\
      (if c
       then exists pct n,
              Py.format_pct0 confidence = Ok pct /\ py_len findings = Ok n /\
              lc = ["High confidence (" ++ pct ++ ") but only " ++ Str.of_Z n ++
                    " findings"]
       else lc = []).
Proof.
  eexists. eexists. split; [vm_compute; reflexivity|].
  apply (consistency_rules flagged_analysis flagged_raw_data).
  vm_compute. reflexivity.
Defined.

(** ** The completeness score *)

(** C8. Where the completeness scorer returns, its score is exactly 1.0
    when [raw_data] yields no available source (and [round(_, 3)] leaves it
    so). Otherwise it is the quotient of the number of referenced sources by
    the number of available ones, the referenced sources being, each once,
    the available sources whose lowercased name occurs in the lowercased
    text of the analysis, or at least two of whose related terms do, or one
    of whose related terms occurs in a collected key.
    No source is available exactly when every top-level entry is falsy,
    reserved, or a mapping the success rule filters out. *)
Theorem completeness_score_cases (analysis raw_data : dict)
    (expected_fields : option (list string)) (score : float)
    (issues : list string) :
  check_completeness analysis raw_data expected_fields = Ok (score, issues) ->
  let available := available_sources raw_data in
  let text := Str.lower (flatten_to_string (VDict analysis) 0) in
  let keys := collect_keys (VDict analysis) 0 in
  (available = [] -> score = one /\ F64.round3 score = one) /\
  (available <> [] ->
   exists referenced : list string,
     NoDup referenced /\
     (forall source,
        In source referenced <->
        In source available /\
        (Str.contains (Str.lower source) text = true \/
         (2 <= List.length
                 (filter (fun term => Str.contains term text)
                         (related_terms (Str.lower source))))%nat \/
         exists term key,
           In term (related_terms (Str.lower source)) /\ In key keys /\
           Str.contains term key = true)) /\
     int_truediv (Z.of_nat (List.length referenced))
                 (Z.of_nat (List.length available)) = Ok score) /\
  (available = [] <->
   forall k v, In (k, v) raw_data ->
     truthy v = false \/ In k reserved_keys \/
     exists d, v = VDict d /\
       (truthy (dict_get d "success" (VBool true)) = false \/
        forall k' v', In (k', v') d -> k' = "success" \/ truthy v' = false)).
Proof.
  intros H available text keys. unfold check_completeness in H.
  fold available in H. fold text in H.
  bind_inv H. apply Ok_inj in H.
  assert (Hs : a = score) by congruence. clear H. subst a.
  split; [|split].
  - intros E. rewrite E in Ha. apply Ok_inj in Ha. subst score.
    split; reflexivity.
  - intros Hne. exists (sources_referenced analysis available).
    split; [|split].
    + unfold sources_referenced. apply NoDup_filter.
      apply (available_fold raw_data [] (NoDup_nil _)).
    + intros source. unfold sources_referenced. rewrite filter_In.
      pose proof (proj1 (is_referenced_cases analysis source)) as Hr.
      cbv zeta in Hr. unfold text, keys. rewrite Hr. reflexivity.
    + destruct available as [|x l] eqn:Ea; [contradiction Hne; reflexivity|].
      exact Ha.
  - unfold available, available_sources. rewrite available_from_nil.
    split.
    + intros [_ Hall] k v Hin. apply is_source_false_iff, Hall, Hin.
    + intros Hall. split; [reflexivity|].
      intros k v Hin. apply is_source_false_iff, Hall, Hin.
Qed.

Lemma completeness_score_cases_witness :
  exists score issues,
    check_completeness thorough_analysis
      partly_read_raw_data None
    = Ok (score, issues) /\
    let available := available_sources partly_read_raw_data in
    let text := Str.lower (flatten_to_string (VDict thorough_analysis) 0) in
    let keys := collect_keys (VDict thorough_analysis) 0 in
    (available = [] -> score = one /\ F64.round3 score = one) /\
    (available <> [] ->
     exists referenced : list string,
       NoDup referenced /\
       (forall source,
          In source referenced <->
          In source available /\
          (Str.contains (Str.lower source) text = true \/
           (2 <= List.length
                   (filter (fun term => Str.contains term text)
                           (related_terms (Str.lower source))))%nat \/
           exists term key,
             In term (related_terms (Str.lower source)) /\ In key keys /\
             Str.contains term key = true)) /\
       int_truediv (Z.of_nat (List.length referenced))
                   (Z.of_nat (List.length available)) = Ok score) /\
    (available = [] <->
     forall k v, In (k, v) partly_read_raw_data ->
       truthy v = false \/ In k reserved_keys \/
       exists d, v = VDict d /\
         (truthy (dict_get d "success" (VBool true)) = false \/
          forall k' v', In (k', v') d -> k' = "success" \/ truthy v' = false)).
Proof.
  eexists. eexists. split; [vm_compute; reflexivity|].
  eapply (completeness_score_cases thorough_analysis partly_read_raw_data None).
  vm_compute. reflexivity.
Defined.
